(** * Coach RAG engine: a shallow embedding of [coach_rag_engine]

    The development follows [models.py] and [engine.py].

    Modelling conventions.
    - The numbers the effectiveness assessor computes with (the metrics
      it is given, the differences it takes, the score it adds up) are
      binary64 floats, Rocq's primitive [float]: a literal such as
      [0.05] denotes the nearest binary64 value, as it does in Python,
      and [+], [-], [<?] are the IEEE operations.  So [6.1 - 6.15] is
      [-0.05000000000000071] and [0.5 + 0.2 + 0.2] is
      [0.8999999999999999], as in the source.
    - The other Python numbers are exact rationals [Q], and the typed
      integer fields of the dataclasses are [Z]: they are inputs that the
      engine compares with a constant or with each other and passes on,
      and rounding is not modelled for them.  The thresholds of these
      comparisons (0.85, 5.5, ...) are the decimals they are written
      as.  Three computations are exact here that the source does in
      floats: the zone share, the heart-rate ratio and the selection
      score.
    - A Python [dict] with string keys is a [gmap string _];
      [d.get(k, v)] is [default v (d !! k)].
    - An attribute that [CoachRAGEngine.__init__] assigns is a field of
      [Engine]; an attribute that the methods read but [__init__] never
      assigns is an [option] field, [None] meaning that the object has
      no such attribute (reading it raises [AttributeError]).
    - A coroutine is a computation in the monad [M]: it threads the
      pending-execution store and the log of outbound HTTP calls, and it
      ends in a value or in a raised exception.  The collaborators are
      the oracles of a [World].
    - JSON bodies are typed after the fields the engine reads: a key
      read with [d[k]] is a field, a key read with [d.get(k, v)] is an
      [option] field, and a body of another shape is the [None] body,
      on which decoding raises.  The metric dictionaries given to the
      assessor hold floats; a missing metric reads as 0.
    - Printing is left out; it has no effect on results or state. *)

From Stdlib Require Import QArith Qabs Lqa ZArith Sorted Floats.
From stdpp Require Import base gmap strings list.

Local Open Scope string_scope.

(** Decimal literals of floats are rounded to the nearest binary64
    value; no warning is wanted for that. *)
Set Warnings "-inexact-float".

(** ** Python runtime: exceptions and results *)

Inductive exn : Type :=
| AttributeError (attr : string)
| ValueError (msg : string)
| ZeroDivisionError
| KeyError (key : string)
| TypeError
| JSONDecodeError
| TransportError
| PlainException (msg : string).

Inductive res (A : Type) : Type :=
| Return (a : A)
| Raise (e : exn).
Arguments Return {A} a.
Arguments Raise {A} e.

Definition res_bind {A B} (r : res A) (k : A -> res B) : res B :=
  match r with
  | Return a => k a
  | Raise e => Raise e
  end.


(** Truth value of a [str]: the empty string is falsy. *)
Definition str_truthy (s : string) : bool :=
  match s with EmptyString => false | String _ _ => true end.

(** [a / b] on numbers: true division, raising on a zero divisor. *)
Definition py_truediv (a b : Q) : res Q :=
  if Qeq_bool b 0 then Raise ZeroDivisionError else Return (a / b)%Q.

Definition Qltb (a b : Q) : bool := negb (Qle_bool b a).

(** ** models.py: enumerations *)

Inductive CoachPersonality := STRATEGIST | PACER | FINISHER.
Inductive CoachEnergy := ENERGY_LOW | ENERGY_MEDIUM | ENERGY_HIGH.
Inductive PaceTrend := PACE_IMPROVING | PACE_STABLE | PACE_DECLINING | PACE_ERRATIC.
Inductive HRTrend := HR_STABLE | HR_RISING | HR_SPIKING | HR_RECOVERING.
Inductive FatigueLevel :=
  FATIGUE_NONE | FATIGUE_LOW | FATIGUE_MODERATE | FATIGUE_HIGH | FATIGUE_SEVERE.
Inductive TargetStatus := AHEAD | ON_TRACK | SLIGHTLY_BEHIND | WAY_BEHIND.

#[global] Instance CoachPersonality_eq_dec : EqDecision CoachPersonality.
Proof. solve_decision. Defined.
#[global] Instance CoachEnergy_eq_dec : EqDecision CoachEnergy.
Proof. solve_decision. Defined.
#[global] Instance PaceTrend_eq_dec : EqDecision PaceTrend.
Proof. solve_decision. Defined.
#[global] Instance HRTrend_eq_dec : EqDecision HRTrend.
Proof. solve_decision. Defined.
#[global] Instance FatigueLevel_eq_dec : EqDecision FatigueLevel.
Proof. solve_decision. Defined.
#[global] Instance TargetStatus_eq_dec : EqDecision TargetStatus.
Proof. solve_decision. Defined.

(** The [.value] of each enumeration member. *)
Class EnumValue (A : Type) := value : A -> string.

#[global] Instance CoachPersonality_value : EnumValue CoachPersonality := fun p =>
  match p with
  | STRATEGIST => "strategist" | PACER => "pacer" | FINISHER => "finisher"
  end.
#[global] Instance CoachEnergy_value : EnumValue CoachEnergy := fun e =>
  match e with
  | ENERGY_LOW => "low" | ENERGY_MEDIUM => "medium" | ENERGY_HIGH => "high"
  end.
#[global] Instance PaceTrend_value : EnumValue PaceTrend := fun t =>
  match t with
  | PACE_IMPROVING => "improving" | PACE_STABLE => "stable"
  | PACE_DECLINING => "declining" | PACE_ERRATIC => "erratic"
  end.
#[global] Instance HRTrend_value : EnumValue HRTrend := fun t =>
  match t with
  | HR_STABLE => "stable" | HR_RISING => "rising"
  | HR_SPIKING => "spiking" | HR_RECOVERING => "recovering"
  end.
#[global] Instance FatigueLevel_value : EnumValue FatigueLevel := fun f =>
  match f with
  | FATIGUE_NONE => "none" | FATIGUE_LOW => "low" | FATIGUE_MODERATE => "moderate"
  | FATIGUE_HIGH => "high" | FATIGUE_SEVERE => "severe"
  end.
#[global] Instance TargetStatus_value : EnumValue TargetStatus := fun t =>
  match t with
  | AHEAD => "ahead" | ON_TRACK => "on_track"
  | SLIGHTLY_BEHIND => "slightly_behind" | WAY_BEHIND => "way_behind"
  end.

(** [x in [a, b]] on enumeration members. *)
Definition py_in {A} `{EqDecision A} (x : A) (l : list A) : bool :=
  existsb (fun y => bool_decide (x = y)) l.

(** ** models.py: dataclasses *)

Module PerformanceAnalysis.
Record t := mk {
    current_pace : Q;
    target_pace : Q;
    current_distance : Q;
    target_distance : Q;
    elapsed_time : Q;
    current_hr : option Z;
    average_hr : option Z;
    max_hr : option Z;
    current_zone : option Z;
    zone_percentages : gmap Z Q;
    pace_trend : PaceTrend;
    hr_trend : HRTrend;
    fatigue_level : FatigueLevel;
    target_status : TargetStatus;
    performance_summary : string;
    heart_zone_analysis : string;
    interval_trends : string;
    hr_variation_analysis : string;
    injury_risk_signals : list string;
    adaptive_microstrategy : string;
    pace_deviation : Q;
    completed_intervals : Z;
    interval_paces : list Q
  }.
End PerformanceAnalysis.

Module SituationContext.
Record t := mk {
    pace_trend : PaceTrend;
    hr_trend : HRTrend;
    fatigue_level : FatigueLevel;
    target_status : TargetStatus;
    cardiac_drift : bool;
    zone_too_high : bool;
    injury_risk : bool;
    form_breakdown : bool;
    push_possible : bool;
    recovery_needed : bool;
    personality : CoachPersonality;
    energy_level : CoachEnergy;
    situation_tags : list string
  }.

  (** [build_tags]: the tag list, as a function of the other fields. *)
Definition build_tags (c : t) : list string :=
    (if bool_decide (pace_trend c = PACE_DECLINING) then ["pace_decline"]
     else if bool_decide (pace_trend c = PACE_STABLE) then ["pace_stable"]
     else if bool_decide (pace_trend c = PACE_IMPROVING) then ["pace_improving"]
     else [])
    ++ (if bool_decide (hr_trend c = HR_RISING) then ["hr_rising"]
        else if bool_decide (hr_trend c = HR_STABLE) then ["hr_stable"]
        else if bool_decide (hr_trend c = HR_SPIKING) then ["hr_spiking"]
        else [])
    ++ (if bool_decide (target_status c = AHEAD) then ["target_ahead"]
        else if bool_decide (target_status c = ON_TRACK) then ["target_on_track"]
        else if py_in (target_status c) [SLIGHTLY_BEHIND; WAY_BEHIND]
             then ["target_behind"]
        else [])
    ++ (if bool_decide (fatigue_level c = FATIGUE_LOW) then ["fatigue_low"]
        else if bool_decide (fatigue_level c = FATIGUE_MODERATE) then ["fatigue_moderate"]
        else if py_in (fatigue_level c) [FATIGUE_HIGH; FATIGUE_SEVERE]
             then ["fatigue_high"]
        else [])
    ++ (if cardiac_drift c then ["cardiac_drift"] else [])
    ++ (if zone_too_high c then ["zone_too_high"] else [])
    ++ (if injury_risk c then ["injury_risk"] else [])
    ++ (if form_breakdown c then ["form_breakdown"] else [])
    ++ (if push_possible c then ["push_possible"] else [])
    ++ (if recovery_needed c then ["recovery_needed"] else []).

  (** [self.situation_tags = tags]. *)
Definition with_tags (c : t) : t :=
    mk (pace_trend c) (hr_trend c) (fatigue_level c) (target_status c)
       (cardiac_drift c) (zone_too_high c) (injury_risk c) (form_breakdown c)
       (push_possible c) (recovery_needed c) (personality c) (energy_level c)
       (build_tags c).
End SituationContext.

Module CoachingStrategy.
Record t := mk {
    id : string;
    strategy_name : string;
    strategy_text : string;
    strategy_context : option string;
    tags : list string;
    trigger_conditions : gmap string string;
    times_used : Z;
    success_rate : Q;
    avg_effectiveness_score : Q;
    similarity_score : Q;
    source : string
  }.
End CoachingStrategy.

Module AdaptiveStrategyOutput.
Record t := mk {
    strategy_text : string;
    strategy_name : string;
    situation_summary : string;
    selection_reason : string;
    source_strategies : list CoachingStrategy.t;
    mem0_insights_used : list string;
    execution_id : option string;
    confidence_score : Q;
    priority_tags : list string;
    requires_outcome_check : bool;
    expected_outcome : string
  }.
End AdaptiveStrategyOutput.

Module Mem0CoachingMemory.
Record t := mk {
    memory_id : string;
    memory_text : string;
    category : string;
    relevance_score : Q;
    what_worked : option string;
    what_didnt_work : option string;
    runner_preference : option string
  }.
End Mem0CoachingMemory.

(** ** engine.py: the situation context builder *)

Section ContextBuilder.
Import PerformanceAnalysis.

Definition cardiac_drift_of (perf : PerformanceAnalysis.t) : bool :=
    bool_decide (pace_trend perf = PACE_DECLINING)
    && py_in (hr_trend perf) [HR_RISING; HR_SPIKING].

Definition zone_45_pct (perf : PerformanceAnalysis.t) : Q :=
    (default 0 (zone_percentages perf !! 4%Z)
     + default 0 (zone_percentages perf !! 5%Z))%Q.

Definition zone_too_high_of (perf : PerformanceAnalysis.t) : bool :=
    Qltb 25 (zone_45_pct perf).

Definition injury_risk_of (perf : PerformanceAnalysis.t) : bool :=
    (0 <? length (injury_risk_signals perf))%nat.

Definition form_breakdown_of (perf : PerformanceAnalysis.t) : bool :=
    bool_decide (pace_trend perf = PACE_DECLINING)
    && bool_decide (hr_trend perf = HR_STABLE).

  (** The [and]/[or] chain evaluates left to right and stops early, so
      the division is reached only when the fatigue and heart-rate-trend
      tests hold and both heart-rate fields are present. *)
Definition push_possible_of (perf : PerformanceAnalysis.t) : res bool :=
    if py_in (fatigue_level perf) [FATIGUE_NONE; FATIGUE_LOW] then
      if bool_decide (hr_trend perf = HR_STABLE) then
        match current_hr perf, max_hr perf with
        | None, _ => Return true
        | Some _, None => Return true
        | Some c, Some m =>
            res_bind (py_truediv (inject_Z c) (inject_Z m))
                     (fun ratio => Return (Qltb ratio 0.85))
        end
      else Return false
    else Return false.

Definition recovery_needed_of (perf : PerformanceAnalysis.t) : bool :=
    py_in (fatigue_level perf) [FATIGUE_HIGH; FATIGUE_SEVERE]
    || zone_too_high_of perf
    || cardiac_drift_of perf.

Definition _build_situation_context (perf : PerformanceAnalysis.t)
      (personality : CoachPersonality) (energy : CoachEnergy)
    : res SituationContext.t :=
    let cardiac_drift := cardiac_drift_of perf in
    let zone_too_high := zone_too_high_of perf in
    let injury_risk := injury_risk_of perf in
    let form_breakdown := form_breakdown_of perf in
    res_bind (push_possible_of perf) (fun push_possible =>
    let recovery_needed := recovery_needed_of perf in
    Return (SituationContext.with_tags
      (SituationContext.mk (pace_trend perf) (hr_trend perf)
         (fatigue_level perf) (target_status perf)
         cardiac_drift zone_too_high injury_risk form_breakdown
         push_possible recovery_needed personality energy []))).
End ContextBuilder.

(** ** engine.py: distance category and runner level *)

Definition _get_distance_category (target_distance_meters : Q) : string :=
  let target_km := (target_distance_meters / 1000)%Q in
  if Qltb target_km 3 then "casual"
  else if Qle_bool target_km 5.5 then "5k"
  else if Qle_bool target_km 11 then "10k"
  else if Qle_bool target_km 22 then "half"
  else "full".

Definition _get_runner_level (perf : PerformanceAnalysis.t) : string :=
  if bool_decide (PerformanceAnalysis.pace_trend perf = PACE_STABLE)
     && bool_decide (PerformanceAnalysis.hr_trend perf = HR_STABLE)
     && Qltb (Qabs (PerformanceAnalysis.pace_deviation perf)) 3
  then "advanced"
  else if bool_decide (PerformanceAnalysis.pace_trend perf = PACE_ERRATIC)
          || bool_decide (PerformanceAnalysis.hr_trend perf = HR_SPIKING)
          || Qltb 15 (Qabs (PerformanceAnalysis.pace_deviation perf))
  then "beginner"
  else "intermediate".

(** ** Dynamically typed values held in an execution context *)

Inductive pyval : Type :=
| VNone
| VBool (b : bool)
| VNum (q : Q)
| VFloat (f : float)
| VStr (s : string)
| VList (l : list string).

(** Truth value of an object, as [if v:] tests it. *)
Definition py_truthy (v : pyval) : bool :=
  match v with
  | VNone => false
  | VBool b => b
  | VNum q => negb (Qeq_bool q 0)
  | VFloat f => negb (f =? 0)%float
  | VStr s => str_truthy s
  | VList l => match l with [] => false | _ :: _ => true end
  end.

(** [v in ["a", "b"]]: only a [str] equals a string. *)
Definition py_in_strs (v : option pyval) (l : list string) : bool :=
  match v with
  | Some (VStr s) => existsb (String.eqb s) l
  | _ => false
  end.

Definition opt_num (o : option Z) : pyval :=
  match o with Some z => VNum (inject_Z z) | None => VNone end.

Module StrategyExecution.
Record t := mk {
  id : option string;
  user_id : string;
  run_id : option string;
  strategy_id : option string;
  execution_context : gmap string pyval;
  strategy_delivered : string;
  outcome_measured : bool;
  was_effective : option bool;
  effectiveness_score : option float;
  effectiveness_reason : option string;
  executed_at : option Q
}.
End StrategyExecution.

(** ** Rows of the strategy knowledge base, as the collaborator returns
    them: the keys read with [s[...]] are present, the keys read with
    [s.get(..., default)] may be absent.  [match_score] and
    [match_reason] are the keys the reranker adds. *)

Module KBStrategy.
Record t := mk {
  id : string;
  title : string;
  strategy_text : string;
  conditions_to_use : string;
  when_not_to_use : string;
  tags : option (list string);
  times_used : option Z;
  success_rate : option Q;
  avg_effectiveness_score : option Q;
  similarity : option Q;
  match_score : option Q;
  match_reason : option string
}.

(** [s["match_score"] = score; s["match_reason"] = reason]. *)
Definition annotate (s : t) (score : Q) (reason : string) : t :=
  mk (id s) (title s) (strategy_text s) (conditions_to_use s) (when_not_to_use s)
     (tags s) (times_used s) (success_rate s) (avg_effectiveness_score s)
     (similarity s) (Some score) (Some reason).
End KBStrategy.

(** ** Collaborators *)

(** One entry of the condition-matching answer. *)
Record match_entry := MatchEntry {
  m_id : option string;
  m_match : option bool;
  m_match_score : option Q;
  m_reason : option string
}.

(** What [json.loads] makes of the text the model answered, once a
    code fence around it is removed. *)
Inductive llm_content : Type :=
| Unparseable
| JsonArray (ms : list match_entry)
| JsonObject (matches : option (list match_entry))
| JsonScalar.

Record EdgeStrategyData := {
  sd_strategy_text : option string;
  sd_strategy_name : option string;
  sd_situation_summary : option string;
  sd_selection_reason : option string;
  sd_confidence_score : option Q;
  sd_expected_outcome : option string;
  sd_execution_id : option string
}.

Record Mem0Result := {
  r_id : option string;
  r_memory : option string;
  r_category : option string;
  r_score : option Q
}.

(** Outbound calls, with the fields of the request that the engine
    chooses. *)
Inductive call : Type :=
| EdgeFunctionCall (url apikey : string) (perf : PerformanceAnalysis.t)
    (personality energy_level user_id : string) (run_id : option string)
| SemanticSearchCall (url apikey : string) (p_situation_embedding : list Q)
    (p_distance p_runner_level : string) (p_strategy_type : option string)
    (p_match_threshold : Q) (p_match_count : Z)
| QueryKBCall (url apikey : string) (p_distance p_runner_level : string)
    (p_match_count : Z)
| ChatCompletionsCall (api_key situation_description : string)
    (strategies : list KBStrategy.t)
| Mem0SearchCall (base_url api_key query user_id : string) (limit : Z)
| RecordExecutionCall (url apikey user_id : string) (run_id strategy_id : option string)
    (execution_context : gmap string pyval) (strategy_delivered : string)
| RecordOutcomeCall (url apikey execution_id : string)
    (outcome_metrics : gmap string pyval) (was_effective : bool)
    (effectiveness_score : option float) (effectiveness_reason : option string).

(** The answer to one call: the transport fails (timeout, connection
    error), or a response arrives with a status code and a body; a body
    that does not decode to the expected shape is [None]. *)
Inductive reply (A : Type) : Type :=
| NetworkFailure
| Response (status_code : Z) (json : option A).
Arguments NetworkFailure {A}.
Arguments Response {A} status_code json.

Record World := {
  now : Q;
  edge_function : call -> reply EdgeStrategyData;
  semantic_search_strategies_kb : call -> reply (list KBStrategy.t);
  query_coaching_strategies_kb : call -> reply (list KBStrategy.t);
  chat_completions : call -> reply llm_content;
  mem0_search : call -> reply (list Mem0Result);
  record_strategy_execution : call -> reply string;
  record_strategy_outcome_rpc : call -> reply unit
}.

(** ** The engine object *)

Record Engine := {
  supabase_url : string;
  supabase_anon_key : string;
  edge_function_url : string;
  _strategy_cache : gmap string (list CoachingStrategy.t);
  _cache_ttl : Z;
  _cache_timestamps : gmap string Q;
  (* read by the methods, never assigned by [__init__] *)
  supabase_key : option string;
  openai_key : option string;
  mem0_api_key : option string;
  mem0_base_url : option string
}.

(** [arg or os.getenv(name, default)], the default being the empty string. *)
Definition arg_or_env (env : string -> option string) (arg : option string)
    (name : string) : string :=
  match arg with
  | Some s => if str_truthy s then s else default EmptyString (env name)
  | None => default EmptyString (env name)
  end.

Definition __init__ (env : string -> option string)
    (url anon_key : option string) : Engine :=
  let u := arg_or_env env url "SUPABASE_URL" in
  {| supabase_url := u;
     supabase_anon_key := arg_or_env env anon_key "SUPABASE_ANON_KEY";
     edge_function_url := u +:+ "/functions/v1/coach-rag-strategy";
     _strategy_cache := ∅;
     _cache_ttl := 300;
     _cache_timestamps := ∅;
     supabase_key := None;
     openai_key := None;
     mem0_api_key := None;
     mem0_base_url := None |}.

(** The mutable part: [self._pending_executions], and the log of the
    calls sent so far. *)
Record state := {
  pending : gmap string StrategyExecution.t;
  calls : list call
}.

Definition initial_state : state := {| pending := ∅; calls := [] |}.

(** ** The monad of coroutines *)

Definition M (A : Type) : Type := state -> res A * state.

Definition ret {A} (a : A) : M A := fun st => (Return a, st).

Definition bind {A B} (c : M A) (k : A -> M B) : M B := fun st =>
  match c st with
  | (Return a, st') => k a st'
  | (Raise e, st') => (Raise e, st')
  end.

Definition raise {A} (e : exn) : M A := fun st => (Raise e, st).

(** [try: c  except Exception: h]. *)
Definition try_except {A} (c : M A) (h : exn -> M A) : M A := fun st =>
  match c st with
  | (Return a, st') => (Return a, st')
  | (Raise e, st') => h e st'
  end.

Definition lift {A} (r : res A) : M A := fun st => (r, st).

Declare Scope coro_scope.
Delimit Scope coro_scope with coro.
Notation "x <- c ;; k" := (bind c (fun x => k))
  (at level 100, c at next level, right associativity) : coro_scope.
Notation "c ;;; k" := (bind c (fun _ => k))
  (at level 100, right associativity) : coro_scope.
Local Open Scope coro_scope.

(** [self.name], for an attribute that may not exist. *)
Definition getattr (name : string) (slot : option string) : M string :=
  match slot with
  | Some v => ret v
  | None => raise (AttributeError name)
  end.

(** [await client.post(...)]: the call is logged, then the collaborator
    answers. *)
Definition post {A} (c : call) (oracle : call -> reply A) : M (Z * option A) :=
  fun st =>
    let st' := {| pending := pending st; calls := calls st ++ [c] |} in
    match oracle c with
    | NetworkFailure => (Raise TransportError, st')
    | Response code body => (Return (code, body), st')
    end.

(** [response.json()] and the subscripts into it. *)
Definition decode {A} (body : option A) : M A :=
  match body with
  | Some a => ret a
  | None => raise JSONDecodeError
  end.

Definition pending_insert (k : string) (x : StrategyExecution.t) : M unit :=
  fun st => (Return tt, {| pending := <[k := x]> (pending st); calls := calls st |}).

Definition pending_delete (k : string) : M unit :=
  fun st => (Return tt, {| pending := delete k (pending st); calls := calls st |}).

Definition pending_get (k : string) : M (option StrategyExecution.t) :=
  fun st => (Return (pending st !! k), st).

(** ** engine.py: the public delivery operation *)

Definition situation_summary_of (context : SituationContext.t) : string :=
  value (SituationContext.pace_trend context) +:+ " pace, "
  +:+ value (SituationContext.fatigue_level context) +:+ " fatigue".

(** The output built in the [except] branch. *)
Definition edge_fallback_output (context : SituationContext.t)
  : AdaptiveStrategyOutput.t :=
  {| AdaptiveStrategyOutput.strategy_text :=
       "Maintain current pace. Stay focused. You're doing well.";
     AdaptiveStrategyOutput.strategy_name := "Fallback Strategy";
     AdaptiveStrategyOutput.situation_summary := situation_summary_of context;
     AdaptiveStrategyOutput.selection_reason := "Edge Function unavailable";
     AdaptiveStrategyOutput.source_strategies := [];
     AdaptiveStrategyOutput.mem0_insights_used := [];
     AdaptiveStrategyOutput.execution_id := None;
     AdaptiveStrategyOutput.confidence_score := 0.5%Q;
     AdaptiveStrategyOutput.priority_tags :=
       take 3 (SituationContext.situation_tags context);
     AdaptiveStrategyOutput.requires_outcome_check := true;
     AdaptiveStrategyOutput.expected_outcome := EmptyString |}.

(** The output built from the Edge Function's answer. *)
Definition edge_output (context : SituationContext.t) (sd : EdgeStrategyData)
  : AdaptiveStrategyOutput.t :=
  {| AdaptiveStrategyOutput.strategy_text :=
       default "Maintain current effort." (sd_strategy_text sd);
     AdaptiveStrategyOutput.strategy_name :=
       default "Adaptive Strategy" (sd_strategy_name sd);
     AdaptiveStrategyOutput.situation_summary :=
       default (situation_summary_of context) (sd_situation_summary sd);
     AdaptiveStrategyOutput.selection_reason :=
       default "Best match for current situation" (sd_selection_reason sd);
     AdaptiveStrategyOutput.source_strategies := [];
     AdaptiveStrategyOutput.mem0_insights_used := [];
     AdaptiveStrategyOutput.execution_id := sd_execution_id sd;
     AdaptiveStrategyOutput.confidence_score :=
       default 0.7%Q (sd_confidence_score sd);
     AdaptiveStrategyOutput.priority_tags :=
       take 3 (SituationContext.situation_tags context);
     AdaptiveStrategyOutput.requires_outcome_check := true;
     AdaptiveStrategyOutput.expected_outcome :=
       default "Improved performance" (sd_expected_outcome sd) |}.

Definition get_adaptive_strategy (e : Engine) (w : World)
    (performance_analysis : PerformanceAnalysis.t)
    (personality : CoachPersonality) (energy_level : CoachEnergy)
    (user_id : string) (run_id : option string)
  : M AdaptiveStrategyOutput.t :=
  if negb (str_truthy (supabase_url e)) || negb (str_truthy (supabase_anon_key e))
  then raise (ValueError "Supabase URL and anon key required for Edge Function")
  else
    context <- lift (_build_situation_context performance_analysis
                       personality energy_level) ;;
    try_except
      (response <- post (EdgeFunctionCall (edge_function_url e)
                           (supabase_anon_key e) performance_analysis
                           (value personality) (value energy_level)
                           user_id run_id)
                        (edge_function w) ;;
       if (response.1 =? 200)%Z then
         strategy_data <- decode response.2 ;;
         ret (edge_output context strategy_data)
       else raise (PlainException "Edge Function failed"))
      (fun _ => ret (edge_fallback_output context)).

(** ** engine.py: the static fallback strategies *)

Definition fallback_strategy (id name text : string) (tags : list string)
  : CoachingStrategy.t :=
  {| CoachingStrategy.id := id;
     CoachingStrategy.strategy_name := name;
     CoachingStrategy.strategy_text := text;
     CoachingStrategy.strategy_context := None;
     CoachingStrategy.tags := tags;
     CoachingStrategy.trigger_conditions := ∅;
     CoachingStrategy.times_used := 0%Z;
     CoachingStrategy.success_rate := 0%Q;
     CoachingStrategy.avg_effectiveness_score := 0%Q;
     CoachingStrategy.similarity_score := 0%Q;
     CoachingStrategy.source := "fallback" |}.

Definition _get_fallback_strategies (context : SituationContext.t)
  : list CoachingStrategy.t :=
  let strategies : list CoachingStrategy.t :=
    ((if SituationContext.cardiac_drift context then
       [fallback_strategy "fallback-1" "Cardiac Drift Management"
          "Classic drift pattern. Ease 15 sec/km for next 500m. Focus on efficiency, not speed."
          ["cardiac_drift"; "hr_rising"; "pace_decline"]]
     else [])
    ++ (if bool_decide (SituationContext.pace_trend context = PACE_DECLINING) then
          [fallback_strategy "fallback-2" "Cadence Reset"
             "Quick feet, light steps. Count to 180. Shorten stride, find your rhythm."
             ["pace_decline"; "form_breakdown"]]
        else [])
    ++ (if py_in (SituationContext.fatigue_level context)
                 [FATIGUE_HIGH; FATIGUE_SEVERE] then
          [fallback_strategy "fallback-3" "Active Recovery"
             "Next 500m: easy pace, Zone 2. Shake out arms, breathe deep. Recharge."
             ["fatigue_high"; "recovery_needed"]]
        else [])
    ++ (if SituationContext.injury_risk context then
          [fallback_strategy "fallback-4" "Injury Prevention"
             "Warning signs detected. Ease pace immediately. Shorter strides, land softly."
             ["injury_risk"]]
        else []))%list
  in
  match strategies with
  | [] =>
      [fallback_strategy "fallback-default" "Maintain Pace"
         "Hold current pace. Stay in Zone 3. Steady breathing. You're doing well."
         ["pace_stable"]]
  | _ :: _ => strategies
  end.

(** ** [sorted(..., reverse=True)]: a stable sort into descending order *)

Section PySort.
Context {A : Type} (lt : A -> A -> bool).

(** [x] goes in front of the first element that is not above it, so
    that elements with equal keys keep the order of the input. *)
Fixpoint insert_desc (x : A) (l : list A) : list A :=
  match l with
  | [] => [x]
  | y :: l' => if lt x y then y :: insert_desc x l' else x :: y :: l'
  end.

Definition sorted_desc (l : list A) : list A := foldr insert_desc [] l.

(** [not_below a b]: [a] may stand before [b] in a descending list. *)
Definition not_below (a b : A) : Prop := lt a b = false.
End PySort.

(** Comparison of the key tuples. *)
Definition lex2_lt (a b : Q * Z) : bool :=
  Qltb a.1 b.1 || (Qeq_bool a.1 b.1 && (a.2 <? b.2)%Z).

Definition lex3_lt (a b : Q * (Q * Z)) : bool :=
  Qltb a.1 b.1 || (Qeq_bool a.1 b.1 && lex2_lt a.2 b.2).

Definition key_success (s : KBStrategy.t) : Q * Z :=
  (default 0%Q (KBStrategy.success_rate s), default 0%Z (KBStrategy.times_used s)).

Definition key_match (s : KBStrategy.t) : Q * (Q * Z) :=
  (default 0%Q (KBStrategy.match_score s), key_success s).

(** ** engine.py: the condition reranker *)

(** [sorted(kb, key=(success_rate, times_used), reverse=True)[:8]]. *)
Definition fallback_rank (kb_strategies : list KBStrategy.t) : list KBStrategy.t :=
  take 8 (sorted_desc (fun x y => lex2_lt (key_success x) (key_success y))
            kb_strategies).

(** [parsed.get("matches", [])] and the retry on the raw text.  Only a
    [dict] has [.get]; for a [dict] without the key the second
    [json.loads] yields that same [dict], which is not a list. *)
Definition matches_of (parsed : llm_content) : res (list match_entry) :=
  match parsed with
  | Unparseable => Raise JSONDecodeError
  | JsonArray _ => Raise (AttributeError "get")
  | JsonScalar => Raise (AttributeError "get")
  | JsonObject (Some ms) => Return ms
  | JsonObject None => Return []
  end.

(** [{m["id"]: m for m in matches if m.get("match", False)}]. *)
Fixpoint build_match_lookup (matches : list match_entry)
    (acc : gmap string match_entry) : res (gmap string match_entry) :=
  match matches with
  | [] => Return acc
  | m :: rest =>
      if default false (m_match m) then
        match m_id m with
        | Some i => build_match_lookup rest (<[i := m]> acc)
        | None => Raise (KeyError "id")
        end
      else build_match_lookup rest acc
  end.

(** The filter loop: a row is kept, annotated, when the lookup has its
    id. *)
Definition apply_matches (match_lookup : gmap string match_entry)
    (kb_strategies : list KBStrategy.t) : list KBStrategy.t :=
  omap (fun s =>
          match match_lookup !! KBStrategy.id s with
          | Some info =>
              Some (KBStrategy.annotate s (default 0.7%Q (m_match_score info))
                      (default EmptyString (m_reason info)))
          | None => None
          end) kb_strategies.

Definition rank_matches (matches : list match_entry)
    (kb_strategies : list KBStrategy.t) : res (list KBStrategy.t) :=
  res_bind (build_match_lookup matches ∅) (fun match_lookup =>
  Return (take 8 (sorted_desc (fun x y => lex3_lt (key_match x) (key_match y))
                    (apply_matches match_lookup kb_strategies)))).

Definition is_nil {A} (l : list A) : bool :=
  match l with [] => true | _ :: _ => false end.

Definition _llm_match_conditions (e : Engine) (w : World)
    (kb_strategies : list KBStrategy.t) (situation_description : string)
    (performance_analysis : PerformanceAnalysis.t)
  : M (list KBStrategy.t) :=
  key <- getattr "openai_key" (openai_key e) ;;
  if negb (str_truthy key) || is_nil kb_strategies
  then ret (fallback_rank kb_strategies)
  else
    try_except
      (response <- post (ChatCompletionsCall key situation_description
                           (take 15 kb_strategies))
                        (chat_completions w) ;;
       if (response.1 =? 200)%Z then
         content <- decode response.2 ;;
         try_except
           (lift (res_bind (matches_of content)
                    (fun matches => rank_matches matches kb_strategies)))
           (fun ex =>
              match ex with
              | JSONDecodeError => ret (fallback_rank kb_strategies)
              | _ => raise ex
              end)
       else ret (fallback_rank kb_strategies))
      (fun _ => ret (fallback_rank kb_strategies)).

(** ** engine.py: strategy retrieval *)

Definition _query_kb_fallback (e : Engine) (w : World)
    (distance_category runner_level : string) (limit : Z)
  : M (list KBStrategy.t) :=
  try_except
    (key <- getattr "supabase_key" (supabase_key e) ;;
     response <- post (QueryKBCall
                         (supabase_url e +:+ "/rest/v1/rpc/query_coaching_strategies_kb")
                         key distance_category runner_level limit)
                      (query_coaching_strategies_kb w) ;;
     if (response.1 =? 200)%Z then decode response.2 else ret [])
    (fun _ => ret []).

(** Kept for compatibility in the source: it returns [None]. *)
Definition _generate_embedding (text : string) : M (option (list Q)) :=
  ret None.

(** [if situation_embedding:] holds for a non-empty list only. *)
Definition embedding_available (situation_embedding : option (list Q)) : bool :=
  match situation_embedding with
  | Some (_ :: _) => true
  | _ => false
  end.

Definition kb_to_strategy (vector : bool) (s : KBStrategy.t) : CoachingStrategy.t :=
  {| CoachingStrategy.id := KBStrategy.id s;
     CoachingStrategy.strategy_name := KBStrategy.title s;
     CoachingStrategy.strategy_text := KBStrategy.strategy_text s;
     CoachingStrategy.strategy_context :=
       Some ("Use when: " +:+ KBStrategy.conditions_to_use s
             +:+ ". Avoid when: " +:+ KBStrategy.when_not_to_use s);
     CoachingStrategy.tags := default [] (KBStrategy.tags s);
     CoachingStrategy.trigger_conditions :=
       <["conditions_to_use" := KBStrategy.conditions_to_use s]>
         (<["when_not_to_use" := KBStrategy.when_not_to_use s]> ∅);
     CoachingStrategy.times_used := default 0%Z (KBStrategy.times_used s);
     CoachingStrategy.success_rate := default 0%Q (KBStrategy.success_rate s);
     CoachingStrategy.avg_effectiveness_score :=
       default 0%Q (KBStrategy.avg_effectiveness_score s);
     CoachingStrategy.similarity_score :=
       default (default 0.7%Q (KBStrategy.similarity s)) (KBStrategy.match_score s);
     CoachingStrategy.source := if vector then "kb_vector" else "kb" |}.

Section Retrieval.
(** The situation text sent to the collaborators is built by string
    formatting of the metrics; only its being a function of the context
    and the analysis matters here. *)
Variable _build_situation_description_for_kb :
  SituationContext.t -> PerformanceAnalysis.t -> string.

(** The body of [_retrieve_strategies] from the [try] on, for a given
    outcome of the embedding step. *)
Definition retrieve_with_embedding (e : Engine) (w : World) (key : string)
    (context : SituationContext.t) (performance_analysis : PerformanceAnalysis.t)
    (distance_category runner_level situation_description : string)
    (situation_embedding : option (list Q))
  : M (list CoachingStrategy.t) :=
  try_except
    (kb_strategies <-
       (if embedding_available situation_embedding then
          response <- post (SemanticSearchCall
                              (supabase_url e +:+ "/rest/v1/rpc/semantic_search_strategies_kb")
                              key (default [] situation_embedding)
                              distance_category runner_level None 0.65 15)
                           (semantic_search_strategies_kb w) ;;
          if (response.1 =? 200)%Z then
            kb <- decode response.2 ;;
            if is_nil kb
            then _query_kb_fallback e w distance_category runner_level 15
            else ret kb
          else _query_kb_fallback e w distance_category runner_level 15
        else _query_kb_fallback e w distance_category runner_level 15) ;;
     if is_nil kb_strategies then ret (_get_fallback_strategies context)
     else
       matched_strategies <- _llm_match_conditions e w kb_strategies
                               situation_description performance_analysis ;;
       ret (map (kb_to_strategy (embedding_available situation_embedding))
                matched_strategies))
    (fun _ => ret (_get_fallback_strategies context)).

Definition _retrieve_strategies (e : Engine) (w : World)
    (context : SituationContext.t) (user_id : string)
    (performance_analysis : PerformanceAnalysis.t)
  : M (list CoachingStrategy.t) :=
  if negb (str_truthy (supabase_url e)) then ret (_get_fallback_strategies context)
  else
    key <- getattr "supabase_key" (supabase_key e) ;;
    if negb (str_truthy key) then ret (_get_fallback_strategies context)
    else
      let distance_category :=
        _get_distance_category (PerformanceAnalysis.target_distance performance_analysis) in
      let runner_level := _get_runner_level performance_analysis in
      let situation_description :=
        _build_situation_description_for_kb context performance_analysis in
      situation_embedding <- _generate_embedding situation_description ;;
      retrieve_with_embedding e w key context performance_analysis
        distance_category runner_level situation_description situation_embedding.
End Retrieval.

(** ** engine.py: the memory fetcher *)

Definition ascii_lower (c : Ascii.ascii) : Ascii.ascii :=
  let n := Ascii.nat_of_ascii c in
  if ((65 <=? n) && (n <=? 90))%nat then Ascii.ascii_of_nat (n + 32) else c.

Fixpoint py_lower (s : string) : string :=
  match s with
  | EmptyString => EmptyString
  | String c s' => String (ascii_lower c) (py_lower s')
  end.

(** [needle in text]. *)
Definition str_contains (needle text : string) : bool :=
  match String.index 0 needle text with
  | Some _ => true
  | None => false
  end.

Definition memory_of_result (r : Mem0Result) : Mem0CoachingMemory.t :=
  let memory_text := default EmptyString (r_memory r) in
  let text := py_lower memory_text in
  {| Mem0CoachingMemory.memory_id := default EmptyString (r_id r);
     Mem0CoachingMemory.memory_text := memory_text;
     Mem0CoachingMemory.category := default "general" (r_category r);
     Mem0CoachingMemory.relevance_score := default 0%Q (r_score r);
     Mem0CoachingMemory.what_worked :=
       if str_contains "worked" text || str_contains "effective" text
          || str_contains "helped" text
       then Some memory_text else None;
     Mem0CoachingMemory.what_didnt_work :=
       if str_contains "didn't work" text || str_contains "ineffective" text
          || str_contains "failed" text
       then Some memory_text else None;
     Mem0CoachingMemory.runner_preference :=
       if str_contains "prefers" text || str_contains "likes" text
          || str_contains "responds to" text
       then Some memory_text else None |}.

(** One turn of the query loop. *)
Definition fetch_query (e : Engine) (w : World) (key user_id query : string)
    (memories : list Mem0CoachingMemory.t) : M (list Mem0CoachingMemory.t) :=
  base_url <- getattr "mem0_base_url" (mem0_base_url e) ;;
  response <- post (Mem0SearchCall (base_url +:+ "/memories/search") key
                      query user_id 3)
                   (mem0_search w) ;;
  if (response.1 =? 200)%Z then
    results <- decode response.2 ;;
    ret (memories ++ map memory_of_result results)%list
  else ret memories.

(** The loop sits inside the [try]: an exception ends it, and the
    memories appended so far stay in the list. *)
Fixpoint fetch_queries (e : Engine) (w : World) (key user_id : string)
    (queries : list string) (memories : list Mem0CoachingMemory.t)
  : M (list Mem0CoachingMemory.t) :=
  match queries with
  | [] => ret memories
  | query :: rest =>
      fun st =>
        match fetch_query e w key user_id query memories st with
        | (Return ms, st') => fetch_queries e w key user_id rest ms st'
        | (Raise _, st') => (Return memories, st')
        end
  end.

Fixpoint dedup_memories (seen : list string) (l : list Mem0CoachingMemory.t)
  : list Mem0CoachingMemory.t :=
  match l with
  | [] => []
  | m :: rest =>
      if existsb (String.eqb (Mem0CoachingMemory.memory_text m)) seen
      then dedup_memories seen rest
      else m :: dedup_memories (Mem0CoachingMemory.memory_text m :: seen) rest
  end.

Definition _fetch_mem0_coaching_memories (e : Engine) (w : World)
    (user_id : string) (context : SituationContext.t)
  : M (list Mem0CoachingMemory.t) :=
  key <- getattr "mem0_api_key" (mem0_api_key e) ;;
  if negb (str_truthy key) then ret []
  else
    let queries :=
      [ "coaching strategies that worked well";
        value (SituationContext.pace_trend context) +:+ " pace coaching";
        value (SituationContext.fatigue_level context) +:+ " fatigue running advice";
        "what motivates this runner";
        "running form cues that helped" ] in
    memories <- fetch_queries e w key user_id (take 3 queries) [] ;;
    ret (take 5 (dedup_memories []
           (sorted_desc (fun x y => Qltb (Mem0CoachingMemory.relevance_score x)
                                         (Mem0CoachingMemory.relevance_score y))
                        memories))).

(** ** engine.py: execution recording *)

Definition with_execution_id (strategy : AdaptiveStrategyOutput.t)
    (execution_id : string) : AdaptiveStrategyOutput.t :=
  {| AdaptiveStrategyOutput.strategy_text := AdaptiveStrategyOutput.strategy_text strategy;
     AdaptiveStrategyOutput.strategy_name := AdaptiveStrategyOutput.strategy_name strategy;
     AdaptiveStrategyOutput.situation_summary :=
       AdaptiveStrategyOutput.situation_summary strategy;
     AdaptiveStrategyOutput.selection_reason :=
       AdaptiveStrategyOutput.selection_reason strategy;
     AdaptiveStrategyOutput.source_strategies :=
       AdaptiveStrategyOutput.source_strategies strategy;
     AdaptiveStrategyOutput.mem0_insights_used :=
       AdaptiveStrategyOutput.mem0_insights_used strategy;
     AdaptiveStrategyOutput.execution_id := Some execution_id;
     AdaptiveStrategyOutput.confidence_score :=
       AdaptiveStrategyOutput.confidence_score strategy;
     AdaptiveStrategyOutput.priority_tags := AdaptiveStrategyOutput.priority_tags strategy;
     AdaptiveStrategyOutput.requires_outcome_check :=
       AdaptiveStrategyOutput.requires_outcome_check strategy;
     AdaptiveStrategyOutput.expected_outcome :=
       AdaptiveStrategyOutput.expected_outcome strategy |}.

(** The context snapshot stored with an execution. *)
Definition execution_context_of (context : SituationContext.t)
    (performance_analysis : PerformanceAnalysis.t) : gmap string pyval :=
  <["pace" := VNum (PerformanceAnalysis.current_pace performance_analysis)]>
  (<["hr" := opt_num (PerformanceAnalysis.current_hr performance_analysis)]>
  (<["zone" := opt_num (PerformanceAnalysis.current_zone performance_analysis)]>
  (<["fatigue" := VStr (value (SituationContext.fatigue_level context))]>
  (<["target_status" := VStr (value (SituationContext.target_status context))]>
  (<["pace_trend" := VStr (value (SituationContext.pace_trend context))]>
  (<["hr_trend" := VStr (value (SituationContext.hr_trend context))]>
  (<["situation_tags" := VList (SituationContext.situation_tags context)]> ∅))))))).

Definition strategy_id_of (strategy : AdaptiveStrategyOutput.t) : option string :=
  match AdaptiveStrategyOutput.source_strategies strategy with
  | s :: _ =>
      if String.prefix "fallback" (CoachingStrategy.id s) then None
      else Some (CoachingStrategy.id s)
  | [] => None
  end.

(** The strategy object is updated in place; the updated object is the
    result here. *)
Definition _record_execution (e : Engine) (w : World) (user_id : string)
    (run_id : option string) (strategy : AdaptiveStrategyOutput.t)
    (context : SituationContext.t) (performance_analysis : PerformanceAnalysis.t)
  : M AdaptiveStrategyOutput.t :=
  if negb (str_truthy (supabase_url e)) then ret strategy
  else
    key <- getattr "supabase_key" (supabase_key e) ;;
    if negb (str_truthy key) then ret strategy
    else
      try_except
        (let strategy_id := strategy_id_of strategy in
         let execution_context := execution_context_of context performance_analysis in
         response <- post (RecordExecutionCall
                             (supabase_url e +:+ "/rest/v1/rpc/record_strategy_execution")
                             key user_id run_id strategy_id execution_context
                             (AdaptiveStrategyOutput.strategy_text strategy))
                          (record_strategy_execution w) ;;
         if (response.1 =? 200)%Z then
           execution_id <- decode response.2 ;;
           pending_insert execution_id
             {| StrategyExecution.id := Some execution_id;
                StrategyExecution.user_id := user_id;
                StrategyExecution.run_id := run_id;
                StrategyExecution.strategy_id := strategy_id;
                StrategyExecution.execution_context := execution_context;
                StrategyExecution.strategy_delivered :=
                  AdaptiveStrategyOutput.strategy_text strategy;
                StrategyExecution.outcome_measured := false;
                StrategyExecution.was_effective := None;
                StrategyExecution.effectiveness_score := None;
                StrategyExecution.effectiveness_reason := None;
                StrategyExecution.executed_at := Some (now w) |} ;;;
           ret (with_execution_id strategy execution_id)
         else ret strategy)
        (fun _ => ret strategy).

Definition record_strategy_outcome (e : Engine) (w : World)
    (execution_id : string) (outcome_metrics : gmap string pyval)
    (was_effective : bool) (effectiveness_score : option float)
    (effectiveness_reason : option string) : M bool :=
  if negb (str_truthy (supabase_url e)) then ret false
  else
    key <- getattr "supabase_key" (supabase_key e) ;;
    if negb (str_truthy key) then ret false
    else
      try_except
        (response <- post (RecordOutcomeCall
                             (supabase_url e +:+ "/rest/v1/rpc/record_strategy_outcome")
                             key execution_id outcome_metrics was_effective
                             effectiveness_score effectiveness_reason)
                          (record_strategy_outcome_rpc w) ;;
         if (response.1 =? 200)%Z then
           pending_delete execution_id ;;; ret true
         else ret false)
        (fun _ => ret false).

(** ** engine.py: the effectiveness assessor *)

(** The three locals [was_effective], [score], [reasons]. *)
Record verdict := {
  v_effective : bool;
  v_score : float;
  v_reasons : list string
}.

(** [score += delta; reasons.append(label); was_effective = True]. *)
Definition credit (v : verdict) (delta : float) (label : string) : verdict :=
  {| v_effective := true;
     v_score := (v_score v + delta)%float;
     v_reasons := (v_reasons v ++ [label])%list |}.

(** [metrics.get(k, 0)]. *)
Definition metric (metrics : gmap string float) (k : string) : float :=
  default 0%float (metrics !! k).

Definition assess_pace (context : gmap string pyval)
    (before_metrics after_metrics : gmap string float) (v : verdict) : verdict :=
  let pace_before := metric before_metrics "pace" in
  let pace_after := metric after_metrics "pace" in
  if (0 <? pace_before)%float && (0 <? pace_after)%float then
    let pace_change := (pace_after - pace_before)%float in
    if py_in_strs (context !! "target_status") ["slightly_behind"; "way_behind"] then
      if (pace_change <? -0.05)%float then credit v 0.3%float "Pace improved" else v
    else if py_in_strs (context !! "fatigue") ["high"; "severe"] then
      if (abs pace_change <? 0.1)%float
      then credit v 0.2%float "Pace stabilized during recovery" else v
    else v
  else v.

Definition assess_hr (context : gmap string pyval)
    (before_metrics after_metrics : gmap string float) (v : verdict) : verdict :=
  let hr_before := metric before_metrics "hr" in
  let hr_after := metric after_metrics "hr" in
  if (0 <? hr_before)%float && (0 <? hr_after)%float then
    let hr_change := (hr_after - hr_before)%float in
    if py_in_strs (context !! "hr_trend") ["rising"; "spiking"] then
      if (hr_change <? 3)%float then credit v 0.2%float "HR stabilized" else v
    else v
  else v.

Definition assess_zone (context : gmap string pyval)
    (before_metrics after_metrics : gmap string float) (v : verdict) : verdict :=
  let zone_before := metric before_metrics "zone" in
  let zone_after := metric after_metrics "zone" in
  if py_truthy (default (VBool false) (context !! "zone_too_high")) then
    if (zone_after <? zone_before)%float
    then credit v 0.2%float "Moved to lower zone" else v
  else v.

(** [max(a, b)] and [min(a, b)] return the second argument only when it
    is greater, respectively smaller, than the first. *)
Definition py_max (a b : float) : float := if (a <? b)%float then b else a.
Definition py_min (a b : float) : float := if (b <? a)%float then b else a.

Definition cap_score (v : verdict) : verdict :=
  {| v_effective := v_effective v;
     v_score := py_min 1%float (py_max 0%float (v_score v));
     v_reasons := v_reasons v |}.

Definition score_rules (context : gmap string pyval)
    (before_metrics after_metrics : gmap string float) : verdict :=
  cap_score
    (assess_zone context before_metrics after_metrics
       (assess_hr context before_metrics after_metrics
          (assess_pace context before_metrics after_metrics
             {| v_effective := false; v_score := 0.5%float; v_reasons := [] |}))).

Definition reason_of (v : verdict) : string :=
  if is_nil (v_reasons v) then "No significant improvement detected"
  else String.concat "; " (v_reasons v).

(** [after - before if before and after else None]. *)
Definition change_or_none (before after : float) : pyval :=
  if py_truthy (VFloat before) && py_truthy (VFloat after)
  then VFloat (after - before)%float else VNone.

Definition outcome_metrics_of (before_metrics after_metrics : gmap string float)
  : gmap string pyval :=
  <["pace_change" := change_or_none (metric before_metrics "pace")
                                    (metric after_metrics "pace")]>
  (<["hr_change" := change_or_none (metric before_metrics "hr")
                                   (metric after_metrics "hr")]>
  (<["zone_change" := change_or_none (metric before_metrics "zone")
                                     (metric after_metrics "zone")]> ∅)).

Definition assess_strategy_effectiveness (e : Engine) (w : World)
    (execution_id : string) (before_metrics after_metrics : gmap string float)
  : M (bool * float * string) :=
  execution <- pending_get execution_id ;;
  match execution with
  | None => ret (false, 0%float, "Execution not found")
  | Some execution =>
      let context := StrategyExecution.execution_context execution in
      let v := score_rules context before_metrics after_metrics in
      record_strategy_outcome e w execution_id
        (outcome_metrics_of before_metrics after_metrics)
        (v_effective v) (Some (v_score v)) (Some (reason_of v)) ;;;
      ret (v_effective v, v_score v, reason_of v)
  end.

(** ** Sessions: the public operations, run one after the other *)

Inductive operation : Type :=
| GetAdaptiveStrategy (performance_analysis : PerformanceAnalysis.t)
    (personality : CoachPersonality) (energy_level : CoachEnergy)
    (user_id : string) (run_id : option string)
| RecordStrategyOutcome (execution_id : string)
    (outcome_metrics : gmap string pyval) (was_effective : bool)
    (effectiveness_score : option float) (effectiveness_reason : option string)
| AssessStrategyEffectiveness (execution_id : string)
    (before_metrics after_metrics : gmap string float).

(** The state an operation leaves behind, whether it returns or raises. *)
Definition perform (e : Engine) (w : World) (o : operation) (st : state) : state :=
  match o with
  | GetAdaptiveStrategy perf personality energy user_id run_id =>
      (get_adaptive_strategy e w perf personality energy user_id run_id st).2
  | RecordStrategyOutcome execution_id metrics eff score reason =>
      (record_strategy_outcome e w execution_id metrics eff score reason st).2
  | AssessStrategyEffectiveness execution_id before after =>
      (assess_strategy_effectiveness e w execution_id before after st).2
  end.

(** Each operation meets the world of its own moment. *)
Fixpoint run_session (e : Engine) (script : list (World * operation))
    (st : state) : state :=
  match script with
  | [] => st
  | (w, o) :: rest => run_session e rest (perform e w o st)
  end.

(** ** Concrete inputs *)

Definition sample_analysis : PerformanceAnalysis.t :=
  {| PerformanceAnalysis.current_pace := 6.75;
     PerformanceAnalysis.target_pace := 6.5;
     PerformanceAnalysis.current_distance := 3000;
     PerformanceAnalysis.target_distance := 10000;
     PerformanceAnalysis.elapsed_time := 1200;
     PerformanceAnalysis.current_hr := Some 150%Z;
     PerformanceAnalysis.average_hr := Some 148%Z;
     PerformanceAnalysis.max_hr := Some 185%Z;
     PerformanceAnalysis.current_zone := Some 3%Z;
     PerformanceAnalysis.zone_percentages := ∅;
     PerformanceAnalysis.pace_trend := PACE_STABLE;
     PerformanceAnalysis.hr_trend := HR_STABLE;
     PerformanceAnalysis.fatigue_level := FATIGUE_NONE;
     PerformanceAnalysis.target_status := ON_TRACK;
     PerformanceAnalysis.performance_summary := EmptyString;
     PerformanceAnalysis.heart_zone_analysis := EmptyString;
     PerformanceAnalysis.interval_trends := EmptyString;
     PerformanceAnalysis.hr_variation_analysis := EmptyString;
     PerformanceAnalysis.injury_risk_signals := [];
     PerformanceAnalysis.adaptive_microstrategy := EmptyString;
     PerformanceAnalysis.pace_deviation := 0;
     PerformanceAnalysis.completed_intervals := 0;
     PerformanceAnalysis.interval_paces := [] |}.

(** The same analysis with a maximum heart rate of zero. *)
Definition zero_max_hr_analysis : PerformanceAnalysis.t :=
  {| PerformanceAnalysis.current_pace := 6.75;
     PerformanceAnalysis.target_pace := 6.5;
     PerformanceAnalysis.current_distance := 3000;
     PerformanceAnalysis.target_distance := 10000;
     PerformanceAnalysis.elapsed_time := 1200;
     PerformanceAnalysis.current_hr := Some 150%Z;
     PerformanceAnalysis.average_hr := Some 148%Z;
     PerformanceAnalysis.max_hr := Some 0%Z;
     PerformanceAnalysis.current_zone := Some 3%Z;
     PerformanceAnalysis.zone_percentages := ∅;
     PerformanceAnalysis.pace_trend := PACE_STABLE;
     PerformanceAnalysis.hr_trend := HR_STABLE;
     PerformanceAnalysis.fatigue_level := FATIGUE_NONE;
     PerformanceAnalysis.target_status := ON_TRACK;
     PerformanceAnalysis.performance_summary := EmptyString;
     PerformanceAnalysis.heart_zone_analysis := EmptyString;
     PerformanceAnalysis.interval_trends := EmptyString;
     PerformanceAnalysis.hr_variation_analysis := EmptyString;
     PerformanceAnalysis.injury_risk_signals := [];
     PerformanceAnalysis.adaptive_microstrategy := EmptyString;
     PerformanceAnalysis.pace_deviation := 0;
     PerformanceAnalysis.completed_intervals := 0;
     PerformanceAnalysis.interval_paces := [] |}.

Definition no_environment : string -> option string := fun _ => None.

(** [CoachRAGEngine("https://project.supabase.co", "anon-key")]. *)
Definition configured_engine : Engine :=
  __init__ no_environment (Some "https://project.supabase.co") (Some "anon-key").

(** [CoachRAGEngine()] with nothing in the environment. *)
Definition bare_engine : Engine := __init__ no_environment None None.

(** A world in which every collaborator is unreachable. *)
Definition unreachable_world : World :=
  {| now := 0;
     edge_function := fun _ => NetworkFailure;
     semantic_search_strategies_kb := fun _ => NetworkFailure;
     query_coaching_strategies_kb := fun _ => NetworkFailure;
     chat_completions := fun _ => NetworkFailure;
     mem0_search := fun _ => NetworkFailure;
     record_strategy_execution := fun _ => NetworkFailure;
     record_strategy_outcome_rpc := fun _ => NetworkFailure |}.

(** A world whose Edge Function delivers a strategy with the execution
    id it recorded on its side. *)
Definition delivering_world : World :=
  {| now := 0;
     edge_function := fun _ =>
       Response 200
         (Some {| sd_strategy_text := Some "Hold pace for 500m.";
                  sd_strategy_name := Some "Steady";
                  sd_situation_summary := None;
                  sd_selection_reason := None;
                  sd_confidence_score := Some 0.8%Q;
                  sd_expected_outcome := None;
                  sd_execution_id := Some "exec-1" |});
     semantic_search_strategies_kb := fun _ => NetworkFailure;
     query_coaching_strategies_kb := fun _ => NetworkFailure;
     chat_completions := fun _ => NetworkFailure;
     mem0_search := fun _ => NetworkFailure;
     record_strategy_execution := fun _ => NetworkFailure;
     record_strategy_outcome_rpc := fun _ => Response 200 (Some tt) |}.

(** ** The scoring rule, in closed form *)

Definition target_was_behind (context : gmap string pyval) : bool :=
  py_in_strs (context !! "target_status") ["slightly_behind"; "way_behind"].

Definition fatigue_was_high (context : gmap string pyval) : bool :=
  py_in_strs (context !! "fatigue") ["high"; "severe"].

Definition hr_was_rising (context : gmap string pyval) : bool :=
  py_in_strs (context !! "hr_trend") ["rising"; "spiking"].

Definition zone_was_too_high (context : gmap string pyval) : bool :=
  py_truthy (default (VBool false) (context !! "zone_too_high")).

Definition bonus (condition : bool) (amount : float) : float :=
  if condition then amount else 0%float.

(** The rule in the words of the specification: four conditions, each
    judged on its own; "decreased by at least 0.05" includes 0.05.  The
    sum is clamped as the specification asks.  Differences and sums are
    those of the floats the assessor is given. *)
Definition reference_verdict (context : gmap string pyval)
    (before_metrics after_metrics : gmap string float) : bool * float :=
  let pace_change :=
    (metric after_metrics "pace" - metric before_metrics "pace")%float in
  let hr_change := (metric after_metrics "hr" - metric before_metrics "hr")%float in
  let pace_improved := target_was_behind context && (pace_change <=? -0.05)%float in
  let pace_held := fatigue_was_high context && (abs pace_change <? 0.1)%float in
  let hr_held := hr_was_rising context && (hr_change <? 3)%float in
  let zone_lower :=
    zone_was_too_high context
    && (metric after_metrics "zone" <? metric before_metrics "zone")%float in
  (pace_improved || pace_held || hr_held || zone_lower,
   py_min 1%float
     (py_max 0%float
        (0.5 + bonus pace_improved 0.3 + bonus pace_held 0.2
         + bonus hr_held 0.2 + bonus zone_lower 0.2)%float)).

(** The rule the source follows: the pace conditions need both paces
    positive, the improvement is strict, the fatigue condition is the
    [elif] of the target condition, and the heart-rate condition needs
    both heart rates positive.  Every difference, comparison and sum is
    the binary64 one, the sum taken from the left: base, pace bonus,
    heart-rate bonus, zone bonus. *)
Definition designed_verdict (context : gmap string pyval)
    (before_metrics after_metrics : gmap string float) : bool * float :=
  let pace_change :=
    (metric after_metrics "pace" - metric before_metrics "pace")%float in
  let hr_change := (metric after_metrics "hr" - metric before_metrics "hr")%float in
  let pace_known := (0 <? metric before_metrics "pace")%float
                    && (0 <? metric after_metrics "pace")%float in
  let hr_known := (0 <? metric before_metrics "hr")%float
                  && (0 <? metric after_metrics "hr")%float in
  let pace_improved := pace_known && target_was_behind context
                       && (pace_change <? -0.05)%float in
  let pace_held := pace_known && negb (target_was_behind context)
                   && fatigue_was_high context && (abs pace_change <? 0.1)%float in
  let hr_held := hr_known && hr_was_rising context && (hr_change <? 3)%float in
  let zone_lower :=
    zone_was_too_high context
    && (metric after_metrics "zone" <? metric before_metrics "zone")%float in
  (pace_improved || pace_held || hr_held || zone_lower,
   py_min 1%float
     (py_max 0%float
        (0.5 + bonus pace_improved 0.3 + bonus pace_held 0.2
         + bonus hr_held 0.2 + bonus zone_lower 0.2)%float)).

(** What it means for the assessor to follow the reference rule on
    every pending execution. *)
Definition assessor_follows_reference_rule : Prop :=
  forall e w st execution_id execution before_metrics after_metrics,
    pending st !! execution_id = Some execution ->
    match (assess_strategy_effectiveness e w execution_id
             before_metrics after_metrics st).1 with
    | Return (was_effective, score, _) =>
        let reference :=
          reference_verdict (StrategyExecution.execution_context execution)
            before_metrics after_metrics in
        was_effective = reference.1 /\ score = reference.2
    | Raise _ => False
    end.

(** ** More concrete inputs *)

(** An engine on which the attributes that [__init__] leaves out were
    assigned after construction. *)
Definition keyed_engine : Engine :=
  {| supabase_url := supabase_url configured_engine;
     supabase_anon_key := supabase_anon_key configured_engine;
     edge_function_url := edge_function_url configured_engine;
     _strategy_cache := ∅;
     _cache_ttl := 300;
     _cache_timestamps := ∅;
     supabase_key := Some "service-key";
     openai_key := Some "sk-test";
     mem0_api_key := Some "m0-key";
     mem0_base_url := Some "https://api.mem0.ai/v1" |}.

(** A world whose persistence collaborator accepts every record. *)
Definition recording_world : World :=
  {| now := 0;
     edge_function := fun _ => NetworkFailure;
     semantic_search_strategies_kb := fun _ => NetworkFailure;
     query_coaching_strategies_kb := fun _ => NetworkFailure;
     chat_completions := fun _ => NetworkFailure;
     mem0_search := fun _ => NetworkFailure;
     record_strategy_execution := fun _ => Response 200 (Some "exec-1");
     record_strategy_outcome_rpc := fun _ => Response 200 (Some tt) |}.

(** A tired runner, slightly behind target, with steady pace and heart
    rate. *)
Definition tired_behind_analysis : PerformanceAnalysis.t :=
  {| PerformanceAnalysis.current_pace := 6;
     PerformanceAnalysis.target_pace := 5.5;
     PerformanceAnalysis.current_distance := 7000;
     PerformanceAnalysis.target_distance := 10000;
     PerformanceAnalysis.elapsed_time := 2520;
     PerformanceAnalysis.current_hr := Some 160%Z;
     PerformanceAnalysis.average_hr := Some 155%Z;
     PerformanceAnalysis.max_hr := Some 185%Z;
     PerformanceAnalysis.current_zone := Some 3%Z;
     PerformanceAnalysis.zone_percentages := ∅;
     PerformanceAnalysis.pace_trend := PACE_STABLE;
     PerformanceAnalysis.hr_trend := HR_STABLE;
     PerformanceAnalysis.fatigue_level := FATIGUE_HIGH;
     PerformanceAnalysis.target_status := SLIGHTLY_BEHIND;
     PerformanceAnalysis.performance_summary := EmptyString;
     PerformanceAnalysis.heart_zone_analysis := EmptyString;
     PerformanceAnalysis.interval_trends := EmptyString;
     PerformanceAnalysis.hr_variation_analysis := EmptyString;
     PerformanceAnalysis.injury_risk_signals := [];
     PerformanceAnalysis.adaptive_microstrategy := EmptyString;
     PerformanceAnalysis.pace_deviation := 9;
     PerformanceAnalysis.completed_intervals := 7;
     PerformanceAnalysis.interval_paces := [] |}.

Definition tired_behind_context : SituationContext.t :=
  SituationContext.with_tags
    (SituationContext.mk PACE_STABLE HR_STABLE FATIGUE_HIGH SLIGHTLY_BEHIND
       false false false false false true STRATEGIST ENERGY_MEDIUM []).

Definition delivered_strategy : AdaptiveStrategyOutput.t :=
  edge_fallback_output tired_behind_context.

(** The state after [_record_execution] stored that delivery. *)
Definition recorded_state : state :=
  (_record_execution keyed_engine recording_world "user-1" None
     delivered_strategy tired_behind_context tired_behind_analysis
     initial_state).2.

(** Metrics that did not move between the two measurements. *)
Definition steady_metrics : gmap string float :=
  <["pace" := 6%float]> (<["hr" := 160%float]> (<["zone" := 3%float]> ∅)).

(** The same runner before and after a cue: the pace went from 6.15 to
    6.1 min/km, heart rate and zone did not move. *)
Definition pace_6_15 : gmap string float :=
  <["pace" := 6.15%float]> (<["hr" := 160%float]> (<["zone" := 3%float]> ∅)).

Definition pace_6_1 : gmap string float :=
  <["pace" := 6.1%float]> (<["hr" := 160%float]> (<["zone" := 3%float]> ∅)).

(** Two knowledge-base rows: the first has the lower success rate. *)
Definition candidate_a : KBStrategy.t :=
  {| KBStrategy.id := "a";
     KBStrategy.title := "Cadence reset";
     KBStrategy.strategy_text := "Quick feet, light steps.";
     KBStrategy.conditions_to_use := "pace declining, heart rate stable";
     KBStrategy.when_not_to_use := "injury signals";
     KBStrategy.tags := Some ["pace_decline"];
     KBStrategy.times_used := Some 3%Z;
     KBStrategy.success_rate := Some 0.1%Q;
     KBStrategy.avg_effectiveness_score := Some 0.4%Q;
     KBStrategy.similarity := None;
     KBStrategy.match_score := None;
     KBStrategy.match_reason := None |}.

Definition candidate_b : KBStrategy.t :=
  {| KBStrategy.id := "b";
     KBStrategy.title := "Negative split";
     KBStrategy.strategy_text := "Hold back now, push the last third.";
     KBStrategy.conditions_to_use := "ahead of target, low fatigue";
     KBStrategy.when_not_to_use := "high fatigue";
     KBStrategy.tags := Some ["push_possible"];
     KBStrategy.times_used := Some 10%Z;
     KBStrategy.success_rate := Some 0.9%Q;
     KBStrategy.avg_effectiveness_score := Some 0.8%Q;
     KBStrategy.similarity := None;
     KBStrategy.match_score := None;
     KBStrategy.match_reason := None |}.

(** The answer of the matcher: row a matches, row b does not. *)
Definition sample_matches : list match_entry :=
  [ {| m_id := Some "a"; m_match := Some true;
       m_match_score := Some 0.9%Q; m_reason := Some "fits" |};
    {| m_id := Some "b"; m_match := Some false;
       m_match_score := Some 0.1%Q; m_reason := Some "runner is tired" |} ].

Definition chat_world (content : llm_content) : World :=
  {| now := 0;
     edge_function := fun _ => NetworkFailure;
     semantic_search_strategies_kb := fun _ => NetworkFailure;
     query_coaching_strategies_kb := fun _ => NetworkFailure;
     chat_completions := fun _ => Response 200 (Some content);
     mem0_search := fun _ => NetworkFailure;
     record_strategy_execution := fun _ => NetworkFailure;
     record_strategy_outcome_rpc := fun _ => NetworkFailure |}.

(** The same answer as a bare JSON array, and wrapped in an object. *)
Definition bare_array_world : World := chat_world (JsonArray sample_matches).
Definition wrapped_world : World := chat_world (JsonObject (Some sample_matches)).

(** ** The strategy cache, as the specification describes its use *)

(** The engine with other cache contents. *)
Definition with_cache (e : Engine)
    (cache : gmap string (list CoachingStrategy.t)) (ttl : Z)
    (timestamps : gmap string Q) : Engine :=
  {| supabase_url := supabase_url e;
     supabase_anon_key := supabase_anon_key e;
     edge_function_url := edge_function_url e;
     _strategy_cache := cache;
     _cache_ttl := ttl;
     _cache_timestamps := timestamps;
     supabase_key := supabase_key e;
     openai_key := openai_key e;
     mem0_api_key := mem0_api_key e;
     mem0_base_url := mem0_base_url e |}.

(** The cache holds [cached] under [key], stored no longer ago than the
    time to live. *)
Definition cache_entry_fresh (e : Engine) (w : World) (key : string)
    (cached : list CoachingStrategy.t) : Prop :=
  _strategy_cache e !! key = Some cached
  /\ exists stored_at,
      _cache_timestamps e !! key = Some stored_at
      /\ (now w - stored_at <= inject_Z (_cache_ttl e))%Q.

(** Retrieval answers from the cache, without any call, whenever the
    entry of the (distance_category, runner_level) key is fresh.  The
    source has no function from the pair to the key, so the statement
    is relative to one. *)
Definition retrieval_checks_cache_first
    (describe : SituationContext.t -> PerformanceAnalysis.t -> string)
    (cache_key : string -> string -> string) : Prop :=
  forall e w context user_id perf st cached,
    cache_entry_fresh e w
      (cache_key (_get_distance_category (PerformanceAnalysis.target_distance perf))
                 (_get_runner_level perf))
      cached ->
    _retrieve_strategies describe e w context user_id perf st = (Return cached, st).

Definition is_semantic_search (c : call) : bool :=
  match c with
  | SemanticSearchCall _ _ _ _ _ _ _ _ => true
  | _ => false
  end.

(** An engine with its settings in place whose cache holds one
    candidate under [key], stored at time 0. *)
Definition cached_candidates : list CoachingStrategy.t :=
  [kb_to_strategy false candidate_b].

Definition cached_engine (key : string) : Engine :=
  with_cache keyed_engine {[ key := cached_candidates ]} 300 {[ key := 0%Q ]}.

(** A world whose knowledge base answers the plain query with one row. *)
Definition kb_world : World :=
  {| now := 0;
     edge_function := fun _ => NetworkFailure;
     semantic_search_strategies_kb := fun _ => Response 200 (Some [candidate_b]);
     query_coaching_strategies_kb := fun _ => Response 200 (Some [candidate_a]);
     chat_completions := fun _ => NetworkFailure;
     mem0_search := fun _ => NetworkFailure;
     record_strategy_execution := fun _ => NetworkFailure;
     record_strategy_outcome_rpc := fun _ => NetworkFailure |}.

(** One way to make a cache key of the pair, and one description
    function, for the examples. *)
Definition colon_key (distance_category runner_level : string) : string :=
  distance_category +:+ ":" +:+ runner_level.

Definition plain_description (context : SituationContext.t)
    (perf : PerformanceAnalysis.t) : string := "steady run".

(** A memory service that answers the first query and then goes away. *)
Definition fading_memory_world : World :=
  {| now := 0;
     edge_function := fun _ => NetworkFailure;
     semantic_search_strategies_kb := fun _ => NetworkFailure;
     query_coaching_strategies_kb := fun _ => NetworkFailure;
     chat_completions := fun _ => NetworkFailure;
     mem0_search := fun c =>
       match c with
       | Mem0SearchCall _ _ "coaching strategies that worked well" _ _ =>
           Response 200
             (Some [ {| r_id := Some "m1";
                        r_memory := Some "Short cues worked well";
                        r_category := None;
                        r_score := Some 0.8%Q |} ])
       | _ => NetworkFailure
       end;
     record_strategy_execution := fun _ => NetworkFailure;
     record_strategy_outcome_rpc := fun _ => NetworkFailure |}.

(** ** Notions used in the statements *)

(** The one call of the delivery operation, and its precondition. *)
Definition edge_call (e : Engine) (perf : PerformanceAnalysis.t)
    (personality : CoachPersonality) (energy : CoachEnergy)
    (user_id : string) (run_id : option string) : call :=
  EdgeFunctionCall (edge_function_url e) (supabase_anon_key e) perf
    (value personality) (value energy) user_id run_id.

Definition configured (e : Engine) : bool :=
  str_truthy (supabase_url e) && str_truthy (supabase_anon_key e).


Definition by_match (x y : KBStrategy.t) : bool :=
  lex3_lt (key_match x) (key_match y).

(** The answer of the reranker in closed form, for an engine that has the
    [openai_key] attribute. *)
Definition chat_call (key situation_description : string)
    (kb : list KBStrategy.t) : call :=
  ChatCompletionsCall key situation_description (take 15 kb).

Definition rerank_closed (key : string) (answer : reply llm_content)
    (kb : list KBStrategy.t) : list KBStrategy.t :=
  if negb (str_truthy key) || is_nil kb then fallback_rank kb
  else
    match answer with
    | Response code (Some (JsonObject matches)) =>
        if (code =? 200)%Z then
          match rank_matches (default [] matches) kb with
          | Return ranked => ranked
          | Raise _ => fallback_rank kb
          end
        else fallback_rank kb
    | _ => fallback_rank kb
    end.


(** [sends P c]: running [c] appends calls to the log, all of them
    satisfying [P], and removes none. *)
Definition sends {A} (P : call -> Prop) (c : M A) : Prop :=
  forall st, exists new, calls (c st).2 = (calls st ++ new)%list /\ Forall P new.

(** [starts_with c0 m]: the first call that [m] sends is [c0]. *)
Definition starts_with {A} (c0 : call) (m : M A) : Prop :=
  forall st, exists rest, calls (m st).2 = (calls st ++ c0 :: rest)%list.

Definition not_semantic (c : call) : Prop := is_semantic_search c = false.


(** ** engine.py: strategy selection *)

(** [len(set(tags) & set(situation_tags))]: the distinct tags of the
    strategy that the situation has too. *)
Definition common_tags (tags situation_tags : list string) : nat :=
  length (filter (fun t => t ∈ situation_tags) (remove_dups tags)).

(** The key of [max] in [_select_best_strategy_simple], as the exact
    combination of the fields.  The source computes it in floats, so
    two candidates whose exact keys are equal or adjacent may compare
    differently there; the statements about selection do not say which
    of the candidates wins. *)
Definition selection_score (context : SituationContext.t)
    (s : CoachingStrategy.t) : Q :=
  (CoachingStrategy.success_rate s * 0.4
   + CoachingStrategy.similarity_score s * 0.3
   + inject_Z (Z.of_nat (common_tags (CoachingStrategy.tags s)
                           (SituationContext.situation_tags context))) * 0.1
   + (if String.eqb (CoachingStrategy.source s) "database" then 0.2 else 0.1))%Q.

(** [max(iterable, key=...)]: the first of the items of greatest key. *)
Fixpoint py_max_by {A} (key : A -> Q) (best : A) (l : list A) : A :=
  match l with
  | [] => best
  | x :: l' => py_max_by key (if Qltb (key best) (key x) then x else best) l'
  end.

(** [[m.memory_text for m in mem0_memories[:n]]]. *)
Definition insight_texts (n : nat) (mem0_memories : list Mem0CoachingMemory.t)
  : list string :=
  map Mem0CoachingMemory.memory_text (take n mem0_memories).

(** What the model answered to the selection prompt, once a code fence
    around it is removed: text that [json.loads] rejects, a JSON object
    with the fields read by [.get], or another JSON value. *)
Record selection_json := {
  sel_strategy_text : option string;
  sel_strategy_name : option string;
  sel_situation_summary : option string;
  sel_selection_reason : option string;
  sel_confidence_score : option Q;
  sel_expected_outcome : option string
}.

Inductive selection_content : Type :=
| SelectionText (content : string)
| SelectionObject (parsed : selection_json)
| SelectionOther.

Section Selection.
(** Number formatting is not modelled: the percentage in the rationale
    and the prompt are functions of what the source formats. *)
Variable format_percent : Q -> string.
Variable UserTopStrategy : Type.
Variable _build_strategy_selection_prompt :
  SituationContext.t -> list CoachingStrategy.t -> list Mem0CoachingMemory.t ->
  list UserTopStrategy -> PerformanceAnalysis.t -> string.
(** The selection request goes to the chat-completions endpoint; its
    answers are those of this oracle. *)
Variable selection_completions : call -> reply selection_content.

Definition _select_best_strategy_simple (context : SituationContext.t)
    (strategies : list CoachingStrategy.t)
    (mem0_memories : list Mem0CoachingMemory.t) : AdaptiveStrategyOutput.t :=
  match strategies with
  | [] =>
      {| AdaptiveStrategyOutput.strategy_text :=
           "Maintain current pace. Stay focused. You're doing well.";
         AdaptiveStrategyOutput.strategy_name := "Default Strategy";
         AdaptiveStrategyOutput.situation_summary := situation_summary_of context;
         AdaptiveStrategyOutput.selection_reason := "No matching strategies found";
         AdaptiveStrategyOutput.source_strategies := [];
         AdaptiveStrategyOutput.mem0_insights_used := [];
         AdaptiveStrategyOutput.execution_id := None;
         AdaptiveStrategyOutput.confidence_score := 0.5%Q;
         AdaptiveStrategyOutput.priority_tags :=
           take 3 (SituationContext.situation_tags context);
         AdaptiveStrategyOutput.requires_outcome_check := true;
         AdaptiveStrategyOutput.expected_outcome := EmptyString |}
  | first :: others =>
      let best_strategy := py_max_by (selection_score context) first others in
      {| AdaptiveStrategyOutput.strategy_text :=
           CoachingStrategy.strategy_text best_strategy;
         AdaptiveStrategyOutput.strategy_name :=
           CoachingStrategy.strategy_name best_strategy;
         AdaptiveStrategyOutput.situation_summary := situation_summary_of context;
         AdaptiveStrategyOutput.selection_reason :=
           "Best match: "
           +:+ format_percent (CoachingStrategy.success_rate best_strategy)
           +:+ " success rate";
         AdaptiveStrategyOutput.source_strategies := [best_strategy];
         AdaptiveStrategyOutput.mem0_insights_used := insight_texts 2 mem0_memories;
         AdaptiveStrategyOutput.execution_id := None;
         AdaptiveStrategyOutput.confidence_score := 0.6%Q;
         AdaptiveStrategyOutput.priority_tags :=
           take 3 (SituationContext.situation_tags context);
         AdaptiveStrategyOutput.requires_outcome_check := true;
         AdaptiveStrategyOutput.expected_outcome := EmptyString |}
  end.

(** The output built from a parsed answer. *)
Definition adapted_output (context : SituationContext.t)
    (strategies : list CoachingStrategy.t)
    (mem0_memories : list Mem0CoachingMemory.t) (parsed : selection_json)
  : AdaptiveStrategyOutput.t :=
  {| AdaptiveStrategyOutput.strategy_text :=
       default "Maintain current effort." (sel_strategy_text parsed);
     AdaptiveStrategyOutput.strategy_name :=
       default "Adaptive Strategy" (sel_strategy_name parsed);
     AdaptiveStrategyOutput.situation_summary :=
       default "Running situation assessed" (sel_situation_summary parsed);
     AdaptiveStrategyOutput.selection_reason :=
       default "Best match for current state" (sel_selection_reason parsed);
     AdaptiveStrategyOutput.source_strategies := take 3 strategies;
     AdaptiveStrategyOutput.mem0_insights_used := insight_texts 3 mem0_memories;
     AdaptiveStrategyOutput.execution_id := None;
     AdaptiveStrategyOutput.confidence_score :=
       default 0.7%Q (sel_confidence_score parsed);
     AdaptiveStrategyOutput.priority_tags :=
       take 3 (SituationContext.situation_tags context);
     AdaptiveStrategyOutput.requires_outcome_check := true;
     AdaptiveStrategyOutput.expected_outcome :=
       default "Improved performance" (sel_expected_outcome parsed) |}.

(** The output built in the [except json.JSONDecodeError] branch. *)
Definition raw_text_output (context : SituationContext.t)
    (strategies : list CoachingStrategy.t)
    (mem0_memories : list Mem0CoachingMemory.t) (content : string)
  : AdaptiveStrategyOutput.t :=
  {| AdaptiveStrategyOutput.strategy_text := String.substring 0 200 content;
     AdaptiveStrategyOutput.strategy_name := "Adaptive Strategy";
     AdaptiveStrategyOutput.situation_summary := situation_summary_of context;
     AdaptiveStrategyOutput.selection_reason := "LLM-generated response";
     AdaptiveStrategyOutput.source_strategies := take 3 strategies;
     AdaptiveStrategyOutput.mem0_insights_used := insight_texts 3 mem0_memories;
     AdaptiveStrategyOutput.execution_id := None;
     AdaptiveStrategyOutput.confidence_score := 0.6%Q;
     AdaptiveStrategyOutput.priority_tags :=
       take 3 (SituationContext.situation_tags context);
     AdaptiveStrategyOutput.requires_outcome_check := true;
     AdaptiveStrategyOutput.expected_outcome := EmptyString |}.

(** The logged call carries the key and the prompt; the candidates are
    inside the prompt text. *)
Definition _select_and_adapt_strategy (e : Engine)
    (context : SituationContext.t) (strategies : list CoachingStrategy.t)
    (mem0_memories : list Mem0CoachingMemory.t)
    (user_top_strategies : list UserTopStrategy)
    (performance_analysis : PerformanceAnalysis.t)
  : M AdaptiveStrategyOutput.t :=
  key <- getattr "openai_key" (openai_key e) ;;
  if negb (str_truthy key)
  then ret (_select_best_strategy_simple context strategies mem0_memories)
  else
    let prompt := _build_strategy_selection_prompt context strategies
                    mem0_memories user_top_strategies performance_analysis in
    try_except
      (response <- post (ChatCompletionsCall key prompt []) selection_completions ;;
       if (response.1 =? 200)%Z then
         content <- decode response.2 ;;
         match content with
         | SelectionObject parsed =>
             ret (adapted_output context strategies mem0_memories parsed)
         | SelectionText text =>
             ret (raw_text_output context strategies mem0_memories text)
         | SelectionOther => raise (AttributeError "get")
         end
       else ret (_select_best_strategy_simple context strategies mem0_memories))
      (fun _ => ret (_select_best_strategy_simple context strategies mem0_memories)).
End Selection.

(** ** Notions used in the further statements *)

(** The two tests of [_get_runner_level]. *)
Definition advanced_test (perf : PerformanceAnalysis.t) : bool :=
  bool_decide (PerformanceAnalysis.pace_trend perf = PACE_STABLE)
  && bool_decide (PerformanceAnalysis.hr_trend perf = HR_STABLE)
  && Qltb (Qabs (PerformanceAnalysis.pace_deviation perf)) 3.

Definition beginner_test (perf : PerformanceAnalysis.t) : bool :=
  bool_decide (PerformanceAnalysis.pace_trend perf = PACE_ERRATIC)
  || bool_decide (PerformanceAnalysis.hr_trend perf = HR_SPIKING)
  || Qltb 15 (Qabs (PerformanceAnalysis.pace_deviation perf)).


(** A fresh runner with a steady heart, who spent 30% of the run in
    zones 4 and 5. *)
Definition high_zone_analysis : PerformanceAnalysis.t :=
  {| PerformanceAnalysis.current_pace := 5;
     PerformanceAnalysis.target_pace := 5;
     PerformanceAnalysis.current_distance := 4000;
     PerformanceAnalysis.target_distance := 10000;
     PerformanceAnalysis.elapsed_time := 1200;
     PerformanceAnalysis.current_hr := Some 150%Z;
     PerformanceAnalysis.average_hr := Some 150%Z;
     PerformanceAnalysis.max_hr := Some 190%Z;
     PerformanceAnalysis.current_zone := Some 3%Z;
     PerformanceAnalysis.zone_percentages :=
       <[4%Z := 20%Q]> (<[5%Z := 10%Q]> ∅);
     PerformanceAnalysis.pace_trend := PACE_STABLE;
     PerformanceAnalysis.hr_trend := HR_STABLE;
     PerformanceAnalysis.fatigue_level := FATIGUE_LOW;
     PerformanceAnalysis.target_status := ON_TRACK;
     PerformanceAnalysis.performance_summary := EmptyString;
     PerformanceAnalysis.heart_zone_analysis := EmptyString;
     PerformanceAnalysis.interval_trends := EmptyString;
     PerformanceAnalysis.hr_variation_analysis := EmptyString;
     PerformanceAnalysis.injury_risk_signals := [];
     PerformanceAnalysis.adaptive_microstrategy := EmptyString;
     PerformanceAnalysis.pace_deviation := 0;
     PerformanceAnalysis.completed_intervals := 4;
     PerformanceAnalysis.interval_paces := [] |}.

(** The tag list of [build_tags] in two parts: the tags of the four
    enumerations, then the tags of the six flags. *)
Definition enum_tags (c : SituationContext.t) : list string :=
  ((if bool_decide (SituationContext.pace_trend c = PACE_DECLINING) then ["pace_decline"]
    else if bool_decide (SituationContext.pace_trend c = PACE_STABLE) then ["pace_stable"]
    else if bool_decide (SituationContext.pace_trend c = PACE_IMPROVING)
         then ["pace_improving"]
    else [])
   ++ (if bool_decide (SituationContext.hr_trend c = HR_RISING) then ["hr_rising"]
       else if bool_decide (SituationContext.hr_trend c = HR_STABLE) then ["hr_stable"]
       else if bool_decide (SituationContext.hr_trend c = HR_SPIKING) then ["hr_spiking"]
       else [])
   ++ (if bool_decide (SituationContext.target_status c = AHEAD) then ["target_ahead"]
       else if bool_decide (SituationContext.target_status c = ON_TRACK)
            then ["target_on_track"]
       else if py_in (SituationContext.target_status c) [SLIGHTLY_BEHIND; WAY_BEHIND]
            then ["target_behind"]
       else [])
   ++ (if bool_decide (SituationContext.fatigue_level c = FATIGUE_LOW) then ["fatigue_low"]
       else if bool_decide (SituationContext.fatigue_level c = FATIGUE_MODERATE)
            then ["fatigue_moderate"]
       else if py_in (SituationContext.fatigue_level c) [FATIGUE_HIGH; FATIGUE_SEVERE]
            then ["fatigue_high"]
       else []))%list.

Definition flag_tags (c : SituationContext.t) : list string :=
  ((if SituationContext.cardiac_drift c then ["cardiac_drift"] else [])
   ++ (if SituationContext.zone_too_high c then ["zone_too_high"] else [])
   ++ (if SituationContext.injury_risk c then ["injury_risk"] else [])
   ++ (if SituationContext.form_breakdown c then ["form_breakdown"] else [])
   ++ (if SituationContext.push_possible c then ["push_possible"] else [])
   ++ (if SituationContext.recovery_needed c then ["recovery_needed"] else []))%list.

Definition enum_tag_names : list string :=
  [ "pace_decline"; "pace_stable"; "pace_improving";
    "hr_rising"; "hr_stable"; "hr_spiking";
    "target_ahead"; "target_on_track"; "target_behind";
    "fatigue_low"; "fatigue_moderate"; "fatigue_high" ].

Definition flag_tag_names : list string :=
  [ "cardiac_drift"; "zone_too_high"; "injury_risk";
    "form_breakdown"; "push_possible"; "recovery_needed" ].

(** The requests of the two recording operations, and what the engine
    needs to send them. *)
Definition record_call (e : Engine) (key user_id : string) (run_id : option string)
    (strategy : AdaptiveStrategyOutput.t) (context : SituationContext.t)
    (perf : PerformanceAnalysis.t) : call :=
  RecordExecutionCall (supabase_url e +:+ "/rest/v1/rpc/record_strategy_execution")
    key user_id run_id (strategy_id_of strategy)
    (execution_context_of context perf)
    (AdaptiveStrategyOutput.strategy_text strategy).

Definition outcome_call (e : Engine) (key execution_id : string)
    (outcome_metrics : gmap string pyval) (was_effective : bool)
    (effectiveness_score : option float) (effectiveness_reason : option string) : call :=
  RecordOutcomeCall (supabase_url e +:+ "/rest/v1/rpc/record_strategy_outcome")
    key execution_id outcome_metrics was_effective
    effectiveness_score effectiveness_reason.

Definition service_ready (e : Engine) (key : string) : Prop :=
  str_truthy (supabase_url e) = true
  /\ supabase_key e = Some key
  /\ str_truthy key = true.

(** The answer [(was_effective, score, reason)] of the assessor for a
    stored context. *)
Definition verdict_of (context : gmap string pyval)
    (before_metrics after_metrics : gmap string float) : bool * float * string :=
  let v := score_rules context before_metrics after_metrics in
  (v_effective v, v_score v, reason_of v).

(** The request with which the assessor persists its verdict. *)
Definition verdict_call (e : Engine) (key execution_id : string)
    (context : gmap string pyval) (before_metrics after_metrics : gmap string float)
  : call :=
  let v := score_rules context before_metrics after_metrics in
  outcome_call e key execution_id (outcome_metrics_of before_metrics after_metrics)
    (v_effective v) (Some (v_score v)) (Some (reason_of v)).

(** A persistence collaborator that is down, and one that refuses. *)
Definition refusing_world : World :=
  {| now := 0;
     edge_function := fun _ => NetworkFailure;
     semantic_search_strategies_kb := fun _ => NetworkFailure;
     query_coaching_strategies_kb := fun _ => NetworkFailure;
     chat_completions := fun _ => NetworkFailure;
     mem0_search := fun _ => NetworkFailure;
     record_strategy_execution := fun _ => Response 500 None;
     record_strategy_outcome_rpc := fun _ => Response 500 None |}.

(** The rows that [_query_kb_fallback] takes from an answer. *)
Definition kb_rows (answer : reply (list KBStrategy.t)) : list KBStrategy.t :=
  match answer with
  | Response code (Some rows) => if (code =? 200)%Z then rows else []
  | _ => []
  end.

Definition query_call (e : Engine) (key distance_category runner_level : string)
  : call :=
  QueryKBCall (supabase_url e +:+ "/rest/v1/rpc/query_coaching_strategies_kb")
    key distance_category runner_level 15.

(** The plain knowledge-base query of a retrieval. *)
Definition retrieval_query (e : Engine) (key : string) (perf : PerformanceAnalysis.t)
  : call :=
  query_call e key
    (_get_distance_category (PerformanceAnalysis.target_distance perf))
    (_get_runner_level perf).

(** A matcher answer in which no entry is marked as a match. *)
Definition no_entry_matches (matches : list match_entry) : Prop :=
  Forall (fun m => default false (m_match m) = false) matches.

(** A world whose knowledge base has two rows and whose matcher marks
    none of them. *)
Definition unmatched_world : World :=
  {| now := 0;
     edge_function := fun _ => NetworkFailure;
     semantic_search_strategies_kb := fun _ => NetworkFailure;
     query_coaching_strategies_kb := fun _ => Response 200 (Some [candidate_a; candidate_b]);
     chat_completions := fun _ =>
       Response 200
         (Some (JsonObject
                  (Some [ {| m_id := Some "a"; m_match := Some false;
                             m_match_score := Some 0.2%Q; m_reason := None |};
                          {| m_id := Some "b"; m_match := None;
                             m_match_score := None; m_reason := None |} ])));
     mem0_search := fun _ => NetworkFailure;
     record_strategy_execution := fun _ => NetworkFailure;
     record_strategy_outcome_rpc := fun _ => NetworkFailure |}.

(** [by_relevance a b]: [a] is at least as relevant as [b]. *)
Definition by_relevance (a b : Mem0CoachingMemory.t) : Prop :=
  (Mem0CoachingMemory.relevance_score b <= Mem0CoachingMemory.relevance_score a)%Q.

(** A request to the memory service, as the fetcher sends it. *)
Definition is_memory_search (key user_id : string) (c : call) : Prop :=
  exists base_url query, c = Mem0SearchCall base_url key query user_id 3.

(** An answer of the memory service about a strategy that did not work. *)
Definition ineffective_result : Mem0Result :=
  {| r_id := Some "m7";
     r_memory := Some "Long intervals were INEFFECTIVE on hot days";
     r_category := None;
     r_score := Some 0.6%Q |}.

(** The request of the selection step. *)
Definition selection_call (key prompt : string) : call :=
  ChatCompletionsCall key prompt [].

(** The selection score without the provenance term. *)
Definition score_before_provenance (context : SituationContext.t)
    (s : CoachingStrategy.t) : Q :=
  (CoachingStrategy.success_rate s * 0.4
   + CoachingStrategy.similarity_score s * 0.3
   + inject_Z (Z.of_nat (common_tags (CoachingStrategy.tags s)
                           (SituationContext.situation_tags context))) * 0.1)%Q.

(** ** engine.py: embeddings for the knowledge base

    [generate_and_store_kb_embeddings] talks to three endpoints that the
    coaching operations do not use, and touches no pending execution:
    its computations thread the log of these requests only. *)

Module KBRow.
Record t := mk {
  id : string;
  title : string;
  conditions_to_use : string;
  when_not_to_use : string;
  strategy_text : string;
  distance : string;
  type : string;
  runner_level : string
}.
End KBRow.

(** The [params] of the query for the rows. *)
Inductive kb_filter : Type :=
| ById (strategy_id : string)
| MissingEmbedding.

Inductive kb_call : Type :=
| FetchStrategiesCall (url apikey : string) (params : kb_filter)
| EmbeddingsCall (openai_key model input : string)
| UpdateEmbeddingCall (url apikey p_strategy_id : string) (p_embedding : list Q).

(** The body of an embeddings answer is what
    [result["data"][0]["embedding"]] finds in it. *)
Record KBWorld := {
  coaching_strategies_kb : kb_call -> reply (list KBRow.t);
  openai_embeddings : kb_call -> reply (list Q);
  update_strategy_embedding_kb : kb_call -> reply unit
}.

Definition L (A : Type) : Type := list kb_call -> res A * list kb_call.

Definition lret {A} (a : A) : L A := fun log => (Return a, log).

Definition lbind {A B} (c : L A) (k : A -> L B) : L B := fun log =>
  match c log with
  | (Return a, log') => k a log'
  | (Raise e, log') => (Raise e, log')
  end.

Definition ltry {A} (c : L A) (h : exn -> L A) : L A := fun log =>
  match c log with
  | (Return a, log') => (Return a, log')
  | (Raise e, log') => h e log'
  end.

Definition lrequest {A} (c : kb_call) (oracle : kb_call -> reply A)
  : L (Z * option A) :=
  fun log =>
    match oracle c with
    | NetworkFailure => (Raise TransportError, (log ++ [c])%list)
    | Response code body => (Return (code, body), (log ++ [c])%list)
    end.

Definition ldecode {A} (body : option A) : L A :=
  match body with
  | Some a => lret a
  | None => fun log => (Raise JSONDecodeError, log)
  end.

Section KBEmbeddings.
(** The text to embed is formatted from the fields of the row and
    stripped of surrounding white space. *)
Variable embedding_text_of : KBRow.t -> string.

Definition _generate_embedding_with_key (w : KBWorld) (text openai_key : string)
  : L (option (list Q)) :=
  if negb (str_truthy openai_key) then lret None
  else
    ltry
      (lbind (lrequest (EmbeddingsCall openai_key "text-embedding-3-small" text)
                (openai_embeddings w))
         (fun response =>
            if (response.1 =? 200)%Z then
              lbind (ldecode response.2) (fun result => lret (Some result))
            else lret None))
      (fun _ => lret None).

(** The loop over the fetched rows, with the counter. *)
Fixpoint store_embeddings (e : Engine) (w : KBWorld) (openai_key : string)
    (strategies : list KBRow.t) (count : Z) : L Z :=
  match strategies with
  | [] => lret count
  | strategy :: rest =>
      lbind (_generate_embedding_with_key w (embedding_text_of strategy) openai_key)
        (fun embedding =>
           if embedding_available embedding then
             lbind (lrequest
                      (UpdateEmbeddingCall
                         (supabase_url e +:+ "/rest/v1/rpc/update_strategy_embedding_kb")
                         (supabase_anon_key e) (KBRow.id strategy)
                         (default [] embedding))
                      (update_strategy_embedding_kb w))
               (fun update_response =>
                  if (update_response.1 =? 200)%Z
                  then store_embeddings e w openai_key rest (count + 1)
                  else store_embeddings e w openai_key rest count)
           else store_embeddings e w openai_key rest count)
  end.

Definition generate_and_store_kb_embeddings (env : string -> option string)
    (e : Engine) (w : KBWorld) (strategy_id : option string) : L Z :=
  let openai_key := default EmptyString (env "OPENAI_API_KEY") in
  if negb (str_truthy openai_key) || negb (str_truthy (supabase_url e))
     || negb (str_truthy (supabase_anon_key e))
  then lret 0%Z
  else
    ltry
      (let params :=
         match strategy_id with
         | Some id => if str_truthy id then ById id else MissingEmbedding
         | None => MissingEmbedding
         end in
       lbind (lrequest (FetchStrategiesCall
                          (supabase_url e +:+ "/rest/v1/coaching_strategies_kb")
                          (supabase_anon_key e) params)
                (coaching_strategies_kb w))
         (fun response =>
            if negb (response.1 =? 200)%Z then lret 0%Z
            else
              lbind (ldecode response.2) (fun strategies =>
              if is_nil strategies then lret 0%Z
              else store_embeddings e w openai_key strategies 0)))
      (fun _ => lret 0%Z).
End KBEmbeddings.

(** The update requests of a log that the service accepted, and whether
    one of them failed in transport. *)
Definition update_accepted (w : KBWorld) (c : kb_call) : bool :=
  match c with
  | UpdateEmbeddingCall _ _ _ _ =>
      match update_strategy_embedding_kb w c with
      | Response code _ => (code =? 200)%Z
      | NetworkFailure => false
      end
  | _ => false
  end.

Definition update_lost (w : KBWorld) (c : kb_call) : bool :=
  match c with
  | UpdateEmbeddingCall _ _ _ _ =>
      match update_strategy_embedding_kb w c with
      | NetworkFailure => true
      | Response _ _ => false
      end
  | _ => false
  end.

Definition stored (w : KBWorld) (log : list kb_call) : Z :=
  Z.of_nat (length (filter (fun c => update_accepted w c = true) log)).

Definition is_update (c : kb_call) : bool :=
  match c with
  | UpdateEmbeddingCall _ _ _ _ => true
  | _ => false
  end.

Definition embedding_keys_present (env : string -> option string) (e : Engine) : bool :=
  str_truthy (default EmptyString (env "OPENAI_API_KEY"))
  && str_truthy (supabase_url e) && str_truthy (supabase_anon_key e).

(** A service that stores the embedding of row "a" and drops the
    connection on the next update. *)
Definition two_rows : list KBRow.t :=
  [ KBRow.mk "a" "Cadence reset" "pace declining" "injury" "Quick feet." "10k"
      "pace" "intermediate";
    KBRow.mk "b" "Negative split" "ahead of target" "high fatigue" "Hold back."
      "10k" "pace" "advanced" ].

Definition dropping_kb_world : KBWorld :=
  {| coaching_strategies_kb := fun _ => Response 200 (Some two_rows);
     openai_embeddings := fun _ => Response 200 (Some [0.1%Q; 0.2%Q]);
     update_strategy_embedding_kb := fun c =>
       match c with
       | UpdateEmbeddingCall _ _ "a" _ => Response 200 (Some tt)
       | _ => NetworkFailure
       end |}.

Definition openai_environment : string -> option string :=
  fun name => if String.eqb name "OPENAI_API_KEY" then Some "sk-test" else None.

(** * Properties *)

(** ** Comparisons on rationals *)

Lemma Qltb_lt a b : Qltb a b = true <-> (a < b)%Q.
Proof.
  unfold Qltb. rewrite negb_true_iff.
  split; intros H.
  - apply Qnot_le_lt. intros Hle. apply Qle_bool_iff in Hle. congruence.
  - destruct (Qle_bool b a) eqn:E; [|reflexivity].
    apply Qle_bool_iff in E. exfalso. apply (Qlt_not_le _ _ H E).
Qed.

Lemma Qltb_ge a b : Qltb a b = false <-> (b <= a)%Q.
Proof.
  unfold Qltb. rewrite negb_false_iff. apply Qle_bool_iff.
Qed.

Lemma Qle_bool_gt a b : Qle_bool a b = false <-> (b < a)%Q.
Proof.
  split; intros H.
  - apply Qnot_le_lt. intros Hle. apply Qle_bool_iff in Hle. congruence.
  - destruct (Qle_bool a b) eqn:E; [|reflexivity].
    apply Qle_bool_iff in E. exfalso. apply (Qlt_not_le _ _ H E).
Qed.

Ltac q_tests :=
  repeat match goal with
  | H : Qltb _ _ = true |- _ => apply Qltb_lt in H
  | H : Qltb _ _ = false |- _ => apply Qltb_ge in H
  | H : Qle_bool _ _ = true |- _ => apply Qle_bool_iff in H
  | H : Qle_bool _ _ = false |- _ => apply Qle_bool_gt in H
  end.

(** ** The distance category *)

Lemma target_km_lt (d k : Q) : (d / 1000 < k <-> d < k * 1000)%Q.
Proof.
  unfold Qdiv. change (/ 1000)%Q with (1 # 1000)%Q. split; intros H; lra.
Qed.

Lemma target_km_le (d k : Q) : (d / 1000 <= k <-> d <= k * 1000)%Q.
Proof.
  unfold Qdiv. change (/ 1000)%Q with (1 # 1000)%Q. split; intros H; lra.
Qed.

Lemma distance_category_cases (d : Q) :
  (d < 3000 /\ _get_distance_category d = "casual")%Q
  \/ (3000 <= d <= 5500 /\ _get_distance_category d = "5k")%Q
  \/ (5500 < d <= 11000 /\ _get_distance_category d = "10k")%Q
  \/ (11000 < d <= 22000 /\ _get_distance_category d = "half")%Q
  \/ (22000 < d /\ _get_distance_category d = "full")%Q.
Proof.
  unfold _get_distance_category.
  destruct (Qltb (d / 1000) 3) eqn:E1.
  { left. apply Qltb_lt, target_km_lt in E1. split; [lra | reflexivity]. }
  apply Qltb_ge in E1.
  assert (3000 <= d)%Q as H1.
  { destruct (Qlt_le_dec d 3000) as [Hlt|Hle]; [|exact Hle].
    exfalso. assert (d / 1000 < 3)%Q by (apply target_km_lt; lra). lra. }
  destruct (Qle_bool (d / 1000) 5.5) eqn:E2.
  { right; left. apply Qle_bool_iff, target_km_le in E2.
    split; [split; lra | reflexivity]. }
  apply Qle_bool_gt in E2.
  assert (5500 < d)%Q as H2.
  { destruct (Qlt_le_dec 5500 d) as [Hlt|Hle]; [exact Hlt|].
    exfalso. assert (d / 1000 <= 5.5)%Q by (apply target_km_le; lra). lra. }
  destruct (Qle_bool (d / 1000) 11) eqn:E3.
  { right; right; left. apply Qle_bool_iff, target_km_le in E3.
    split; [split; lra | reflexivity]. }
  apply Qle_bool_gt in E3.
  assert (11000 < d)%Q as H3.
  { destruct (Qlt_le_dec 11000 d) as [Hlt|Hle]; [exact Hlt|].
    exfalso. assert (d / 1000 <= 11)%Q by (apply target_km_le; lra). lra. }
  destruct (Qle_bool (d / 1000) 22) eqn:E4.
  { right; right; right; left. apply Qle_bool_iff, target_km_le in E4.
    split; [split; lra | reflexivity]. }
  apply Qle_bool_gt in E4.
  assert (22000 < d)%Q as H4.
  { destruct (Qlt_le_dec 22000 d) as [Hlt|Hle]; [exact Hlt|].
    exfalso. assert (d / 1000 <= 22)%Q by (apply target_km_le; lra). lra. }
  right; right; right; right. split; [lra | reflexivity].
Qed.

(** C9. [_get_distance_category] sends every distance to exactly one of
    casual, 5k, 10k, half, full; the five classes are the intervals
    below 3000 m, 3000 to 5500 m, above 5500 to 11000 m, above 11000 to
    22000 m, and above 22000 m, each upper bound included; 5500 m is
    "5k" and 5501 m is "10k". *)
Theorem distance_category_partition (d : Q) :
  (_get_distance_category d = "casual" <-> d < 3000)%Q
  /\ (_get_distance_category d = "5k" <-> 3000 <= d <= 5500)%Q
  /\ (_get_distance_category d = "10k" <-> 5500 < d <= 11000)%Q
  /\ (_get_distance_category d = "half" <-> 11000 < d <= 22000)%Q
  /\ (_get_distance_category d = "full" <-> 22000 < d)%Q
  /\ _get_distance_category d ∈ ["casual"; "5k"; "10k"; "half"; "full"]
  /\ _get_distance_category 5500 = "5k"
  /\ _get_distance_category 5501 = "10k".
Proof.
  destruct (distance_category_cases d)
    as [[H E]|[[H E]|[[H E]|[[H E]|[H E]]]]]; rewrite E;
    repeat split; try reflexivity; try discriminate; try lra;
    try (intros; exact H); try (intros; lra);
    try (repeat constructor).
Qed.

(** ** The situation context builder *)

Lemma py_truediv_raises (a b : Q) :
  py_truediv a b = Raise ZeroDivisionError <-> (b == 0)%Q.
Proof.
  unfold py_truediv. destruct (Qeq_bool b 0) eqn:E.
  - apply Qeq_bool_iff in E. tauto.
  - split; [discriminate|]. intros H. apply Qeq_bool_iff in H. congruence.
Qed.

Lemma inject_Z_zero (m : Z) : (inject_Z m == 0)%Q <-> m = 0%Z.
Proof.
  unfold Qeq, inject_Z. simpl. lia.
Qed.

(** The builder raises exactly when the division is reached with a zero
    maximum heart rate. *)
Lemma build_context_raises_iff perf personality energy :
  _build_situation_context perf personality energy = Raise ZeroDivisionError
  <-> (py_in (PerformanceAnalysis.fatigue_level perf) [FATIGUE_NONE; FATIGUE_LOW] = true
       /\ PerformanceAnalysis.hr_trend perf = HR_STABLE
       /\ is_Some (PerformanceAnalysis.current_hr perf)
       /\ PerformanceAnalysis.max_hr perf = Some 0%Z).
Proof.
  unfold _build_situation_context, push_possible_of.
  destruct (py_in _ _) eqn:Ef; simpl.
  2:{ split; [discriminate | intros [? _]; discriminate]. }
  case_bool_decide as Eh; simpl.
  2:{ split; [discriminate | intros (_ & ? & _); contradiction]. }
  destruct (PerformanceAnalysis.current_hr perf) as [c|] eqn:Ec; simpl.
  2:{ split; [discriminate | intros (_ & _ & [? ?] & _); discriminate]. }
  destruct (PerformanceAnalysis.max_hr perf) as [m|] eqn:Em; simpl.
  2:{ split; [discriminate | intros (_ & _ & _ & ?); discriminate]. }
  unfold py_truediv. destruct (Qeq_bool (inject_Z m) 0) eqn:E; simpl.
  - apply Qeq_bool_iff in E. apply (proj1 (inject_Z_zero m)) in E. rewrite E.
    split; [|reflexivity]. intros _. repeat split; eauto.
  - split; [discriminate|]. intros (_ & _ & _ & Hm). inversion Hm; subst.
    discriminate E.
Qed.

(** In every other case it returns a context, and no other exception
    exists. *)
Lemma build_context_total_otherwise perf personality energy :
  _build_situation_context perf personality energy = Raise ZeroDivisionError
  \/ exists context, _build_situation_context perf personality energy = Return context.
Proof.
  unfold _build_situation_context.
  destruct (push_possible_of perf) as [b|ex] eqn:E; simpl; [right; eauto|].
  left. unfold push_possible_of in E.
  repeat (match type of E with
          | context [if ?b then _ else _] => destruct b
          | context [match ?o with Some _ => _ | None => _ end] => destruct o
          end; try discriminate).
  unfold py_truediv in E. simpl in E.
  destruct (Qeq_bool _ _); simpl in E; [|discriminate].
  inversion E. reflexivity.
Qed.

(** C5. For an analysis whose heart-rate fields are present with a
    maximum heart rate of zero, with fatigue none and a stable
    heart-rate trend, the builder does not produce a context: the
    ratio [current_hr / max_hr] raises [ZeroDivisionError]. *)
Theorem build_context_zero_max_hr_raises :
  forall personality energy,
    _build_situation_context zero_max_hr_analysis personality energy
    = Raise ZeroDivisionError.
Proof.
  intros personality energy. reflexivity.
Qed.

(** When the builder returns, [push_possible] is the conjunction of the
    specification. *)
Lemma build_context_push_possible perf personality energy context :
  _build_situation_context perf personality energy = Return context ->
  SituationContext.push_possible context
  = py_in (PerformanceAnalysis.fatigue_level perf) [FATIGUE_NONE; FATIGUE_LOW]
    && bool_decide (PerformanceAnalysis.hr_trend perf = HR_STABLE)
    && match PerformanceAnalysis.current_hr perf, PerformanceAnalysis.max_hr perf with
       | Some c, Some m => Qltb (inject_Z c / inject_Z m) 0.85
       | _, _ => true
       end.
Proof.
  unfold _build_situation_context, push_possible_of.
  destruct (py_in _ _); simpl; [|intros [= <-]; reflexivity].
  case_bool_decide; simpl; [|intros [= <-]; reflexivity].
  destruct (PerformanceAnalysis.current_hr perf); simpl;
    [|intros [= <-]; reflexivity].
  destruct (PerformanceAnalysis.max_hr perf); simpl;
    [|intros [= <-]; reflexivity].
  unfold py_truediv. destruct (Qeq_bool _ _); simpl; [discriminate|].
  intros [= <-]. reflexivity.
Qed.

(** ** The delivery operation *)

(** Without the Supabase settings the operation raises at once: no
    context is built, no call is sent, the state is untouched. *)
Lemma delivery_unconfigured e w perf personality energy user_id run_id st :
  configured e = false ->
  get_adaptive_strategy e w perf personality energy user_id run_id st
  = (Raise (ValueError "Supabase URL and anon key required for Edge Function"), st).
Proof.
  unfold configured, get_adaptive_strategy. intros H.
  rewrite <- negb_andb, H. reflexivity.
Qed.

(** With the settings present, the outcome is decided by the context
    builder and by the single call to the Edge Function. *)
Lemma delivery_configured e w perf personality energy user_id run_id st :
  configured e = true ->
  match _build_situation_context perf personality energy with
  | Raise ex =>
      get_adaptive_strategy e w perf personality energy user_id run_id st
      = (Raise ex, st)
  | Return context =>
      get_adaptive_strategy e w perf personality energy user_id run_id st
      = (Return
           match edge_function w (edge_call e perf personality energy user_id run_id) with
           | Response 200 (Some strategy_data) => edge_output context strategy_data
           | _ => edge_fallback_output context
           end,
         {| pending := pending st;
            calls := calls st
                     ++ [edge_call e perf personality energy user_id run_id] |})
  end.
Proof.
  unfold configured, get_adaptive_strategy. intros H.
  rewrite <- negb_andb, H. simpl.
  unfold bind, lift, try_except, post, decode, ret, raise, edge_call.
  destruct (_build_situation_context perf personality energy); [|reflexivity].
  destruct (edge_function w _) as [|code body]; [reflexivity|]. simpl.
  destruct (Z.eqb_spec code 200) as [->|Hne].
  - destruct body; reflexivity.
  - destruct code as [|c|c]; try reflexivity.
    do 8 (destruct c as [c|c|]; try reflexivity). congruence.
Qed.

(** A configuration error is raised only when a setting is missing. *)
Lemma delivery_value_error_only_unconfigured
    e w perf personality energy user_id run_id st msg :
  (get_adaptive_strategy e w perf personality energy user_id run_id st).1
  = Raise (ValueError msg) ->
  configured e = false.
Proof.
  intros H. destruct (configured e) eqn:Hc; [|reflexivity]. exfalso.
  pose proof (delivery_configured e w perf personality energy user_id run_id st Hc) as D.
  destruct (build_context_total_otherwise perf personality energy) as [E|[context E]];
    rewrite E in D; rewrite D in H; discriminate H.
Qed.

(** A failed, refused or malformed answer is absorbed: the caller gets
    the fallback output, of confidence 0.5 and without execution id. *)
Lemma delivery_absorbs_failure e w perf personality energy user_id run_id st context :
  configured e = true ->
  _build_situation_context perf personality energy = Return context ->
  match edge_function w (edge_call e perf personality energy user_id run_id) with
  | Response 200 (Some _) => False
  | _ => True
  end ->
  exists out,
    (get_adaptive_strategy e w perf personality energy user_id run_id st).1 = Return out
    /\ (AdaptiveStrategyOutput.confidence_score out == 0.5)%Q
    /\ AdaptiveStrategyOutput.execution_id out = None.
Proof.
  intros Hc Hb Hf.
  pose proof (delivery_configured e w perf personality energy user_id run_id st Hc) as D.
  rewrite Hb in D. rewrite D. clear D.
  exists (edge_fallback_output context).
  split; [|split; reflexivity].
  cbn [fst]. f_equal.
  destruct (edge_function w (edge_call e perf personality energy user_id run_id))
    as [|code [sd|]]; try reflexivity;
    (destruct code as [|c|c]; try reflexivity;
     do 8 (destruct c as [c|c|]; try reflexivity)).
  contradiction.
Qed.

(** C7. With both Supabase settings present, an analysis whose maximum
    heart rate is zero makes [get_adaptive_strategy] raise
    [ZeroDivisionError]: the context is built outside the [try], so
    this exception crosses the operation boundary, whatever the
    collaborators answer. *)
Theorem delivery_zero_max_hr_raises :
  forall w personality energy user_id run_id st,
    get_adaptive_strategy configured_engine w zero_max_hr_analysis
      personality energy user_id run_id st
    = (Raise ZeroDivisionError, st).
Proof.
  intros. reflexivity.
Qed.

(** ** The pending store *)

Lemma delivery_keeps_pending e w perf personality energy user_id run_id st :
  pending (get_adaptive_strategy e w perf personality energy user_id run_id st).2
  = pending st.
Proof.
  destruct (configured e) eqn:Hc.
  - pose proof (delivery_configured e w perf personality energy user_id run_id st Hc) as D.
    destruct (_build_situation_context perf personality energy); rewrite D; reflexivity.
  - rewrite delivery_unconfigured by exact Hc. reflexivity.
Qed.

(** Recording an outcome can only remove an entry. *)
Lemma record_outcome_pending e w execution_id metrics eff score reason st :
  let st' := (record_strategy_outcome e w execution_id metrics eff score reason st).2 in
  pending st' = pending st \/ pending st' = delete execution_id (pending st).
Proof.
  unfold record_strategy_outcome.
  destruct (negb (str_truthy (supabase_url e))); [left; reflexivity|].
  unfold bind, getattr. destruct (supabase_key e) as [key|]; [|left; reflexivity].
  simpl. destruct (negb (str_truthy key)); [left; reflexivity|].
  unfold try_except, bind, post, ret, pending_delete.
  destruct (record_strategy_outcome_rpc w _) as [|code body]; [left; reflexivity|].
  simpl. destruct (code =? 200)%Z; [right|left]; reflexivity.
Qed.

Lemma assess_pending e w execution_id before after st :
  let st' := (assess_strategy_effectiveness e w execution_id before after st).2 in
  pending st' = pending st \/ pending st' = delete execution_id (pending st).
Proof.
  unfold assess_strategy_effectiveness, bind, pending_get. simpl.
  destruct (pending st !! execution_id) as [execution|]; [|left; reflexivity].
  match goal with
  | |- context [record_strategy_outcome ?e ?w ?i ?m ?b ?s ?r st] =>
      pose proof (record_outcome_pending e w i m b s r st) as H;
      destruct (record_strategy_outcome e w i m b s r st) as [[ok|ex] st1]
  end; simpl in *; exact H.
Qed.

Lemma perform_keeps_empty e w o st :
  pending st = ∅ -> pending (perform e w o st) = ∅.
Proof.
  intros H. destruct o; simpl.
  - rewrite delivery_keeps_pending. exact H.
  - destruct (record_outcome_pending e w execution_id outcome_metrics was_effective
                effectiveness_score effectiveness_reason st) as [->| ->];
      rewrite H; [reflexivity | apply delete_empty].
  - destruct (assess_pending e w execution_id before_metrics after_metrics st)
      as [->| ->]; rewrite H; [reflexivity | apply delete_empty].
Qed.

Lemma session_keeps_empty e script st :
  pending st = ∅ -> pending (run_session e script st) = ∅.
Proof.
  revert st. induction script as [|[w o] rest IH]; intros st H; simpl.
  - exact H.
  - apply IH, perform_keeps_empty, H.
Qed.

Lemma assess_not_found e w execution_id before after st :
  pending st !! execution_id = None ->
  assess_strategy_effectiveness e w execution_id before after st
  = (Return (false, 0%float, "Execution not found"), st).
Proof.
  intros H. unfold assess_strategy_effectiveness, bind, pending_get.
  rewrite H. reflexivity.
Qed.

(** C2. [get_adaptive_strategy] leaves the pending store as it found
    it; so after any session of public operations on a fresh engine, an
    execution id that a delivered output carries is not in the store,
    and assessing it answers [(False, 0.0, "Execution not found")]
    without any further effect. *)
Theorem delivered_execution_never_pending :
  (forall e w perf personality energy user_id run_id st,
      pending (get_adaptive_strategy e w perf personality energy user_id run_id st).2
      = pending st)
  /\ (forall e script w perf personality energy user_id run_id out st'
             execution_id w' before after,
         get_adaptive_strategy e w perf personality energy user_id run_id
           (run_session e script initial_state) = (Return out, st') ->
         AdaptiveStrategyOutput.execution_id out = Some execution_id ->
         assess_strategy_effectiveness e w' execution_id before after st'
         = (Return (false, 0%float, "Execution not found"), st')).
Proof.
  split.
  - intros. apply delivery_keeps_pending.
  - intros e script w perf personality energy user_id run_id out st'
           execution_id w' before after Hrun _.
    apply assess_not_found.
    pose proof (delivery_keeps_pending e w perf personality energy user_id run_id
                  (run_session e script initial_state)) as Hp.
    rewrite Hrun in Hp. simpl in Hp. rewrite Hp.
    rewrite session_keeps_empty by reflexivity.
    apply lookup_empty.
Qed.

Lemma delivered_execution_never_pending_witness :
  exists out st',
    get_adaptive_strategy configured_engine delivering_world sample_analysis
      STRATEGIST ENERGY_MEDIUM "user-1" None
      (run_session configured_engine [] initial_state) = (Return out, st')
    /\ AdaptiveStrategyOutput.execution_id out = Some "exec-1"
    /\ assess_strategy_effectiveness configured_engine delivering_world "exec-1"
         ∅ ∅ st'
       = (Return (false, 0%float, "Execution not found"), st').
Proof.
  eexists _, _. split; [reflexivity|]. split; [reflexivity|].
  refine (proj2 delivered_execution_never_pending configured_engine []
            delivering_world sample_analysis STRATEGIST ENERGY_MEDIUM
            "user-1" None _ _ "exec-1" delivering_world ∅ ∅ _ _);
    reflexivity.
Defined.

(** ** The effectiveness assessor *)

(** What reaches the caller of [record_strategy_outcome]: a boolean,
    or the [AttributeError] of the missing [supabase_key]. *)
Lemma record_outcome_result e w execution_id metrics eff score reason st :
  match (record_strategy_outcome e w execution_id metrics eff score reason st).1 with
  | Return _ => True
  | Raise ex =>
      ex = AttributeError "supabase_key"
      /\ str_truthy (supabase_url e) = true
      /\ supabase_key e = None
  end.
Proof.
  unfold record_strategy_outcome.
  destruct (str_truthy (supabase_url e)); simpl; [|exact I].
  unfold bind, getattr. destruct (supabase_key e) as [key|]; simpl; [|auto].
  destruct (negb (str_truthy key)); simpl; [exact I|].
  unfold try_except, bind, post, ret, pending_delete.
  destruct (record_strategy_outcome_rpc w _) as [|code body]; simpl; [exact I|].
  destruct (code =? 200)%Z; exact I.
Qed.

(** The outcome of an assessment is the verdict of [score_rules], unless
    the recording step cannot read [supabase_key]. *)
Lemma assess_found e w execution_id before after st execution :
  pending st !! execution_id = Some execution ->
  let v := score_rules (StrategyExecution.execution_context execution) before after in
  match (assess_strategy_effectiveness e w execution_id before after st).1 with
  | Return r => r = (v_effective v, v_score v, reason_of v)
  | Raise ex =>
      ex = AttributeError "supabase_key"
      /\ str_truthy (supabase_url e) = true
      /\ supabase_key e = None
  end.
Proof.
  intros H v. unfold assess_strategy_effectiveness, bind at 1, pending_get.
  rewrite H. unfold bind.
  match goal with
  | |- context [record_strategy_outcome ?e ?w ?i ?m ?b ?s ?r st] =>
      pose proof (record_outcome_result e w i m b s r st) as R;
      destruct (record_strategy_outcome e w i m b s r st) as [[ok|ex] st1]
  end; simpl in *; [reflexivity | exact R].
Qed.

(** The three steps of the source, each as one conditional credit. *)
Lemma assess_pace_closed context before after v :
  let pace_change := (metric after "pace" - metric before "pace")%float in
  let pace_known := (0 <? metric before "pace")%float
                    && (0 <? metric after "pace")%float in
  assess_pace context before after v
  = if pace_known && target_was_behind context && (pace_change <? -0.05)%float
    then credit v 0.3%float "Pace improved"
    else if pace_known && negb (target_was_behind context)
            && fatigue_was_high context && (abs pace_change <? 0.1)%float
    then credit v 0.2%float "Pace stabilized during recovery"
    else v.
Proof.
  unfold assess_pace, target_was_behind, fatigue_was_high. cbv zeta.
  destruct (0 <? metric before "pace")%float; cbn [andb]; [|reflexivity].
  destruct (0 <? metric after "pace")%float; cbn [andb]; [|reflexivity].
  destruct (py_in_strs (context !! "target_status") _); cbn [andb negb].
  - destruct (_ <? _)%float; reflexivity.
  - destruct (py_in_strs (context !! "fatigue") _); cbn [andb]; reflexivity.
Qed.

Lemma assess_hr_closed context before after v :
  assess_hr context before after v
  = if (0 <? metric before "hr")%float && (0 <? metric after "hr")%float
       && hr_was_rising context
       && (metric after "hr" - metric before "hr" <? 3)%float
    then credit v 0.2%float "HR stabilized" else v.
Proof.
  unfold assess_hr, hr_was_rising. cbv zeta.
  destruct (0 <? metric before "hr")%float; cbn [andb]; [|reflexivity].
  destruct (0 <? metric after "hr")%float; cbn [andb]; [|reflexivity].
  destruct (py_in_strs (context !! "hr_trend") _); cbn [andb]; reflexivity.
Qed.

Lemma assess_zone_closed context before after v :
  assess_zone context before after v
  = if zone_was_too_high context
       && (metric after "zone" <? metric before "zone")%float
    then credit v 0.2%float "Moved to lower zone" else v.
Proof.
  unfold assess_zone, zone_was_too_high. cbv zeta.
  destruct (py_truthy _); cbn [andb]; reflexivity.
Qed.

(** The conditions of the three steps, named as in [designed_verdict]. *)
Ltac name_conditions b a ctx :=
  set (pace_known := (0 <? metric b "pace")%float && (0 <? metric a "pace")%float);
  set (hr_known := (0 <? metric b "hr")%float && (0 <? metric a "hr")%float);
  set (c1 := pace_known && target_was_behind ctx && (_ <? -0.05)%float);
  set (c2 := pace_known && negb (target_was_behind ctx)
             && fatigue_was_high ctx && (_ <? 0.1)%float);
  set (c3 := hr_known && hr_was_rising ctx && (_ <? 3)%float);
  set (c4 := zone_was_too_high ctx && (_ <? _)%float);
  assert (c1 = true -> c2 = false) as Hexcl
    by (subst c1 c2; destruct pace_known, (target_was_behind ctx);
        cbn [andb negb]; auto; discriminate).

Lemma score_rules_designed ctx before after :
  v_effective (score_rules ctx before after)
  = (designed_verdict ctx before after).1
  /\ v_score (score_rules ctx before after)
     = (designed_verdict ctx before after).2.
Proof.
  unfold score_rules, designed_verdict.
  rewrite assess_zone_closed, assess_hr_closed, assess_pace_closed.
  cbv zeta. name_conditions before after ctx.
  destruct c1, c2, c3, c4; try (specialize (Hexcl eq_refl); discriminate);
    split; reflexivity.
Qed.

(** The clamp leaves every score the rules can reach within [0, 1]. *)
Lemma score_rules_bounded ctx before after :
  (0 <=? v_score (score_rules ctx before after))%float = true
  /\ (v_score (score_rules ctx before after) <=? 1)%float = true.
Proof.
  unfold score_rules.
  rewrite assess_zone_closed, assess_hr_closed, assess_pace_closed.
  cbv zeta. name_conditions before after ctx.
  destruct c1, c2, c3, c4; split; reflexivity.
Qed.

(** The snapshot that [_record_execution] stores has no
    ["zone_too_high"] key, so for an execution recorded by it the zone
    condition never contributes. *)
Lemma recorded_context_has_no_zone_flag context perf :
  execution_context_of context perf !! "zone_too_high" = None.
Proof.
  reflexivity.
Qed.

Lemma recorded_context_zone_never_credits context perf before after v :
  assess_zone (execution_context_of context perf) before after v = v.
Proof.
  rewrite assess_zone_closed. unfold zone_was_too_high.
  rewrite recorded_context_has_no_zone_flag. reflexivity.
Qed.

Example tired_behind_context_built :
  _build_situation_context tired_behind_analysis STRATEGIST ENERGY_MEDIUM
  = Return tired_behind_context.
Proof. reflexivity. Qed.

Example recorded_state_pending :
  StrategyExecution.execution_context <$> (pending recorded_state !! "exec-1")
  = Some (execution_context_of tired_behind_context tired_behind_analysis).
Proof. reflexivity. Qed.

(** The arithmetic is the source's.  For the recorded execution of the
    runner behind target, a pace that goes from 6.15 to 6.1 counts as
    improved: the computed difference is below -0.05. *)
Example pace_6_15_to_6_1 :
  (6.1 - 6.15)%float = (-0.050000000000000711)%float
  /\ (assess_strategy_effectiveness keyed_engine recording_world "exec-1"
        pace_6_15 pace_6_1 recorded_state).1
     = Return (true, 0.8%float, "Pace improved").
Proof. split; reflexivity. Qed.

(** Two bonuses of 0.2 on the base give the float below 0.9. *)
Example two_small_bonuses :
  score_rules (<["fatigue" := VStr "high"]> (<["hr_trend" := VStr "rising"]> ∅))
    steady_metrics steady_metrics
  = {| v_effective := true;
       v_score := 0.8999999999999999%float;
       v_reasons := ["Pace stabilized during recovery"; "HR stabilized"] |}.
Proof. reflexivity. Qed.

(** C1, as stated, fails.  For the execution recorded for a tired
    runner behind target, with metrics that did not move, the reference
    rule credits the fatigue condition (score 0.7, effective) while the
    assessor answers 0.5, not effective: its fatigue test is the [elif]
    of the target test. *)
Lemma assessor_reference_rule_fails :
  (assess_strategy_effectiveness keyed_engine recording_world "exec-1"
     steady_metrics steady_metrics recorded_state).1
  = Return (false, 0.5%float, "No significant improvement detected")
  /\ (let reference :=
        reference_verdict
          (execution_context_of tired_behind_context tired_behind_analysis)
          steady_metrics steady_metrics in
      reference.1 = true /\ reference.2 = 0.7%float)
  /\ ~ assessor_follows_reference_rule.
Proof.
  split; [reflexivity|]. split; [split; reflexivity|].
  intros H.
  pose proof (fun x Hx => H keyed_engine recording_world recorded_state "exec-1" x
                            steady_metrics steady_metrics Hx) as H'.
  destruct (pending recorded_state !! "exec-1") as [x|] eqn:E; [|discriminate E].
  specialize (H' x eq_refl).
  vm_compute in E. inversion E; subst x. clear E.
  vm_compute in H'. destruct H' as [H' _]. discriminate H'.
Qed.

(** C1, amended.  For an execution id in the pending store, the
    assessor's verdict is the designed rule on the stored context, in
    the source's binary64 arithmetic: 0.5, plus 0.3 when both paces are
    positive, the target was behind and the computed difference
    [pace_after - pace_before] is below -0.05; plus 0.2 when both paces
    are positive, the target was not behind, fatigue was high or severe
    and the absolute value of that difference is below 0.1; plus 0.2
    when both heart rates are positive, the trend was rising or spiking
    and the computed heart-rate difference is below 3; plus 0.2 when
    the context holds a true [zone_too_high] and the zone went down;
    the bonuses added in this order, the sum clamped to [0, 1].
    [was_effective] holds exactly when a condition contributed.  The
    call returns unless its recording step cannot read
    [supabase_key]. *)
Theorem assessor_designed_rule :
  forall e w st execution_id execution before_metrics after_metrics,
    pending st !! execution_id = Some execution ->
    match (assess_strategy_effectiveness e w execution_id
             before_metrics after_metrics st).1 with
    | Return (was_effective, score, _) =>
        let designed :=
          designed_verdict (StrategyExecution.execution_context execution)
            before_metrics after_metrics in
        was_effective = designed.1 /\ score = designed.2
    | Raise ex =>
        ex = AttributeError "supabase_key"
        /\ str_truthy (supabase_url e) = true
        /\ supabase_key e = None
    end.
Proof.
  intros e w st execution_id execution before after H.
  pose proof (assess_found e w execution_id before after st execution H) as A.
  cbv zeta in A.
  destruct (assess_strategy_effectiveness e w execution_id before after st).1
    as [[[eff score] reason]|ex]; [|exact A].
  inversion A; subst. apply score_rules_designed.
Qed.

Lemma assessor_designed_rule_witness :
  exists execution,
    pending recorded_state !! "exec-1" = Some execution
    /\ match (assess_strategy_effectiveness keyed_engine recording_world "exec-1"
                pace_6_15 pace_6_1 recorded_state).1 with
       | Return (was_effective, score, _) =>
           was_effective = true /\ score = 0.8%float
       | Raise _ => False
       end.
Proof.
  eexists. split; [reflexivity|].
  pose proof (assessor_designed_rule keyed_engine recording_world recorded_state
                "exec-1" _ pace_6_15 pace_6_1 eq_refl) as H.
  vm_compute in H. vm_compute. exact H.
Defined.

(** C10. Whatever the execution id and the metrics, a score that
    [assess_strategy_effectiveness] returns lies in [0, 1]; and it
    returns one unless the execution is pending and the recording step
    cannot read [supabase_key]. *)
Theorem assessor_score_bounded :
  forall e w st execution_id before_metrics after_metrics,
    match (assess_strategy_effectiveness e w execution_id
             before_metrics after_metrics st).1 with
    | Return (_, score, _) =>
        (0 <=? score)%float = true /\ (score <=? 1)%float = true
    | Raise ex =>
        ex = AttributeError "supabase_key"
        /\ is_Some (pending st !! execution_id)
        /\ str_truthy (supabase_url e) = true
        /\ supabase_key e = None
    end.
Proof.
  intros e w st execution_id before after.
  destruct (pending st !! execution_id) as [execution|] eqn:H.
  - pose proof (assess_found e w execution_id before after st execution H) as A.
    cbv zeta in A.
    destruct (assess_strategy_effectiveness e w execution_id before after st).1
      as [[[eff score] reason]|ex].
    + inversion A; subst. apply score_rules_bounded.
    + destruct A as (? & ? & ?). eauto.
  - rewrite assess_not_found by exact H. simpl. split; reflexivity.
Qed.

(** ** The descending stable sort *)

Section PySortFacts.
Context {A : Type} (lt : A -> A -> bool).

Lemma insert_desc_perm x l : insert_desc lt x l ≡ₚ x :: l.
Proof.
  induction l as [|y l IH]; simpl; [reflexivity|].
  destruct (lt x y); [|reflexivity].
  rewrite IH. apply perm_swap.
Qed.

Lemma sorted_desc_perm l : sorted_desc lt l ≡ₚ l.
Proof.
  induction l as [|x l IH]; simpl; [reflexivity|].
  rewrite insert_desc_perm. rewrite IH. reflexivity.
Qed.

Lemma sorted_desc_length l : length (sorted_desc lt l) = length l.
Proof. apply Permutation_length, sorted_desc_perm. Qed.

Lemma sorted_desc_elem x l : x ∈ sorted_desc lt l <-> x ∈ l.
Proof. rewrite sorted_desc_perm. reflexivity. Qed.

Hypothesis lt_asym : forall a b, lt a b = true -> lt b a = false.

Lemma insert_desc_sorted x l :
  Sorted (not_below lt) l -> Sorted (not_below lt) (insert_desc lt x l).
Proof.
  induction l as [|y l IH]; intros Hs; simpl.
  - repeat constructor.
  - destruct (lt x y) eqn:E.
    + apply Sorted_inv in Hs as [Hs Hhd]. constructor; [apply IH, Hs|].
      destruct l as [|z l]; simpl.
      * constructor. apply lt_asym, E.
      * destruct (lt x z); constructor.
        -- apply HdRel_inv in Hhd. exact Hhd.
        -- apply lt_asym, E.
    + constructor; [exact Hs|]. constructor. exact E.
Qed.

Lemma sorted_desc_sorted l : Sorted (not_below lt) (sorted_desc lt l).
Proof.
  induction l as [|x l IH]; simpl; [constructor|].
  apply insert_desc_sorted, IH.
Qed.
End PySortFacts.

(** Rows of equal key keep the order of the input. *)
Example sorted_desc_stable :
  sorted_desc (fun x y : Z * string => (x.1 <? y.1)%Z)
    [(1%Z, "first"); (2%Z, "top"); (1%Z, "second")]
  = [(2%Z, "top"); (1%Z, "first"); (1%Z, "second")].
Proof. reflexivity. Qed.

Lemma lex2_lt_asym a b : lex2_lt a b = true -> lex2_lt b a = false.
Proof.
  unfold lex2_lt. intros H.
  apply orb_true_iff in H. apply orb_false_iff.
  destruct H as [H|H].
  - apply Qltb_lt in H. split.
    + apply Qltb_ge. lra.
    + apply andb_false_iff. left.
      destruct (Qeq_bool b.1 a.1) eqn:E; [|reflexivity].
      apply Qeq_bool_iff in E. lra.
  - apply andb_true_iff in H as [H1 H2].
    apply Qeq_bool_iff in H1. apply Z.ltb_lt in H2. split.
    + apply Qltb_ge. lra.
    + apply andb_false_iff. right. apply Z.ltb_ge. lia.
Qed.

Lemma lex3_lt_asym a b : lex3_lt a b = true -> lex3_lt b a = false.
Proof.
  unfold lex3_lt. intros H.
  apply orb_true_iff in H. apply orb_false_iff.
  destruct H as [H|H].
  - apply Qltb_lt in H. split.
    + apply Qltb_ge. lra.
    + apply andb_false_iff. left.
      destruct (Qeq_bool b.1 a.1) eqn:E; [|reflexivity].
      apply Qeq_bool_iff in E. lra.
  - apply andb_true_iff in H as [H1 H2].
    apply Qeq_bool_iff in H1. split.
    + apply Qltb_ge. lra.
    + apply andb_false_iff. right. apply lex2_lt_asym, H2.
Qed.

(** ** The condition reranker *)


Lemma elem_of_take_elem {A} (x : A) n l : x ∈ take n l -> x ∈ l.
Proof.
  intros H. apply elem_of_take in H as (i & H & _).
  eapply list_elem_of_lookup_2, H.
Qed.

Lemma fallback_rank_elem s kb : s ∈ fallback_rank kb -> s ∈ kb.
Proof.
  unfold fallback_rank. intros H.
  apply elem_of_take_elem in H. apply sorted_desc_elem in H. exact H.
Qed.

Lemma fallback_rank_length kb : length (fallback_rank kb) <= 8.
Proof.
  unfold fallback_rank. rewrite length_take. lia.
Qed.

(** Every entry of the lookup comes from the accumulator or is an entry
    of the answer that carries [match = true] and this id. *)
Lemma build_match_lookup_from matches :
  forall acc match_lookup,
    build_match_lookup matches acc = Return match_lookup ->
    forall i m,
      match_lookup !! i = Some m ->
      acc !! i = Some m
      \/ (m ∈ matches /\ m_id m = Some i /\ m_match m = Some true).
Proof.
  induction matches as [|m0 rest IH]; intros acc match_lookup H i m Hi; simpl in H.
  - inversion H; subst. left. exact Hi.
  - destruct (m_match m0) as [[|]|] eqn:Em; simpl in H.
    + destruct (m_id m0) as [i0|] eqn:Ei; [|discriminate H].
      destruct (IH _ _ H i m Hi) as [Hacc|(Hin & Hid & Hm)].
      * destruct (decide (i0 = i)) as [->|Hne].
        -- rewrite lookup_insert_eq in Hacc. inversion Hacc; subst m.
           right. split; [left|]. split; assumption.
        -- rewrite lookup_insert_ne in Hacc by exact Hne. left. exact Hacc.
      * right. split; [right; exact Hin|]. split; assumption.
    + destruct (IH _ _ H i m Hi) as [Hacc|(Hin & Hid & Hm)]; [left; exact Hacc|].
      right. split; [right; exact Hin|]. split; assumption.
    + destruct (IH _ _ H i m Hi) as [Hacc|(Hin & Hid & Hm)]; [left; exact Hacc|].
      right. split; [right; exact Hin|]. split; assumption.
Qed.


(** A row of the success path is a candidate, annotated, whose id the
    answer lists with [match = true]. *)
Lemma rank_matches_elem matches kb ranked s :
  rank_matches matches kb = Return ranked ->
  s ∈ ranked ->
  exists s0 m,
    s0 ∈ kb
    /\ KBStrategy.id s = KBStrategy.id s0
    /\ m ∈ matches /\ m_id m = Some (KBStrategy.id s0) /\ m_match m = Some true
    /\ s = KBStrategy.annotate s0 (default 0.7%Q (m_match_score m))
             (default EmptyString (m_reason m)).
Proof.
  unfold rank_matches. intros H Hs.
  destruct (build_match_lookup matches ∅) as [match_lookup|] eqn:E;
    simpl in H; [|discriminate H].
  inversion H; subst ranked. clear H.
  apply elem_of_take_elem in Hs. apply sorted_desc_elem in Hs.
  unfold apply_matches in Hs. apply list_elem_of_omap in Hs as (s0 & Hs0 & Hf).
  destruct (match_lookup !! KBStrategy.id s0) as [m|] eqn:El; [|discriminate Hf].
  inversion Hf; subst s. clear Hf.
  destruct (build_match_lookup_from _ _ _ E _ _ El) as [Hacc|(Hin & Hid & Hm)].
  - rewrite lookup_empty in Hacc. discriminate Hacc.
  - exists s0, m. repeat split; assumption.
Qed.

Lemma rank_matches_length matches kb ranked :
  rank_matches matches kb = Return ranked -> length ranked <= 8.
Proof.
  unfold rank_matches. intros H.
  destruct (build_match_lookup matches ∅); simpl in H; [|discriminate H].
  inversion H; subst. rewrite length_take. lia.
Qed.

Lemma rank_matches_sorted matches kb ranked :
  rank_matches matches kb = Return ranked ->
  exists l, Sorted (not_below by_match) l /\ ranked = take 8 l.
Proof.
  unfold rank_matches. intros H.
  destruct (build_match_lookup matches ∅) as [match_lookup|]; simpl in H;
    [|discriminate H].
  inversion H; subst. eexists. split; [|reflexivity].
  apply sorted_desc_sorted. intros a b. apply lex3_lt_asym.
Qed.

Lemma reranker_closed_form e w kb description perf st key :
  openai_key e = Some key ->
  (_llm_match_conditions e w kb description perf st).1
  = Return (rerank_closed key (chat_completions w (chat_call key description kb)) kb).
Proof.
  intros Hk. unfold _llm_match_conditions, rerank_closed, chat_call.
  rewrite Hk. unfold bind at 1, getattr, ret at 1.
  destruct (negb (str_truthy key) || is_nil kb); [reflexivity|].
  unfold try_except, bind, post, decode, lift, ret, raise.
  destruct (chat_completions w _) as [|code body]; [reflexivity|]. simpl.
  destruct (code =? 200)%Z.
  - destruct body as [[|ms|[ms|]|]|]; simpl; try reflexivity;
      destruct (rank_matches _ kb) as [ranked|[]]; reflexivity.
  - destruct body as [[|ms|[ms|]|]|]; reflexivity.
Qed.

Lemma reranker_without_attribute e w kb description perf st :
  openai_key e = None ->
  _llm_match_conditions e w kb description perf st
  = (Raise (AttributeError "openai_key"), st).
Proof.
  intros Hk. unfold _llm_match_conditions. rewrite Hk. reflexivity.
Qed.

(** An unconfigured collaborator is not called. *)
Lemma reranker_unconfigured_no_call e w kb description perf st :
  openai_key e = Some EmptyString ->
  _llm_match_conditions e w kb description perf st
  = (Return (fallback_rank kb), st).
Proof.
  intros Hk. unfold _llm_match_conditions. rewrite Hk. reflexivity.
Qed.

(** A bare array never reaches the match filter: [parsed.get] raises on
    a list, and the fallback ranking is returned. *)
Lemma bare_array_falls_back e w kb description perf st key code ms :
  openai_key e = Some key ->
  chat_completions w (chat_call key description kb)
  = Response code (Some (JsonArray ms)) ->
  (_llm_match_conditions e w kb description perf st).1
  = Return (fallback_rank kb).
Proof.
  intros Hk Ha.
  rewrite (reranker_closed_form e w kb description perf st key Hk), Ha.
  unfold rerank_closed. destruct (negb _ || _); reflexivity.
Qed.


Lemma rerank_closed_cases key answer kb :
  rerank_closed key answer kb = fallback_rank kb
  \/ exists matches, rank_matches matches kb = Return (rerank_closed key answer kb).
Proof.
  unfold rerank_closed.
  destruct (negb _ || _); [left; reflexivity|].
  destruct answer as [|code [[|ms|ms|]|]]; try (left; reflexivity).
  destruct (code =? 200)%Z; [|left; reflexivity].
  destruct (rank_matches (default [] ms) kb) as [ranked|ex] eqn:E;
    [right; eauto | left; reflexivity].
Qed.



(** C6. The matcher's answer as a bare JSON array is not treated as a
    successful parse: row a is marked as the only match, yet the result
    is the fallback ranking, with the unmatched row b first; the same
    answer wrapped in an object keeps row a alone, annotated. *)
Theorem bare_array_answer_discarded :
  (_llm_match_conditions keyed_engine bare_array_world [candidate_a; candidate_b]
     "tired, behind target" sample_analysis initial_state).1
  = Return [candidate_b; candidate_a]
  /\ (_llm_match_conditions keyed_engine wrapped_world [candidate_a; candidate_b]
        "tired, behind target" sample_analysis initial_state).1
     = Return [KBStrategy.annotate candidate_a 0.9%Q "fits"].
Proof.
  split; reflexivity.
Qed.

(** ** Outbound calls only accumulate *)

Local Open Scope list_scope.

Section Sends.
Context (P : call -> Prop).

Lemma sends_ret {A} (a : A) : sends P (ret a).
Proof. intros st. exists []. simpl. rewrite app_nil_r. auto. Qed.

Lemma sends_raise {A} ex : sends P (@raise A ex).
Proof. intros st. exists []. simpl. rewrite app_nil_r. auto. Qed.

Lemma sends_lift {A} (r : res A) : sends P (lift r).
Proof. intros st. exists []. simpl. rewrite app_nil_r. auto. Qed.

Lemma sends_getattr name slot : sends P (getattr name slot).
Proof. destruct slot; [apply sends_ret | apply sends_raise]. Qed.

Lemma sends_decode {A} (body : option A) : sends P (decode body).
Proof. destruct body; [apply sends_ret | apply sends_raise]. Qed.

Lemma sends_post {A} c (oracle : call -> reply A) : P c -> sends P (post c oracle).
Proof.
  intros Hc st. exists [c]. unfold post.
  destruct (oracle c); simpl; auto.
Qed.

Lemma sends_bind {A B} (c : M A) (k : A -> M B) :
  sends P c -> (forall a, sends P (k a)) -> sends P (bind c k).
Proof.
  intros Hc Hk st. unfold bind.
  destruct (Hc st) as (new1 & E1 & F1).
  destruct (c st) as [[a|ex] st1]; simpl in *.
  - destruct (Hk a st1) as (new2 & E2 & F2).
    exists (new1 ++ new2). rewrite E2, E1, app_assoc. split; [reflexivity|].
    apply Forall_app; auto.
  - eauto.
Qed.

Lemma sends_try {A} (c : M A) (h : exn -> M A) :
  sends P c -> (forall ex, sends P (h ex)) -> sends P (try_except c h).
Proof.
  intros Hc Hh st. unfold try_except.
  destruct (Hc st) as (new1 & E1 & F1).
  destruct (c st) as [[a|ex] st1]; simpl in *.
  - eauto.
  - destruct (Hh ex st1) as (new2 & E2 & F2).
    exists (new1 ++ new2). rewrite E2, E1, app_assoc. split; [reflexivity|].
    apply Forall_app; auto.
Qed.

Lemma sends_weaken {A} (Q : call -> Prop) (c : M A) :
  sends Q c -> (forall x, Q x -> P x) -> sends P c.
Proof.
  intros Hc Himp st. destruct (Hc st) as (new & E & F).
  exists new. split; [exact E|]. eapply Forall_impl; eauto.
Qed.

Lemma sends_if {A} (b : bool) (c1 c2 : M A) :
  sends P c1 -> sends P c2 -> sends P (if b then c1 else c2).
Proof. destruct b; auto. Qed.
End Sends.

Lemma starts_with_post {A B} c0 (oracle : call -> reply A) (k : Z * option A -> M B) :
  (forall r, sends (fun _ => True) (k r)) ->
  starts_with c0 (bind (post c0 oracle) k).
Proof.
  intros Hk st. unfold bind, post.
  destruct (oracle c0) as [|code body].
  - exists []. reflexivity.
  - destruct (Hk (code, body)
                {| pending := pending st; calls := calls st ++ [c0] |})
      as (new & E & _).
    exists new. rewrite E. simpl. rewrite <- app_assoc. reflexivity.
Qed.

Lemma starts_with_bind {A B} c0 (m : M A) (k : A -> M B) :
  starts_with c0 m ->
  (forall a, sends (fun _ => True) (k a)) ->
  starts_with c0 (bind m k).
Proof.
  intros Hm Hk st. unfold bind.
  destruct (Hm st) as (rest & E).
  destruct (m st) as [[a|ex] st1]; simpl in *.
  - destruct (Hk a st1) as (new & E2 & _).
    exists (rest ++ new). rewrite E2, E, <- app_assoc. reflexivity.
  - eauto.
Qed.

Lemma starts_with_try {A} c0 (m : M A) (h : exn -> M A) :
  starts_with c0 m ->
  (forall ex, sends (fun _ => True) (h ex)) ->
  starts_with c0 (try_except m h).
Proof.
  intros Hm Hh st. unfold try_except.
  destruct (Hm st) as (rest & E).
  destruct (m st) as [[a|ex] st1]; simpl in *.
  - eauto.
  - destruct (Hh ex st1) as (new & E2 & _).
    exists (rest ++ new). rewrite E2, E, <- app_assoc. reflexivity.
Qed.

Ltac sends_step :=
  first
    [ apply sends_ret | apply sends_raise | apply sends_lift
    | apply sends_getattr | apply sends_decode
    | apply sends_post
    | apply sends_if
    | apply sends_bind; [|intros ?]
    | apply sends_try; [|intros ?] ].

Lemma query_kb_sends e w dc rl limit :
  sends not_semantic (_query_kb_fallback e w dc rl limit).
Proof.
  unfold _query_kb_fallback. repeat sends_step. reflexivity.
Qed.

Lemma reranker_sends e w kb description perf :
  sends not_semantic (_llm_match_conditions e w kb description perf).
Proof.
  unfold _llm_match_conditions. repeat sends_step.
  - reflexivity.
  - destruct ex; sends_step.
Qed.

(** ** Strategy retrieval *)

Section RetrievalFacts.
Variable describe : SituationContext.t -> PerformanceAnalysis.t -> string.

Lemma retrieve_body_sends_no_vector_search
    e w key context perf dc rl description :
  sends not_semantic
    (retrieve_with_embedding e w key context perf dc rl description None).
Proof.
  unfold retrieve_with_embedding. simpl.
  apply sends_try; [|intros ?; apply sends_ret].
  apply sends_bind; [apply query_kb_sends|]. intros kb.
  apply sends_if; [apply sends_ret|].
  apply sends_bind; [apply reranker_sends|]. intros ?. apply sends_ret.
Qed.

(** As written, retrieval never sends a vector search: the embedding
    step yields nothing. *)
Lemma retrieve_sends_no_vector_search e w context user_id perf :
  sends not_semantic (_retrieve_strategies describe e w context user_id perf).
Proof.
  unfold _retrieve_strategies.
  apply sends_if; [apply sends_ret|].
  apply sends_bind; [apply sends_getattr|]. intros key.
  apply sends_if; [apply sends_ret|].
  intros st.
  exact (retrieve_body_sends_no_vector_search e w key context perf _ _ _ st).
Qed.

(** None of the cache fields is read. *)
Lemma retrieve_ignores_cache e cache ttl timestamps w context user_id perf st :
  _retrieve_strategies describe (with_cache e cache ttl timestamps)
    w context user_id perf st
  = _retrieve_strategies describe e w context user_id perf st.
Proof. reflexivity. Qed.

(** With an embedding at hand, the first call of the retrieval body is
    the vector search, with floor 0.65 and 15 results, scoped to the
    distance category and the runner level, the type left open. *)
Lemma retrieve_vector_search_first
    e w key context perf dc rl description embedding st :
  embedding_available embedding = true ->
  exists rest,
    calls (retrieve_with_embedding e w key context perf dc rl description
             embedding st).2
    = calls st
      ++ SemanticSearchCall
           (supabase_url e +:+ "/rest/v1/rpc/semantic_search_strategies_kb")
           key (default [] embedding) dc rl None 0.65 15
      :: rest.
Proof.
  intros Hemb. unfold retrieve_with_embedding. rewrite Hemb.
  revert st. apply starts_with_try; [|intros ?; apply sends_ret].
  apply starts_with_bind.
  - apply starts_with_post. intros response.
    apply sends_if.
    + apply sends_bind; [apply sends_decode|]. intros kb.
      apply sends_if; [|apply sends_ret].
      eapply sends_weaken; [apply query_kb_sends | auto].
    + eapply sends_weaken; [apply query_kb_sends | auto].
  - intros kb. apply sends_if; [apply sends_ret|].
    apply sends_bind; [eapply sends_weaken; [apply reranker_sends | auto]|].
    intros ?. apply sends_ret.
Qed.
End RetrievalFacts.

Lemma fallback_strategies_nonempty context : _get_fallback_strategies context <> [].
Proof.
  unfold _get_fallback_strategies.
  destruct (_ ++ _); discriminate.
Qed.

Lemma retrieve_unconfigured describe e w context user_id perf st :
  str_truthy (supabase_url e) = false ->
  _retrieve_strategies describe e w context user_id perf st
  = (Return (_get_fallback_strategies context), st).
Proof.
  intros H. unfold _retrieve_strategies. rewrite H. reflexivity.
Qed.

(** ** The memory fetcher *)

(** C4. On every engine that [__init__] builds, the memory fetcher
    raises [AttributeError] before anything else: the constructor never
    assigns [mem0_api_key], which the guard of the fetcher reads. *)
Theorem memory_fetch_raises_on_constructed_engine :
  forall env url anon_key w user_id context st,
    _fetch_mem0_coaching_memories (__init__ env url anon_key) w user_id context st
    = (Raise (AttributeError "mem0_api_key"), st).
Proof.
  intros. reflexivity.
Qed.

(** Had the attribute been assigned an empty key, the fetcher would
    return the empty list without a call. *)
Lemma memory_fetch_empty_key e w user_id context st :
  mem0_api_key e = Some EmptyString ->
  _fetch_mem0_coaching_memories e w user_id context st = (Return [], st).
Proof.
  intros H. unfold _fetch_mem0_coaching_memories. rewrite H. reflexivity.
Qed.

Lemma fetch_queries_all_fail e w key user_id queries st :
  (forall c, match mem0_search w c with
             | Response 200 (Some _) => False
             | _ => True
             end) ->
  (fetch_queries e w key user_id queries [] st).1 = Return [].
Proof.
  intros Hfail. revert st. induction queries as [|q rest IH]; intros st; simpl.
  - reflexivity.
  - unfold fetch_query, bind, getattr.
    destruct (mem0_base_url e) as [base|]; simpl; [|reflexivity].
    unfold post.
    match goal with |- context [mem0_search w ?c] => specialize (Hfail c);
      destruct (mem0_search w c) as [|code body] end; simpl; [reflexivity|].
    destruct (Z.eqb_spec code 200) as [->|Hne].
    + destruct body; [contradiction|]. simpl. reflexivity.
    + simpl. apply IH.
Qed.

(** With a key assigned, a collaborator whose every call fails leaves
    the fetcher with the empty list, and no exception. *)
Lemma memory_fetch_all_fail e w key user_id context st :
  mem0_api_key e = Some key ->
  (forall c, match mem0_search w c with
             | Response 200 (Some _) => False
             | _ => True
             end) ->
  (_fetch_mem0_coaching_memories e w user_id context st).1 = Return [].
Proof.
  intros Hk Hfail. unfold _fetch_mem0_coaching_memories. rewrite Hk.
  unfold bind at 1, getattr, ret at 1.
  destruct (negb (str_truthy key)); [reflexivity|].
  unfold bind.
  match goal with
  | |- context [fetch_queries e w key user_id ?qs [] st] =>
      pose proof (fetch_queries_all_fail e w key user_id qs st Hfail) as F;
      destruct (fetch_queries e w key user_id qs [] st) as [[ms|ex] st1]
  end; simpl in *; [|discriminate F].
  inversion F; subst. reflexivity.
Qed.

(** A failure after a successful query keeps what was fetched. *)
Example memory_fetch_partial_failure :
  Mem0CoachingMemory.memory_text
    <$> default []
          match (_fetch_mem0_coaching_memories keyed_engine fading_memory_world
                   "user-1" tired_behind_context initial_state).1 with
          | Return memories => Some memories
          | Raise _ => None
          end
  = ["Short cues worked well"].
Proof. reflexivity. Qed.

(** * Further properties of the engine *)

(** ** Runner level *)

Lemma advanced_test_spec perf :
  advanced_test perf = true
  <-> PerformanceAnalysis.pace_trend perf = PACE_STABLE
      /\ PerformanceAnalysis.hr_trend perf = HR_STABLE
      /\ (Qabs (PerformanceAnalysis.pace_deviation perf) < 3)%Q.
Proof.
  unfold advanced_test.
  rewrite !andb_true_iff, !bool_decide_eq_true, Qltb_lt. tauto.
Qed.

Lemma beginner_test_spec perf :
  beginner_test perf = true
  <-> PerformanceAnalysis.pace_trend perf = PACE_ERRATIC
      \/ PerformanceAnalysis.hr_trend perf = HR_SPIKING
      \/ (15 < Qabs (PerformanceAnalysis.pace_deviation perf))%Q.
Proof.
  unfold beginner_test.
  rewrite !orb_true_iff, !bool_decide_eq_true, Qltb_lt. tauto.
Qed.

Lemma advanced_excludes_beginner perf :
  advanced_test perf = true -> beginner_test perf = false.
Proof.
  intros Ha. destruct (beginner_test perf) eqn:Hb; [|reflexivity].
  apply advanced_test_spec in Ha as (Hp & Hh & Hd).
  apply beginner_test_spec in Hb as [Hb|[Hb|Hb]].
  - rewrite Hp in Hb. discriminate.
  - rewrite Hh in Hb. discriminate.
  - lra.
Qed.

(** [_get_runner_level] has three values; the conditions of "advanced"
    and of "beginner" exclude each other, so each level is decided by
    its own condition whatever the order of the two tests. *)
Theorem runner_level_classes (perf : PerformanceAnalysis.t) :
  let advanced :=
    PerformanceAnalysis.pace_trend perf = PACE_STABLE
    /\ PerformanceAnalysis.hr_trend perf = HR_STABLE
    /\ (Qabs (PerformanceAnalysis.pace_deviation perf) < 3)%Q in
  let beginner :=
    PerformanceAnalysis.pace_trend perf = PACE_ERRATIC
    \/ PerformanceAnalysis.hr_trend perf = HR_SPIKING
    \/ (15 < Qabs (PerformanceAnalysis.pace_deviation perf))%Q in
  (_get_runner_level perf = "advanced" <-> advanced)
  /\ (_get_runner_level perf = "beginner" <-> beginner)
  /\ (_get_runner_level perf = "intermediate" <-> ~ advanced /\ ~ beginner)
  /\ ~ (advanced /\ beginner).
Proof.
  cbv zeta.
  rewrite <- advanced_test_spec, <- beginner_test_spec.
  pose proof (advanced_excludes_beginner perf) as Hex.
  change (_get_runner_level perf)
    with (if advanced_test perf then "advanced"
          else if beginner_test perf then "beginner" else "intermediate").
  destruct (advanced_test perf), (beginner_test perf);
    try (specialize (Hex eq_refl); discriminate Hex);
    repeat split; try discriminate; try reflexivity; intros;
    try tauto; try congruence;
    repeat match goal with H : _ /\ _ |- _ => destruct H end;
    try discriminate; try congruence;
    try (intros [? ?]; discriminate).
Qed.

(** ** Flags and tags of a situation context *)

Lemma push_possible_true perf :
  push_possible_of perf = Return true ->
  py_in (PerformanceAnalysis.fatigue_level perf) [FATIGUE_NONE; FATIGUE_LOW] = true
  /\ PerformanceAnalysis.hr_trend perf = HR_STABLE.
Proof.
  unfold push_possible_of.
  destruct (py_in _ _); [|discriminate].
  case_bool_decide; [|discriminate]. auto.
Qed.

Lemma build_context_shape perf personality energy context :
  _build_situation_context perf personality energy = Return context ->
  exists push,
    push_possible_of perf = Return push
    /\ context
       = SituationContext.with_tags
           (SituationContext.mk
              (PerformanceAnalysis.pace_trend perf) (PerformanceAnalysis.hr_trend perf)
              (PerformanceAnalysis.fatigue_level perf)
              (PerformanceAnalysis.target_status perf)
              (cardiac_drift_of perf) (zone_too_high_of perf) (injury_risk_of perf)
              (form_breakdown_of perf) push (recovery_needed_of perf)
              personality energy []).
Proof.
  unfold _build_situation_context.
  destruct (push_possible_of perf) as [push|]; simpl; [|discriminate].
  intros [= <-]. eauto.
Qed.

(** The flags of a built context constrain each other: cardiac drift
    entails that recovery is needed and excludes both a possible push
    and a form breakdown; a too-high zone share entails that recovery is
    needed; a possible push needs a stable heart-rate trend and fatigue
    none or low.  A possible push and a needed recovery do meet, exactly
    when the push is possible and the zone share is too high.  The tag
    list of the context is the one [build_tags] derives from it. *)
Theorem built_context_flags :
  forall perf personality energy context,
    _build_situation_context perf personality energy = Return context ->
    (SituationContext.cardiac_drift context = true ->
       SituationContext.recovery_needed context = true
       /\ SituationContext.push_possible context = false
       /\ SituationContext.form_breakdown context = false)
    /\ (SituationContext.zone_too_high context = true ->
          SituationContext.recovery_needed context = true)
    /\ (SituationContext.push_possible context = true ->
          SituationContext.hr_trend context = HR_STABLE
          /\ (SituationContext.fatigue_level context = FATIGUE_NONE
              \/ SituationContext.fatigue_level context = FATIGUE_LOW))
    /\ (SituationContext.push_possible context = true
        /\ SituationContext.recovery_needed context = true
        <-> SituationContext.push_possible context = true
            /\ SituationContext.zone_too_high context = true)
    /\ SituationContext.situation_tags context = SituationContext.build_tags context.
Proof.
  intros perf personality energy context H.
  apply build_context_shape in H as (push & Hpush & ->). simpl.
  assert (push = true ->
          py_in (PerformanceAnalysis.fatigue_level perf) [FATIGUE_NONE; FATIGUE_LOW] = true
          /\ PerformanceAnalysis.hr_trend perf = HR_STABLE) as Hp.
  { intros ->. apply push_possible_true, Hpush. }
  unfold recovery_needed_of, cardiac_drift_of, form_breakdown_of.
  split; [|split; [|split; [|split]]].
  - intros Hcd. apply andb_true_iff in Hcd as [Hpt Hhr].
    rewrite Hpt, Hhr, orb_true_r. split; [reflexivity|].
    assert (PerformanceAnalysis.hr_trend perf <> HR_STABLE) as Hns.
    { intros Hst. rewrite Hst in Hhr. discriminate Hhr. }
    split.
    + destruct push; [|reflexivity]. destruct (Hp eq_refl) as [_ Hst].
      contradiction.
    + simpl. apply bool_decide_eq_false. exact Hns.
  - intros ->. rewrite orb_true_r. reflexivity.
  - intros ->. destruct (Hp eq_refl) as [Hf Hst]. split; [exact Hst|].
    destruct (PerformanceAnalysis.fatigue_level perf); try discriminate Hf; auto.
  - split.
    + intros [-> Hr]. split; [reflexivity|].
      destruct (Hp eq_refl) as [Hf Hst]. rewrite Hst in Hr.
      destruct (PerformanceAnalysis.fatigue_level perf); try discriminate Hf;
        simpl in Hr; rewrite andb_false_r, orb_false_r in Hr; exact Hr.
    + intros [-> ->]. rewrite orb_true_r. auto.
  - reflexivity.
Qed.

Lemma built_context_flags_witness :
  exists context,
    _build_situation_context high_zone_analysis PACER ENERGY_HIGH = Return context
    /\ (SituationContext.push_possible context = true
        /\ SituationContext.recovery_needed context = true
        <-> SituationContext.push_possible context = true
            /\ SituationContext.zone_too_high context = true)
    /\ SituationContext.push_possible context = true
    /\ SituationContext.recovery_needed context = true.
Proof.
  eexists. split; [reflexivity|].
  split; [|split; reflexivity].
  refine (proj1 (proj2 (proj2 (proj2
            (built_context_flags high_zone_analysis PACER ENERGY_HIGH _ _))))).
  reflexivity.
Defined.

Lemma build_tags_split c :
  SituationContext.build_tags c = (enum_tags c ++ flag_tags c)%list.
Proof.
  unfold SituationContext.build_tags, enum_tags, flag_tags.
  rewrite <- !app_assoc. reflexivity.
Qed.

Lemma enum_tags_facts c :
  NoDup (enum_tags c)
  /\ 1 <= length (enum_tags c) <= 4
  /\ Forall (fun t => t ∈ enum_tag_names) (enum_tags c)
  /\ bool_decide (SituationContext.pace_trend c = PACE_DECLINING)
     = bool_decide ("pace_decline" ∈ enum_tags c)
  /\ bool_decide (SituationContext.hr_trend c = HR_SPIKING)
     = bool_decide ("hr_spiking" ∈ enum_tags c)
  /\ py_in (SituationContext.fatigue_level c) [FATIGUE_HIGH; FATIGUE_SEVERE]
     = bool_decide ("fatigue_high" ∈ enum_tags c)
  /\ py_in (SituationContext.target_status c) [SLIGHTLY_BEHIND; WAY_BEHIND]
     = bool_decide ("target_behind" ∈ enum_tags c).
Proof.
  destruct c as [pt ht fl ts cd zh ir fb pp rn p e tags0].
  unfold enum_tags. cbn [SituationContext.pace_trend SituationContext.hr_trend
    SituationContext.fatigue_level SituationContext.target_status].
  destruct pt, ht, fl, ts;
    (split; [compute_done|]);
    (split; [simpl; lia|]);
    (split; [compute_done|]);
    vm_compute; repeat split.
Qed.

Lemma flag_tags_facts c :
  NoDup (flag_tags c)
  /\ length (flag_tags c) <= 6
  /\ Forall (fun t => t ∈ flag_tag_names) (flag_tags c)
  /\ SituationContext.cardiac_drift c = bool_decide ("cardiac_drift" ∈ flag_tags c)
  /\ SituationContext.zone_too_high c = bool_decide ("zone_too_high" ∈ flag_tags c)
  /\ SituationContext.injury_risk c = bool_decide ("injury_risk" ∈ flag_tags c)
  /\ SituationContext.form_breakdown c = bool_decide ("form_breakdown" ∈ flag_tags c)
  /\ SituationContext.push_possible c = bool_decide ("push_possible" ∈ flag_tags c)
  /\ SituationContext.recovery_needed c
     = bool_decide ("recovery_needed" ∈ flag_tags c).
Proof.
  destruct c as [pt ht fl ts cd zh ir fb pp rn p e tags0].
  unfold flag_tags. cbn [SituationContext.cardiac_drift SituationContext.zone_too_high
    SituationContext.injury_risk SituationContext.form_breakdown
    SituationContext.push_possible SituationContext.recovery_needed].
  destruct cd, zh, ir, fb, pp, rn;
    (split; [compute_done|]);
    (split; [simpl; lia|]);
    (split; [compute_done|]);
    vm_compute; repeat split.
Qed.

Lemma tag_names_apart t : t ∈ enum_tag_names -> t ∈ flag_tag_names -> False.
Proof.
  assert (Forall (fun x => x ∉ flag_tag_names) enum_tag_names) as H by compute_done.
  intros He Hf. rewrite Forall_forall in H. exact (H t He Hf).
Qed.

Lemma tag_in_split c t :
  bool_decide (t ∈ SituationContext.build_tags c)
  = bool_decide (t ∈ enum_tags c) || bool_decide (t ∈ flag_tags c).
Proof.
  rewrite build_tags_split.
  destruct (bool_decide (t ∈ enum_tags c)) eqn:E1;
    destruct (bool_decide (t ∈ flag_tags c)) eqn:E2; simpl;
    [apply bool_decide_eq_true; apply elem_of_app; left;
       apply bool_decide_eq_true in E1; exact E1
    |apply bool_decide_eq_true; apply elem_of_app; left;
       apply bool_decide_eq_true in E1; exact E1
    |apply bool_decide_eq_true; apply elem_of_app; right;
       apply bool_decide_eq_true in E2; exact E2
    |apply bool_decide_eq_false; rewrite elem_of_app;
       apply bool_decide_eq_false in E1; apply bool_decide_eq_false in E2; tauto].
Qed.

Lemma flag_name_not_enum_tag c t :
  t ∈ flag_tag_names -> bool_decide (t ∈ enum_tags c) = false.
Proof.
  intros Hf. apply bool_decide_eq_false. intros He.
  destruct (enum_tags_facts c) as (_ & _ & Hall & _).
  rewrite Forall_forall in Hall. exact (tag_names_apart t (Hall t He) Hf).
Qed.

Lemma enum_name_not_flag_tag c t :
  t ∈ enum_tag_names -> bool_decide (t ∈ flag_tags c) = false.
Proof.
  intros He. apply bool_decide_eq_false. intros Hf.
  destruct (flag_tags_facts c) as (_ & _ & Hall & _).
  rewrite Forall_forall in Hall. exact (tag_names_apart t He (Hall t Hf)).
Qed.

Lemma build_tags_nodup c : NoDup (SituationContext.build_tags c).
Proof.
  destruct (enum_tags_facts c) as (He1 & _ & He3 & _).
  destruct (flag_tags_facts c) as (Hf1 & _ & Hf3 & _).
  rewrite build_tags_split. apply NoDup_app. split; [exact He1|].
  split; [|exact Hf1].
  intros t Hte Htf. rewrite Forall_forall in He3, Hf3.
  exact (tag_names_apart t (He3 t Hte) (Hf3 t Htf)).
Qed.

Lemma build_tags_length c : 1 <= length (SituationContext.build_tags c) <= 10.
Proof.
  destruct (enum_tags_facts c) as (_ & He2 & _).
  destruct (flag_tags_facts c) as (_ & Hf2 & _).
  rewrite build_tags_split, length_app. lia.
Qed.

(** The tag list tells the flags and the trends apart: it has no
    duplicates and between 1 and 10 entries; each derived flag is true
    exactly when its tag is present; the pace and heart-rate tags name
    the trend; severe fatigue shares its tag with high fatigue, and the
    two "behind" statuses share theirs. *)
Theorem build_tags_faithful (c : SituationContext.t) :
  let tags := SituationContext.build_tags c in
  NoDup tags
  /\ 1 <= length tags <= 10
  /\ SituationContext.cardiac_drift c = bool_decide ("cardiac_drift" ∈ tags)
  /\ SituationContext.zone_too_high c = bool_decide ("zone_too_high" ∈ tags)
  /\ SituationContext.injury_risk c = bool_decide ("injury_risk" ∈ tags)
  /\ SituationContext.form_breakdown c = bool_decide ("form_breakdown" ∈ tags)
  /\ SituationContext.push_possible c = bool_decide ("push_possible" ∈ tags)
  /\ SituationContext.recovery_needed c = bool_decide ("recovery_needed" ∈ tags)
  /\ bool_decide (SituationContext.pace_trend c = PACE_DECLINING)
     = bool_decide ("pace_decline" ∈ tags)
  /\ bool_decide (SituationContext.hr_trend c = HR_SPIKING)
     = bool_decide ("hr_spiking" ∈ tags)
  /\ py_in (SituationContext.fatigue_level c) [FATIGUE_HIGH; FATIGUE_SEVERE]
     = bool_decide ("fatigue_high" ∈ tags)
  /\ py_in (SituationContext.target_status c) [SLIGHTLY_BEHIND; WAY_BEHIND]
     = bool_decide ("target_behind" ∈ tags).
Proof.
  cbv zeta.
  destruct (enum_tags_facts c) as (He1 & He2 & He3 & He4 & He5 & He6 & He7).
  destruct (flag_tags_facts c) as (Hf1 & Hf2 & Hf3 & Hf4 & Hf5 & Hf6 & Hf7 & Hf8 & Hf9).
  split; [apply build_tags_nodup|].
  split; [apply build_tags_length|].
  rewrite !tag_in_split.
  rewrite (flag_name_not_enum_tag c "cardiac_drift"),
    (flag_name_not_enum_tag c "zone_too_high"),
    (flag_name_not_enum_tag c "injury_risk"),
    (flag_name_not_enum_tag c "form_breakdown"),
    (flag_name_not_enum_tag c "push_possible"),
    (flag_name_not_enum_tag c "recovery_needed"),
    (enum_name_not_flag_tag c "pace_decline"),
    (enum_name_not_flag_tag c "hr_spiking"),
    (enum_name_not_flag_tag c "fatigue_high"),
    (enum_name_not_flag_tag c "target_behind") by compute_done.
  rewrite !orb_false_r. simpl.
  repeat split; assumption.
Qed.

(** ** The static fallback strategies *)

(** [_get_fallback_strategies] always yields between one and four
    strategies with distinct ids, all marked as static fallbacks (source
    "fallback", an id that starts with "fallback", no usage history).
    Each of the four situational fallbacks is present exactly when its
    trigger holds, and the default one exactly when no trigger holds. *)
Theorem fallback_strategies_shape (context : SituationContext.t) :
  let strategies := _get_fallback_strategies context in
  let ids := map CoachingStrategy.id strategies in
  let drift := SituationContext.cardiac_drift context in
  let declining := bool_decide (SituationContext.pace_trend context = PACE_DECLINING) in
  let tired := py_in (SituationContext.fatigue_level context)
                     [FATIGUE_HIGH; FATIGUE_SEVERE] in
  let injury := SituationContext.injury_risk context in
  1 <= length strategies <= 4
  /\ NoDup ids
  /\ Forall (fun s => CoachingStrategy.source s = "fallback"
                      /\ String.prefix "fallback" (CoachingStrategy.id s) = true
                      /\ CoachingStrategy.times_used s = 0%Z
                      /\ CoachingStrategy.success_rate s = 0%Q) strategies
  /\ drift = bool_decide ("fallback-1" ∈ ids)
  /\ declining = bool_decide ("fallback-2" ∈ ids)
  /\ tired = bool_decide ("fallback-3" ∈ ids)
  /\ injury = bool_decide ("fallback-4" ∈ ids)
  /\ negb (drift || declining || tired || injury)
     = bool_decide ("fallback-default" ∈ ids).
Proof.
  destruct context as [pt ht fl ts cd zh ir fb pp rn p e tags0].
  cbv zeta. unfold _get_fallback_strategies.
  cbn [SituationContext.cardiac_drift SituationContext.pace_trend
       SituationContext.fatigue_level SituationContext.injury_risk].
  destruct pt, fl, cd, ir;
    (split; [simpl; lia|]);
    (split; [compute_done|]);
    (split; [repeat constructor|]);
    vm_compute; repeat split.
Qed.

(** ** Recording an execution *)

Lemma status_200 (code : Z) : (code =? 200)%Z = true <-> code = 200%Z.
Proof. apply Z.eqb_eq. Qed.

Lemma reply_without_body {A} (r : reply A) :
  (forall body, r <> Response 200 (Some body)) ->
  match r with
  | Response 200 (Some _) => False
  | _ => True
  end.
Proof.
  intros H. destruct r as [|code [body|]].
  - exact I.
  - destruct code as [|c|c]; try exact I;
      do 8 (destruct c as [c|c|]; try exact I).
    exact (H body eq_refl).
  - destruct code as [|c|c]; try exact I;
      do 8 (destruct c as [c|c|]; try exact I).
Qed.

Lemma record_execution_stored e w key user_id run_id strategy context perf st
    execution_id :
  service_ready e key ->
  record_strategy_execution w (record_call e key user_id run_id strategy context perf)
  = Response 200 (Some execution_id) ->
  _record_execution e w user_id run_id strategy context perf st
  = (Return (with_execution_id strategy execution_id),
     {| pending :=
          <[execution_id :=
              {| StrategyExecution.id := Some execution_id;
                 StrategyExecution.user_id := user_id;
                 StrategyExecution.run_id := run_id;
                 StrategyExecution.strategy_id := strategy_id_of strategy;
                 StrategyExecution.execution_context :=
                   execution_context_of context perf;
                 StrategyExecution.strategy_delivered :=
                   AdaptiveStrategyOutput.strategy_text strategy;
                 StrategyExecution.outcome_measured := false;
                 StrategyExecution.was_effective := None;
                 StrategyExecution.effectiveness_score := None;
                 StrategyExecution.effectiveness_reason := None;
                 StrategyExecution.executed_at := Some (now w) |}]> (pending st);
        calls := calls st
                 ++ [record_call e key user_id run_id strategy context perf] |}).
Proof.
  intros (Hurl & Hkey & Htruthy) Hreply.
  unfold _record_execution, record_call in *.
  rewrite Hurl, Hkey. simpl. unfold bind at 1. simpl. rewrite Htruthy. simpl.
  unfold try_except, bind, post. rewrite Hreply. reflexivity.
Qed.

Lemma record_execution_not_stored e w key user_id run_id strategy context perf st :
  service_ready e key ->
  match record_strategy_execution w
          (record_call e key user_id run_id strategy context perf) with
  | Response 200 (Some _) => False
  | _ => True
  end ->
  _record_execution e w user_id run_id strategy context perf st
  = (Return strategy,
     {| pending := pending st;
        calls := calls st
                 ++ [record_call e key user_id run_id strategy context perf] |}).
Proof.
  intros (Hurl & Hkey & Htruthy) Hreply.
  unfold _record_execution, record_call in *.
  rewrite Hurl, Hkey. simpl. unfold bind at 1. simpl. rewrite Htruthy. simpl.
  unfold try_except, bind, post.
  destruct (record_strategy_execution w _) as [|code [body|]]; try reflexivity.
  - destruct code as [|c|c]; try reflexivity;
      do 8 (destruct c as [c|c|]; try reflexivity). contradiction.
  - destruct code as [|c|c]; try reflexivity;
      do 8 (destruct c as [c|c|]; try reflexivity).
Qed.

Lemma assess_with_key e w key execution_id before after st execution :
  service_ready e key ->
  pending st !! execution_id = Some execution ->
  (assess_strategy_effectiveness e w execution_id before after st).1
  = Return (verdict_of (StrategyExecution.execution_context execution) before after).
Proof.
  intros (Hurl & Hkey & Htruthy) Hin.
  pose proof (assess_found e w execution_id before after st execution Hin) as H.
  cbv zeta in H.
  destruct (assess_strategy_effectiveness e w execution_id before after st).1
    as [r|ex].
  - rewrite H. reflexivity.
  - destruct H as (_ & _ & Hnone). congruence.
Qed.

(** [_record_execution] raises only when the engine has a Supabase URL
    but no [supabase_key] attribute.  Otherwise it returns the strategy
    it was given, unchanged and with the pending store unchanged, or the
    strategy with the execution id the collaborator answered (status
    200), and then the execution is pending under that id with the
    context snapshot and without a measured outcome.  It sends at most
    one request. *)
Theorem record_execution_cases :
  forall e w user_id run_id strategy context perf st,
    let r := _record_execution e w user_id run_id strategy context perf st in
    (calls r.2 = calls st
     \/ exists key,
         service_ready e key
         /\ calls r.2
            = calls st ++ [record_call e key user_id run_id strategy context perf])
    /\ match r.1 with
       | Raise ex =>
           ex = AttributeError "supabase_key"
           /\ str_truthy (supabase_url e) = true
           /\ supabase_key e = None
           /\ r.2 = st
       | Return out =>
           (out = strategy /\ pending r.2 = pending st)
           \/ (exists key execution_id execution,
                  record_strategy_execution w
                    (record_call e key user_id run_id strategy context perf)
                  = Response 200 (Some execution_id)
                  /\ out = with_execution_id strategy execution_id
                  /\ pending r.2 = <[execution_id := execution]> (pending st)
                  /\ StrategyExecution.execution_context execution
                     = execution_context_of context perf
                  /\ StrategyExecution.outcome_measured execution = false
                  /\ StrategyExecution.executed_at execution = Some (now w))
       end.
Proof.
  intros e w user_id run_id strategy context perf st r.
  destruct (str_truthy (supabase_url e)) eqn:Hurl.
  2:{ assert (r = (Return strategy, st)) as ->
        by (subst r; unfold _record_execution; rewrite Hurl; reflexivity).
      split; [left; reflexivity | left; split; reflexivity]. }
  destruct (supabase_key e) as [key|] eqn:Hkey.
  2:{ assert (r = (Raise (AttributeError "supabase_key"), st)) as ->
        by (subst r; unfold _record_execution; rewrite Hurl, Hkey; reflexivity).
      split; [left; reflexivity | repeat split; reflexivity]. }
  destruct (str_truthy key) eqn:Htruthy.
  2:{ assert (r = (Return strategy, st)) as ->
        by (subst r; unfold _record_execution; rewrite Hurl, Hkey; simpl;
            unfold bind; simpl; rewrite Htruthy; reflexivity).
      split; [left; reflexivity | left; split; reflexivity]. }
  assert (service_ready e key) as Hready by (repeat split; assumption).
  destruct (record_strategy_execution w
              (record_call e key user_id run_id strategy context perf))
    as [|code body] eqn:Hreply.
  - subst r. rewrite (record_execution_not_stored _ _ key) by (rewrite ?Hreply; auto).
    simpl. split; [right; eauto|]. left. auto.
  - destruct (decide (code = 200%Z /\ is_Some body)) as [[-> [id ->]]|Hno].
    + subst r. rewrite (record_execution_stored _ _ key _ _ _ _ _ _ id) by assumption.
      simpl. split; [right; eauto|]. right.
      eexists key, id, _. repeat split; try reflexivity. exact Hreply.
    + subst r. rewrite (record_execution_not_stored _ _ key); [| assumption |].
      * simpl. split; [right; eauto|]. left. auto.
      * apply reply_without_body. intros id Hid. rewrite Hreply in Hid.
        injection Hid as -> ->. apply Hno. split; [reflexivity|eauto].
Qed.

(** ** Recording, assessing, and recording the outcome *)

Lemma reply_match_200 {A} (r : reply A) (P Q : Prop) :
  (forall body, r = Response 200 body -> P) ->
  ((forall body, r <> Response 200 body) -> Q) ->
  match r with
  | Response 200 _ => P
  | _ => Q
  end.
Proof.
  intros HP HQ. destruct r as [|code body].
  - apply HQ. discriminate.
  - destruct code as [|c|c]; try (apply HQ; discriminate);
      do 8 (destruct c as [c|c|]; try (apply HQ; discriminate)).
    exact (HP body eq_refl).
Qed.

Lemma record_outcome_closed e w key execution_id metrics eff score reason st :
  service_ready e key ->
  record_strategy_outcome e w execution_id metrics eff score reason st
  = match record_strategy_outcome_rpc w
            (outcome_call e key execution_id metrics eff score reason) with
    | Response code _ =>
        if (code =? 200)%Z
        then (Return true,
              {| pending := delete execution_id (pending st);
                 calls := calls st
                          ++ [outcome_call e key execution_id metrics eff score reason] |})
        else (Return false,
              {| pending := pending st;
                 calls := calls st
                          ++ [outcome_call e key execution_id metrics eff score reason] |})
    | NetworkFailure =>
        (Return false,
         {| pending := pending st;
            calls := calls st
                     ++ [outcome_call e key execution_id metrics eff score reason] |})
    end.
Proof.
  intros (Hurl & Hkey & Htruthy).
  unfold record_strategy_outcome, outcome_call.
  rewrite Hurl, Hkey. simpl. unfold bind at 1. simpl. rewrite Htruthy. simpl.
  unfold try_except, bind, post.
  destruct (record_strategy_outcome_rpc w _) as [|code body]; [reflexivity|].
  simpl. destruct (code =? 200)%Z; reflexivity.
Qed.

Lemma record_outcome_not_ready e w execution_id metrics eff score reason st :
  (forall key, ~ service_ready e key) ->
  let r := record_strategy_outcome e w execution_id metrics eff score reason st in
  r.2 = st /\ r.1 <> Return true.
Proof.
  intros Hno. cbv zeta. unfold record_strategy_outcome.
  destruct (str_truthy (supabase_url e)) eqn:Hurl; simpl; [|split; [reflexivity|discriminate]].
  destruct (supabase_key e) as [key|] eqn:Hkey; simpl;
    [|split; [reflexivity|discriminate]].
  unfold bind. simpl.
  destruct (str_truthy key) eqn:Htruthy; simpl; [|split; [reflexivity|discriminate]].
  exfalso. apply (Hno key). repeat split; assumption.
Qed.

Lemma service_ready_unique e key key' :
  service_ready e key -> service_ready e key' -> key = key'.
Proof. intros (_ & H1 & _) (_ & H2 & _). congruence. Qed.

Lemma service_ready_dec e : (exists key, service_ready e key) \/ forall key, ~ service_ready e key.
Proof.
  destruct (str_truthy (supabase_url e)) eqn:Hurl.
  2:{ right. intros key (H & _). congruence. }
  destruct (supabase_key e) as [key|] eqn:Hkey.
  2:{ right. intros key (_ & H & _). congruence. }
  destruct (str_truthy key) eqn:Htruthy.
  - left. exists key. repeat split; assumption.
  - right. intros key' (_ & H & H'). congruence.
Qed.

Lemma metric_insert_ne (m : gmap string float) k k' z :
  k <> k' -> metric (<[k := z]> m) k' = metric m k'.
Proof. intros H. unfold metric. rewrite lookup_insert_ne by exact H. reflexivity. Qed.

Lemma verdict_ignores_zone context before after zb za :
  context !! "zone_too_high" = None ->
  verdict_of context (<["zone" := zb]> before) (<["zone" := za]> after)
  = verdict_of context before after.
Proof.
  intros Hnone.
  assert (forall b a v, assess_zone context b a v = v) as Hzone.
  { intros b a v. unfold assess_zone. rewrite Hnone. reflexivity. }
  unfold verdict_of, score_rules. rewrite !Hzone.
  unfold assess_hr, assess_pace.
  rewrite !metric_insert_ne by discriminate. reflexivity.
Qed.

(** An execution that [_record_execution] stored can be assessed: when
    the engine can reach the persistence service and the service
    answers the recording request with an execution id, the returned
    strategy carries that id, no other pending entry changes, and a
    later assessment under that id returns the verdict of the scoring
    rule on the context snapshot taken at recording time (it is never
    "Execution not found").  The snapshot has no [zone_too_high] entry,
    so the verdict does not depend on the zone metrics. *)
Theorem recorded_execution_is_assessable :
  forall e w key user_id run_id strategy context perf st execution_id,
    service_ready e key ->
    record_strategy_execution w
      (record_call e key user_id run_id strategy context perf)
    = Response 200 (Some execution_id) ->
    let r := _record_execution e w user_id run_id strategy context perf st in
    exists out,
      r.1 = Return out
      /\ AdaptiveStrategyOutput.execution_id out = Some execution_id
      /\ AdaptiveStrategyOutput.strategy_text out
         = AdaptiveStrategyOutput.strategy_text strategy
      /\ (forall other, other <> execution_id ->
            pending r.2 !! other = pending st !! other)
      /\ (forall w' before after,
            (assess_strategy_effectiveness e w' execution_id before after r.2).1
            = Return (verdict_of (execution_context_of context perf) before after))
      /\ (forall before after zone_before zone_after,
            verdict_of (execution_context_of context perf)
              (<["zone" := zone_before]> before) (<["zone" := zone_after]> after)
            = verdict_of (execution_context_of context perf) before after).
Proof.
  intros e w key user_id run_id strategy context perf st execution_id Hready Hreply r.
  subst r. rewrite (record_execution_stored _ _ key _ _ _ _ _ _ execution_id)
    by assumption.
  eexists. split; [reflexivity|]. simpl.
  split; [reflexivity|]. split; [reflexivity|]. split; [|split].
  - intros other Hne. apply lookup_insert_ne. congruence.
  - intros w' before after.
    eapply eq_trans;
      [eapply (assess_with_key _ _ key);
         [exact Hready | simpl; apply lookup_insert_eq]
      | reflexivity].
  - intros. apply verdict_ignores_zone, recorded_context_has_no_zone_flag.
Qed.

Lemma recorded_execution_is_assessable_witness :
  exists out,
    (_record_execution keyed_engine recording_world "user-1" None
       delivered_strategy tired_behind_context tired_behind_analysis
       initial_state).1 = Return out
    /\ AdaptiveStrategyOutput.execution_id out = Some "exec-1"
    /\ (assess_strategy_effectiveness keyed_engine refusing_world "exec-1"
          pace_6_15 pace_6_1 recorded_state).1
       = Return (true, 0.8%float, "Pace improved").
Proof.
  destruct (recorded_execution_is_assessable keyed_engine recording_world
              "service-key" "user-1" None delivered_strategy tired_behind_context
              tired_behind_analysis initial_state "exec-1")
    as (out & Hout & Hid & _ & _ & Hassess & _).
  - repeat split; reflexivity.
  - reflexivity.
  - exists out. split; [exact Hout|]. split; [exact Hid|].
    exact (Hassess refusing_world pace_6_15 pace_6_1).
Defined.

(** [record_strategy_outcome] returns [True] exactly when the engine can
    reach the persistence service and the service answers its request
    with status 200; then, and only then, the execution leaves the
    pending store.  It sends at most one request. *)
Theorem outcome_recorded_iff :
  forall e w execution_id metrics eff score reason st,
    let r := record_strategy_outcome e w execution_id metrics eff score reason st in
    (r.1 = Return true
     <-> exists key body,
           service_ready e key
           /\ record_strategy_outcome_rpc w
                (outcome_call e key execution_id metrics eff score reason)
              = Response 200 body)
    /\ (r.1 = Return true -> pending r.2 = delete execution_id (pending st))
    /\ (r.1 <> Return true -> pending r.2 = pending st)
    /\ (calls r.2 = calls st
        \/ exists key,
            service_ready e key
            /\ calls r.2
               = calls st
                 ++ [outcome_call e key execution_id metrics eff score reason]).
Proof.
  intros e w execution_id metrics eff score reason st r.
  destruct (service_ready_dec e) as [[key Hready]|Hno].
  - subst r. rewrite (record_outcome_closed _ _ key) by exact Hready.
    destruct (record_strategy_outcome_rpc w
                (outcome_call e key execution_id metrics eff score reason))
      as [|code body] eqn:Hreply.
    + simpl. split; [|split; [|split]]; try discriminate; try reflexivity.
      * split; [discriminate|]. intros (key' & body & Hready' & Hr).
        rewrite <- (service_ready_unique _ _ _ Hready Hready') in Hr. congruence.
      * right. eauto.
    + destruct (code =? 200)%Z eqn:Hcode; simpl.
      * apply Z.eqb_eq in Hcode as ->.
        split; [|split; [|split]]; try reflexivity.
        -- split; [|reflexivity]. intros _. exists key, body. auto.
        -- congruence.
        -- right. eauto.
      * apply Z.eqb_neq in Hcode.
        split; [|split; [|split]]; try discriminate; try reflexivity.
        -- split; [discriminate|]. intros (key' & body' & Hready' & Hr).
           rewrite <- (service_ready_unique _ _ _ Hready Hready') in Hr. congruence.
        -- right. eauto.
  - destruct (record_outcome_not_ready e w execution_id metrics eff score reason st Hno)
      as [Hst Hres]. fold r in Hst, Hres.
    split; [|split; [|split]].
    + split; [contradiction|]. intros (key & _ & Hready & _). destruct (Hno key Hready).
    + contradiction.
    + intros _. rewrite Hst. reflexivity.
    + left. rewrite Hst. reflexivity.
Qed.

Lemma outcome_recorded_iff_witness :
  (record_strategy_outcome keyed_engine recording_world "exec-1" ∅ true None None
     recorded_state).1 = Return true
  /\ pending (record_strategy_outcome keyed_engine recording_world "exec-1" ∅ true
                None None recorded_state).2
     = delete "exec-1" (pending recorded_state).
Proof.
  split; [reflexivity|].
  apply (proj1 (proj2 (outcome_recorded_iff keyed_engine recording_world "exec-1"
                         ∅ true None None recorded_state))).
  reflexivity.
Defined.

(** An assessment settles an execution at most once.  For a pending
    execution, on an engine that can reach the persistence service, the
    assessor returns the verdict of the scoring rule and sends exactly
    one request, carrying that verdict.  If the service answers 200 the
    execution leaves the pending store, and every later assessment of
    the same id answers "Execution not found" without sending anything;
    otherwise the execution stays pending and can be assessed again. *)
Theorem assess_settles_once :
  forall e w key execution_id execution before after st,
    service_ready e key ->
    pending st !! execution_id = Some execution ->
    let context := StrategyExecution.execution_context execution in
    let r := assess_strategy_effectiveness e w execution_id before after st in
    let c := verdict_call e key execution_id context before after in
    r.1 = Return (verdict_of context before after)
    /\ calls r.2 = calls st ++ [c]
    /\ match record_strategy_outcome_rpc w c with
       | Response 200 _ =>
           pending r.2 = delete execution_id (pending st)
           /\ forall w' before' after',
                assess_strategy_effectiveness e w' execution_id before' after' r.2
                = (Return (false, 0%float, "Execution not found"), r.2)
       | _ =>
           pending r.2 = pending st
           /\ forall w' before' after',
                (assess_strategy_effectiveness e w' execution_id before' after' r.2).1
                = Return (verdict_of context before' after')
       end.
Proof.
  intros e w key execution_id execution before after st Hready Hin context r c.
  assert (r = let o := record_strategy_outcome e w execution_id
                         (outcome_metrics_of before after)
                         (v_effective (score_rules context before after))
                         (Some (v_score (score_rules context before after)))
                         (Some (reason_of (score_rules context before after))) st in
              match o.1 with
              | Return _ => (Return (verdict_of context before after), o.2)
              | Raise ex => (Raise ex, o.2)
              end) as Hr.
  { subst r. unfold assess_strategy_effectiveness, bind, pending_get. simpl.
    rewrite Hin. fold context.
    destruct (record_strategy_outcome _ _ _ _ _ _ _ _) as [[b|ex] st']; reflexivity. }
  cbv zeta in Hr.
  rewrite (record_outcome_closed _ _ key) in Hr by exact Hready.
  fold (verdict_call e key execution_id context before after) in Hr. fold c in Hr.
  assert (r.1 = Return (verdict_of context before after)
          /\ calls r.2 = calls st ++ [c]) as [Hr1 Hr2].
  { rewrite Hr. destruct (record_strategy_outcome_rpc w c) as [|code body];
      [|destruct (code =? 200)%Z]; split; reflexivity. }
  split; [exact Hr1|]. split; [exact Hr2|].
  apply reply_match_200.
  - intros body Hreply. rewrite Hreply in Hr. simpl in Hr. rewrite Hr. simpl.
    split; [reflexivity|].
    intros w' before' after'. apply assess_not_found. simpl. apply lookup_delete_eq.
  - intros Hreply.
    assert (r = (Return (verdict_of context before after),
                 {| pending := pending st; calls := calls st ++ [c] |})) as ->.
    { rewrite Hr. destruct (record_strategy_outcome_rpc w c) as [|code body] eqn:E;
        [reflexivity|].
      destruct (code =? 200)%Z eqn:Hcode; [|reflexivity].
      apply Z.eqb_eq in Hcode as ->. destruct (Hreply body eq_refl). }
    simpl. split; [reflexivity|].
    intros w' before' after'.
    apply (assess_with_key _ _ key); [exact Hready|exact Hin].
Qed.

Lemma assess_settles_once_witness :
  exists execution,
    pending recorded_state !! "exec-1" = Some execution
    /\ (let r := assess_strategy_effectiveness keyed_engine recording_world "exec-1"
                   pace_6_15 pace_6_1 recorded_state in
        r.1 = Return (true, 0.8%float, "Pace improved")
        /\ assess_strategy_effectiveness keyed_engine recording_world "exec-1"
             pace_6_15 pace_6_1 r.2
           = (Return (false, 0%float, "Execution not found"), r.2)).
Proof.
  eexists. split; [reflexivity|].
  pose proof (assess_settles_once keyed_engine recording_world "service-key" "exec-1"
                _ pace_6_15 pace_6_1 recorded_state
                ltac:(repeat split; reflexivity) eq_refl) as H.
  cbv zeta in H. destruct H as (H1 & _ & _ & H3).
  split; [exact H1|]. exact (H3 recording_world pace_6_15 pace_6_1).
Defined.

(** On an engine as [__init__] builds it, none of the helpers reaches a
    collaborator: each one leaves the call log and the pending store as
    they are, and ends in its no-op result when the Supabase URL is
    empty and in an [AttributeError] otherwise (the reranker always in
    an [AttributeError]). *)
Theorem constructed_engine_helpers_send_nothing :
  forall env url anon_key w st,
    let e := __init__ env url anon_key in
    let with_url {A} (no_op : A) : res A :=
      if str_truthy (supabase_url e) then Raise (AttributeError "supabase_key")
      else Return no_op in
    (forall user_id run_id strategy context perf,
        _record_execution e w user_id run_id strategy context perf st
        = (with_url strategy, st))
    /\ (forall execution_id metrics eff score reason,
           record_strategy_outcome e w execution_id metrics eff score reason st
           = (with_url false, st))
    /\ (forall describe context user_id perf,
           _retrieve_strategies describe e w context user_id perf st
           = (with_url (_get_fallback_strategies context), st))
    /\ (forall kb description perf,
           _llm_match_conditions e w kb description perf st
           = (Raise (AttributeError "openai_key"), st))
    /\ (forall execution_id before after,
           (assess_strategy_effectiveness e w execution_id before after st).2 = st).
Proof.
  intros env url anon_key w st e with_url. subst with_url. cbv beta.
  split; [|split; [|split; [|split]]].
  - intros. unfold _record_execution.
    destruct (str_truthy (supabase_url e)); reflexivity.
  - intros. unfold record_strategy_outcome.
    destruct (str_truthy (supabase_url e)); reflexivity.
  - intros. unfold _retrieve_strategies.
    destruct (str_truthy (supabase_url e)); reflexivity.
  - intros. reflexivity.
  - intros. unfold assess_strategy_effectiveness, bind, pending_get. simpl.
    destruct (pending st !! execution_id); [|reflexivity].
    unfold record_strategy_outcome.
    destruct (str_truthy (supabase_url e)); reflexivity.
Qed.

(** ** The levels of the verdict *)

(** The assessor's verdict takes one of five scores: the base 0.5, or
    0.7, 0.8, 0.8999999999999999 (two bonuses of 0.2 on the base, added
    as floats) or 1.0.  The strategy counts as effective exactly when
    the score is above the base, and the reason is the no-improvement
    text exactly when it does not. *)
Theorem verdict_levels (stored_context : gmap string pyval)
    (before_metrics after_metrics : gmap string float) :
  let '(was_effective, score, reason) :=
    verdict_of stored_context before_metrics after_metrics in
  (score = 0.5 \/ score = 0.7 \/ score = 0.8
   \/ score = 0.8999999999999999 \/ score = 1)%float
  /\ (was_effective = true <-> (0.5 <? score)%float = true)
  /\ (was_effective = false <-> reason = "No significant improvement detected").
Proof.
  unfold verdict_of, score_rules.
  rewrite assess_zone_closed, assess_hr_closed, assess_pace_closed. cbv zeta.
  name_conditions before_metrics after_metrics stored_context.
  destruct c1, c2, c3, c4; try (specialize (Hexcl eq_refl); discriminate);
    vm_compute;
    (split; [repeat (first [left; reflexivity | right]); reflexivity|]);
    split; split; intros H; first [reflexivity | discriminate H].
Qed.

(** ** The outcomes of a delivery *)

Lemma take_nodup {A} n (l : list A) : NoDup l -> NoDup (take n l).
Proof. intros H. eapply sublist_NoDup; [exact H | apply sublist_take]. Qed.

Lemma built_context_priority_tags perf personality energy context :
  _build_situation_context perf personality energy = Return context ->
  let tags := take 3 (SituationContext.situation_tags context) in
  1 <= length tags <= 3 /\ NoDup tags.
Proof.
  intros H. apply build_context_shape in H as (push & _ & ->). simpl.
  match goal with |- context [SituationContext.build_tags ?c] =>
    pose proof (build_tags_length c) as Hlen;
    pose proof (build_tags_nodup c) as Hnd
  end.
  split; [rewrite length_take; lia|]. apply take_nodup, Hnd.
Qed.

(** [get_adaptive_strategy] ends in one of three ways.  Without a
    Supabase URL and anon key it raises [ValueError] before anything
    else, whatever the analysis.  With them, an analysis on which the
    context cannot be built makes it raise [ZeroDivisionError]; in both
    cases nothing was sent.  Otherwise it returns an output after
    exactly one request to the Edge Function: the output has one to
    three distinct priority tags, asks for an outcome check, and names
    no source strategies and no memories; it has no execution id and
    confidence 0.5 unless the Edge Function answered 200 with a body. *)
Theorem delivery_outcomes :
  forall e w perf personality energy user_id run_id st,
    let r := get_adaptive_strategy e w perf personality energy user_id run_id st in
    match r.1 with
    | Raise ex =>
        r.2 = st
        /\ (configured e = false
            /\ ex = ValueError "Supabase URL and anon key required for Edge Function"
            \/ configured e = true
               /\ ex = ZeroDivisionError
               /\ _build_situation_context perf personality energy
                  = Raise ZeroDivisionError)
    | Return out =>
        configured e = true
        /\ calls r.2 = calls st ++ [edge_call e perf personality energy user_id run_id]
        /\ 1 <= length (AdaptiveStrategyOutput.priority_tags out) <= 3
        /\ NoDup (AdaptiveStrategyOutput.priority_tags out)
        /\ AdaptiveStrategyOutput.requires_outcome_check out = true
        /\ AdaptiveStrategyOutput.source_strategies out = []
        /\ AdaptiveStrategyOutput.mem0_insights_used out = []
        /\ strategy_id_of out = None
        /\ ((AdaptiveStrategyOutput.execution_id out = None
             /\ (AdaptiveStrategyOutput.confidence_score out == 0.5)%Q)
            \/ exists strategy_data,
                edge_function w (edge_call e perf personality energy user_id run_id)
                = Response 200 (Some strategy_data)
                /\ AdaptiveStrategyOutput.execution_id out
                   = sd_execution_id strategy_data)
    end.
Proof.
  intros e w perf personality energy user_id run_id st r.
  destruct (configured e) eqn:Hc.
  2:{ subst r. rewrite delivery_unconfigured by exact Hc. simpl. auto. }
  pose proof (delivery_configured e w perf personality energy user_id run_id st Hc) as H.
  destruct (build_context_total_otherwise perf personality energy)
    as [Hraise|[context Hctx]].
  - rewrite Hraise in H. subst r. rewrite H. simpl. auto.
  - rewrite Hctx in H. subst r. rewrite H. simpl.
    destruct (built_context_priority_tags _ _ _ _ Hctx) as [Hlen Hnd].
    split; [reflexivity|]. split; [reflexivity|].
    destruct (edge_function w (edge_call e perf personality energy user_id run_id))
      as [|code [sd|]] eqn:Hreply.
    + simpl. repeat split; try assumption; try apply Hlen. left. split; reflexivity.
    + destruct (decide (code = 200%Z)) as [->|Hne].
      * simpl. repeat split; try assumption; try apply Hlen. right. eauto.
      * assert (match code with
                | 200%Z => edge_output context sd
                | _ => edge_fallback_output context
                end = edge_fallback_output context) as ->.
        { destruct code as [|c|c]; try reflexivity;
            do 8 (destruct c as [c|c|]; try reflexivity). contradiction. }
        simpl. repeat split; try assumption; try apply Hlen. left. split; reflexivity.
    + assert (match code with
              | 200%Z => edge_fallback_output context
              | _ => edge_fallback_output context
              end = edge_fallback_output context) as ->.
      { destruct code as [|c|c]; try reflexivity;
            do 8 (destruct c as [c|c|]; try reflexivity). }
      simpl. repeat split; try assumption; try apply Hlen. left. split; reflexivity.
Qed.

(** ** The outcomes of a retrieval *)

Lemma query_kb_closed e w key dc rl st :
  supabase_key e = Some key ->
  _query_kb_fallback e w dc rl 15 st
  = (Return (kb_rows (query_coaching_strategies_kb w (query_call e key dc rl))),
     {| pending := pending st; calls := calls st ++ [query_call e key dc rl] |}).
Proof.
  intros Hkey. unfold _query_kb_fallback, query_call, kb_rows. rewrite Hkey.
  unfold try_except, bind, post. simpl.
  destruct (query_coaching_strategies_kb w _) as [|code [rows|]]; simpl;
    try reflexivity; destruct (code =? 200)%Z; reflexivity.
Qed.

Lemma reranker_state_closed e w kb description perf st key :
  openai_key e = Some key ->
  (_llm_match_conditions e w kb description perf st).2
  = if negb (str_truthy key) || is_nil kb then st
    else {| pending := pending st;
            calls := calls st ++ [chat_call key description kb] |}.
Proof.
  intros Hk. unfold _llm_match_conditions, chat_call.
  rewrite Hk. unfold bind at 1, getattr, ret at 1.
  destruct (negb (str_truthy key) || is_nil kb); [reflexivity|].
  unfold try_except, bind, post, decode, lift, ret, raise.
  destruct (chat_completions w _) as [|code body]; [reflexivity|]. simpl.
  destruct (code =? 200)%Z.
  - destruct body as [[|ms|[ms|]|]|]; simpl; try reflexivity;
      destruct (rank_matches _ kb) as [ranked|[]]; reflexivity.
  - destruct body as [[|ms|[ms|]|]|]; reflexivity.
Qed.

Lemma reranker_state e w kb description perf st :
  (_llm_match_conditions e w kb description perf st).2 = st
  \/ exists key,
      openai_key e = Some key
      /\ (_llm_match_conditions e w kb description perf st).2
         = {| pending := pending st;
              calls := calls st ++ [chat_call key description kb] |}.
Proof.
  destruct (openai_key e) as [key|] eqn:Hk.
  - rewrite (reranker_state_closed _ _ _ _ _ _ key Hk).
    destruct (negb (str_truthy key) || is_nil kb); [left; reflexivity|].
    right. exists key. auto.
  - left. rewrite reranker_without_attribute by exact Hk. reflexivity.
Qed.

Lemma reranker_ranked_facts e w kb description perf st ranked :
  (_llm_match_conditions e w kb description perf st).1 = Return ranked ->
  length ranked <= 8
  /\ Forall (fun row => KBStrategy.id row ∈ map KBStrategy.id kb) ranked.
Proof.
  intros H. destruct (openai_key e) as [key|] eqn:Hkey.
  2:{ rewrite reranker_without_attribute in H by exact Hkey. discriminate H. }
  rewrite (reranker_closed_form _ _ _ _ _ _ key) in H by exact Hkey.
  injection H as <-.
  destruct (rerank_closed_cases key
              (chat_completions w (chat_call key description kb)) kb)
    as [->|[matches Hrank]].
  - split; [apply fallback_rank_length|].
    apply Forall_forall. intros row Hrow.
    apply list_elem_of_fmap. exists row. split; [reflexivity|].
    apply fallback_rank_elem, Hrow.
  - split; [apply (rank_matches_length _ _ _ Hrank)|].
    apply Forall_forall. intros row Hrow.
    destruct (rank_matches_elem _ _ _ _ Hrank Hrow) as (s0 & m & Hs0 & Hid & _).
    apply list_elem_of_fmap. exists s0. auto.
Qed.

Lemma retrieve_closed describe e w key context user_id perf st :
  service_ready e key ->
  _retrieve_strategies describe e w context user_id perf st
  = if is_nil (kb_rows (query_coaching_strategies_kb w (retrieval_query e key perf)))
    then (Return (_get_fallback_strategies context),
          {| pending := pending st;
             calls := calls st ++ [retrieval_query e key perf] |})
    else
      match _llm_match_conditions e w
              (kb_rows (query_coaching_strategies_kb w (retrieval_query e key perf)))
              (describe context perf) perf
              {| pending := pending st;
                 calls := calls st ++ [retrieval_query e key perf] |} with
      | (Return ranked, st2) => (Return (map (kb_to_strategy false) ranked), st2)
      | (Raise _, st2) => (Return (_get_fallback_strategies context), st2)
      end.
Proof.
  intros (Hurl & Hkey & Htruthy).
  unfold _retrieve_strategies, retrieval_query. rewrite Hurl, Hkey. simpl.
  unfold bind at 1. simpl. rewrite Htruthy. simpl.
  unfold bind at 1, _generate_embedding at 1. simpl.
  unfold retrieve_with_embedding. simpl.
  unfold try_except, bind at 1.
  rewrite (query_kb_closed _ _ key) by exact Hkey.
  destruct (is_nil (kb_rows _)); [reflexivity|].
  unfold bind.
  destruct (_llm_match_conditions _ _ _ _ _ _) as [[ranked|ex] st2]; reflexivity.
Qed.

Lemma fallback_strategies_facts context :
  length (_get_fallback_strategies context) <= 4
  /\ Forall (fun s => CoachingStrategy.source s = "fallback")
       (_get_fallback_strategies context).
Proof.
  destruct context as [pt ht fl ts cd zh ir fb pp rn p e tags0].
  unfold _get_fallback_strategies.
  cbn [SituationContext.cardiac_drift SituationContext.pace_trend
       SituationContext.fatigue_level SituationContext.injury_risk].
  destruct pt, fl, cd, ir; (split; [simpl; lia|repeat constructor]).
Qed.

(** [_retrieve_strategies] raises only when the engine has a Supabase
    URL but no [supabase_key] attribute.  Otherwise it returns at most
    eight strategies, each a static fallback or a knowledge-base row of
    the plain query (never a vector-search or database strategy): the
    static fallbacks, or the rows the reranker kept.  It never touches
    the pending store and sends at most two requests. *)
Theorem retrieval_outcomes :
  forall describe e w context user_id perf st,
    let r := _retrieve_strategies describe e w context user_id perf st in
    pending r.2 = pending st
    /\ (exists new, calls r.2 = calls st ++ new /\ length new <= 2)
    /\ match r.1 with
       | Raise ex =>
           ex = AttributeError "supabase_key"
           /\ str_truthy (supabase_url e) = true
           /\ supabase_key e = None
           /\ r.2 = st
       | Return strategies =>
           length strategies <= 8
           /\ Forall (fun s => CoachingStrategy.source s = "fallback"
                               \/ CoachingStrategy.source s = "kb") strategies
           /\ (strategies = _get_fallback_strategies context
               \/ exists key ranked,
                   service_ready e key
                   /\ strategies = map (kb_to_strategy false) ranked
                   /\ Forall (fun row =>
                                KBStrategy.id row
                                ∈ map KBStrategy.id
                                    (kb_rows (query_coaching_strategies_kb w
                                                (retrieval_query e key perf))))
                             ranked)
       end.
Proof.
  intros describe e w context user_id perf st r.
  destruct (fallback_strategies_facts context) as [Hflen Hfsrc].
  assert (Forall (fun s => CoachingStrategy.source s = "fallback"
                           \/ CoachingStrategy.source s = "kb")
                 (_get_fallback_strategies context)) as Hfsrc'.
  { eapply Forall_impl; [exact Hfsrc|]. simpl. auto. }
  destruct (service_ready_dec e) as [[key Hready]|Hno].
  - subst r. rewrite (retrieve_closed _ _ _ key) by exact Hready.
    set (kb := kb_rows _).
    set (st1 := {| pending := pending st;
                   calls := calls st ++ [retrieval_query e key perf] |}).
    destruct (is_nil kb).
    { simpl. split; [reflexivity|]. split; [exists [retrieval_query e key perf]; auto|].
      split; [lia|]. split; [exact Hfsrc'|]. left. reflexivity. }
    pose proof (reranker_state e w kb (describe context perf) perf st1) as Hst.
    pose proof (reranker_ranked_facts e w kb (describe context perf) perf st1) as Hrk.
    destruct (_llm_match_conditions e w kb (describe context perf) perf st1)
      as [[ranked|ex] st2]; simpl in *.
    + assert (pending st2 = pending st
              /\ exists new, calls st2 = calls st ++ new /\ length new <= 2)
        as [Hp Hc].
      { destruct Hst as [->|(k & _ & ->)]; simpl.
        - split; [reflexivity|]. exists [retrieval_query e key perf]. auto.
        - split; [reflexivity|].
          exists [retrieval_query e key perf;
                  chat_call k (describe context perf) kb].
          rewrite <- app_assoc. auto. }
      split; [exact Hp|]. split; [exact Hc|].
      destruct (Hrk ranked eq_refl) as [Hlen Hids].
      split; [rewrite length_map; exact Hlen|].
      split.
      * apply Forall_forall. intros s Hs.
        apply list_elem_of_fmap in Hs as (row & -> & _). right. reflexivity.
      * right. exists key, ranked. auto.
    + assert (pending st2 = pending st
              /\ exists new, calls st2 = calls st ++ new /\ length new <= 2)
        as [Hp Hc].
      { destruct Hst as [->|(k & _ & ->)]; simpl.
        - split; [reflexivity|]. exists [retrieval_query e key perf]. auto.
        - split; [reflexivity|].
          exists [retrieval_query e key perf;
                  chat_call k (describe context perf) kb].
          rewrite <- app_assoc. auto. }
      split; [exact Hp|]. split; [exact Hc|].
      split; [lia|]. split; [exact Hfsrc'|]. left. reflexivity.
  - assert (r = (Return (_get_fallback_strategies context), st)
            \/ (r = (Raise (AttributeError "supabase_key"), st)
                /\ str_truthy (supabase_url e) = true /\ supabase_key e = None))
      as [->|(-> & Hurl & Hkey)].
    { subst r. unfold _retrieve_strategies.
      destruct (str_truthy (supabase_url e)) eqn:Hurl; simpl; [|left; reflexivity].
      destruct (supabase_key e) as [key|] eqn:Hkey; simpl; [|right; auto].
      unfold bind. simpl.
      destruct (str_truthy key) eqn:Htruthy; simpl; [|left; reflexivity].
      exfalso. apply (Hno key). repeat split; assumption. }
    + simpl. split; [reflexivity|]. split; [exists []; rewrite app_nil_r; auto|].
      split; [lia|]. split; [exact Hfsrc'|]. left. reflexivity.
    + simpl. split; [reflexivity|]. split; [exists []; rewrite app_nil_r; auto|].
      auto.
Qed.

Lemma build_match_lookup_none matches acc :
  no_entry_matches matches -> build_match_lookup matches acc = Return acc.
Proof.
  intros H. induction H as [|m rest Hm _ IH]; [reflexivity|].
  simpl. rewrite Hm. exact IH.
Qed.

Lemma apply_matches_empty kb : apply_matches ∅ kb = [].
Proof.
  unfold apply_matches. induction kb as [|s kb IH]; [reflexivity|].
  simpl. rewrite lookup_empty. exact IH.
Qed.

Lemma rank_matches_none matches kb :
  no_entry_matches matches -> rank_matches matches kb = Return [].
Proof.
  intros H. unfold rank_matches.
  rewrite (build_match_lookup_none _ _ H). simpl.
  rewrite apply_matches_empty. reflexivity.
Qed.

(** When the knowledge base has rows for the runner but the matcher
    marks none of them as a match, retrieval returns the empty list, not
    the static fallbacks it uses when the knowledge base has no rows;
    the static fallbacks are never empty. *)
Theorem unmatched_rows_give_empty_retrieval :
  forall describe e w skey okey context user_id perf st rows matches,
    service_ready e skey ->
    openai_key e = Some okey ->
    str_truthy okey = true ->
    query_coaching_strategies_kb w (retrieval_query e skey perf)
    = Response 200 (Some rows) ->
    rows <> [] ->
    chat_completions w (chat_call okey (describe context perf) rows)
    = Response 200 (Some (JsonObject (Some matches))) ->
    no_entry_matches matches ->
    (_retrieve_strategies describe e w context user_id perf st).1 = Return []
    /\ _get_fallback_strategies context <> [].
Proof.
  intros describe e w skey okey context user_id perf st rows matches
         Hready Hokey Htruthy Hquery Hrows Hchat Hnone.
  split; [|apply fallback_strategies_nonempty].
  rewrite (retrieve_closed _ _ _ skey) by exact Hready.
  rewrite Hquery. simpl.
  destruct rows as [|row rows']; [contradiction|]. simpl.
  match goal with
  | |- context [_llm_match_conditions ?e ?w ?kb ?d ?p ?s] =>
      pose proof (reranker_closed_form e w kb d p s okey Hokey) as Hr;
      destruct (_llm_match_conditions e w kb d p s) as [[ranked|ex] st2]
  end; simpl in Hr; [|discriminate Hr].
  injection Hr as ->. simpl.
  unfold rerank_closed. rewrite Htruthy. simpl. rewrite Hchat. simpl.
  rewrite (rank_matches_none _ _ Hnone). reflexivity.
Qed.

Lemma unmatched_rows_give_empty_retrieval_witness :
  (_retrieve_strategies plain_description keyed_engine unmatched_world
     tired_behind_context "user-1" sample_analysis initial_state).1 = Return []
  /\ _get_fallback_strategies tired_behind_context <> [].
Proof.
  apply (unmatched_rows_give_empty_retrieval plain_description keyed_engine
           unmatched_world "service-key" "sk-test" tired_behind_context "user-1"
           sample_analysis initial_state [candidate_a; candidate_b]
           [ {| m_id := Some "a"; m_match := Some false;
                m_match_score := Some 0.2%Q; m_reason := None |};
             {| m_id := Some "b"; m_match := None;
                m_match_score := None; m_reason := None |} ]).
  - repeat split; reflexivity.
  - reflexivity.
  - reflexivity.
  - reflexivity.
  - discriminate.
  - reflexivity.
  - repeat constructor.
Defined.

(** ** Retrieval and the cache *)

Lemma retrieve_not_ready describe e w context user_id perf st :
  (forall key, ~ service_ready e key) ->
  (_retrieve_strategies describe e w context user_id perf st).2 = st.
Proof.
  intros Hno. unfold _retrieve_strategies.
  destruct (str_truthy (supabase_url e)) eqn:Hurl; [|reflexivity].
  destruct (supabase_key e) as [key|] eqn:Hkey; [|reflexivity].
  unfold negb at 1, getattr. unfold bind at 1, ret at 1.
  destruct (str_truthy key) eqn:Htruthy; [|reflexivity].
  exfalso. apply (Hno key). repeat split; assumption.
Qed.

Lemma retrieve_query_first describe e w key context user_id perf st :
  service_ready e key ->
  exists rest,
    calls (_retrieve_strategies describe e w context user_id perf st).2
    = calls st ++ retrieval_query e key perf :: rest.
Proof.
  intros Hready. rewrite (retrieve_closed _ _ _ key) by exact Hready.
  destruct (is_nil _); [exists []; reflexivity|].
  match goal with
  | |- context [_llm_match_conditions ?e ?w ?kb ?d ?p ?s] =>
      destruct (reranker_state e w kb d p s) as [Hst|(k & _ & Hst)];
      destruct (_llm_match_conditions e w kb d p s) as [[ranked|ex] st2]
  end; simpl in Hst; subst st2; simpl;
    first [ exists []; reflexivity
          | eexists [_]; rewrite <- app_assoc; reflexivity ].
Qed.

(** C3, as stated, fails.  With a fresh, non-empty cache entry under
    the key of the request, an engine with its settings in place still
    queries the knowledge base and the matcher and answers from them,
    not from the cache; and for no choice of key function does
    retrieval answer from the cache. *)
Lemma retrieval_cache_first_fails :
  (let key := colon_key (_get_distance_category 10000) (_get_runner_level sample_analysis) in
   let e := cached_engine key in
   let outcome := _retrieve_strategies plain_description e kb_world
                    tired_behind_context "user-1" sample_analysis initial_state in
   cache_entry_fresh e kb_world key cached_candidates
   /\ cached_candidates <> []
   /\ outcome.1 = Return [kb_to_strategy false candidate_a]
   /\ outcome.1 <> Return cached_candidates
   /\ calls outcome.2
      = [ QueryKBCall
            "https://project.supabase.co/rest/v1/rpc/query_coaching_strategies_kb"
            "service-key" "10k" "advanced" 15;
          ChatCompletionsCall "sk-test" "steady run" [candidate_a] ])
  /\ ~ (exists describe cache_key, retrieval_checks_cache_first describe cache_key).
Proof.
  split.
  - cbv zeta. split; [|split; [discriminate|split; [reflexivity|split]]].
    + split; [reflexivity|]. exists 0%Q. split; [reflexivity|].
      unfold Qle; simpl; lia.
    + intros H. vm_compute in H. discriminate H.
    + reflexivity.
  - intros (describe & cache_key & H).
    set (key := cache_key
                  (_get_distance_category
                     (PerformanceAnalysis.target_distance sample_analysis))
                  (_get_runner_level sample_analysis)).
    specialize (H (cached_engine key) kb_world tired_behind_context
                  "user-1" sample_analysis initial_state cached_candidates).
    assert (cache_entry_fresh (cached_engine key) kb_world key cached_candidates)
      as Hfresh.
    { split; [apply lookup_singleton_eq|].
      exists 0%Q. split; [apply lookup_singleton_eq|].
      unfold Qle; simpl; lia. }
    specialize (H Hfresh).
    apply (f_equal (fun r => calls r.2)) in H.
    destruct (retrieve_query_first describe (cached_engine key) kb_world
                "service-key" tired_behind_context "user-1" sample_analysis
                initial_state) as (rest & Hcalls).
    { repeat split; reflexivity. }
    rewrite Hcalls in H. discriminate H.
Qed.

(** C3, amended.  Retrieval does not consult the cache: whatever the
    cache holds, its result and its calls are the same.  Without the
    Supabase URL it returns the static strategies and calls nobody.
    Its body sends the vector search first (floor 0.65, 15 results,
    scoped to distance category and runner level, type unconstrained)
    when an embedding of the situation is at hand; as the embedding step
    is written, none is, and retrieval sends no vector search: on an
    engine with a non-empty Supabase URL and [supabase_key] its first
    request is the plain query (limit 15), and on any other engine it
    sends nothing. *)
Theorem retrieval_without_cache :
  forall describe e w context user_id perf st,
    (forall cache ttl timestamps,
        _retrieve_strategies describe (with_cache e cache ttl timestamps)
          w context user_id perf st
        = _retrieve_strategies describe e w context user_id perf st)
    /\ (str_truthy (supabase_url e) = false ->
        _retrieve_strategies describe e w context user_id perf st
        = (Return (_get_fallback_strategies context), st))
    /\ (exists new,
           calls (_retrieve_strategies describe e w context user_id perf st).2
           = calls st ++ new
           /\ Forall (fun c => is_semantic_search c = false) new)
    /\ (forall key dc rl description embedding,
           embedding_available embedding = true ->
           exists rest,
             calls (retrieve_with_embedding e w key context perf dc rl
                      description embedding st).2
             = calls st
               ++ SemanticSearchCall
                    (supabase_url e +:+ "/rest/v1/rpc/semantic_search_strategies_kb")
                    key (default [] embedding) dc rl None 0.65 15
               :: rest)
    /\ (forall key,
           service_ready e key ->
           exists rest,
             calls (_retrieve_strategies describe e w context user_id perf st).2
             = calls st
               ++ QueryKBCall
                    (supabase_url e +:+ "/rest/v1/rpc/query_coaching_strategies_kb")
                    key
                    (_get_distance_category (PerformanceAnalysis.target_distance perf))
                    (_get_runner_level perf) 15
               :: rest)
    /\ ((forall key, ~ service_ready e key) ->
        (_retrieve_strategies describe e w context user_id perf st).2 = st).
Proof.
  intros describe e w context user_id perf st.
  split; [|split; [|split; [|split; [|split]]]].
  - intros. apply retrieve_ignores_cache.
  - apply retrieve_unconfigured.
  - apply retrieve_sends_no_vector_search.
  - intros. apply retrieve_vector_search_first. assumption.
  - intros key Hready. apply (retrieve_query_first _ _ _ key). exact Hready.
  - apply retrieve_not_ready.
Qed.

Lemma retrieval_without_cache_witness :
  (exists rest,
      calls (retrieve_with_embedding keyed_engine kb_world "service-key"
               tired_behind_context sample_analysis "10k" "advanced" "steady run"
               (Some [0.1%Q; 0.2%Q]) initial_state).2
      = [] ++ SemanticSearchCall
                "https://project.supabase.co/rest/v1/rpc/semantic_search_strategies_kb"
                "service-key" [0.1%Q; 0.2%Q] "10k" "advanced" None 0.65 15
           :: rest)
  /\ (exists rest,
         calls (_retrieve_strategies plain_description keyed_engine kb_world
                  tired_behind_context "user-1" sample_analysis initial_state).2
         = [] ++ QueryKBCall
                   "https://project.supabase.co/rest/v1/rpc/query_coaching_strategies_kb"
                   "service-key" "10k" "advanced" 15
              :: rest)
  /\ (_retrieve_strategies plain_description configured_engine kb_world
        tired_behind_context "user-1" sample_analysis initial_state).2
     = initial_state.
Proof.
  split; [|split].
  - exact (proj1 (proj2 (proj2 (proj2
             (retrieval_without_cache plain_description keyed_engine kb_world
                tired_behind_context "user-1" sample_analysis initial_state))))
             "service-key" "10k" "advanced" "steady run" (Some [0.1%Q; 0.2%Q])
             eq_refl).
  - refine (proj1 (proj2 (proj2 (proj2 (proj2
              (retrieval_without_cache plain_description keyed_engine kb_world
                 tired_behind_context "user-1" sample_analysis initial_state)))))
              "service-key" _).
    repeat split; reflexivity.
  - refine (proj2 (proj2 (proj2 (proj2 (proj2
              (retrieval_without_cache plain_description configured_engine kb_world
                 tired_behind_context "user-1" sample_analysis initial_state)))))
              _).
    intros key (_ & Hkey & _). discriminate Hkey.
Defined.

(** ** The memory fetcher *)

Lemma fetch_query_state e w key user_id query memories st :
  (fetch_query e w key user_id query memories st).2 = st
  \/ exists base_url,
      (fetch_query e w key user_id query memories st).2
      = {| pending := pending st;
           calls := calls st ++ [Mem0SearchCall base_url key query user_id 3] |}.
Proof.
  unfold fetch_query.
  destruct (mem0_base_url e) as [base|]; [|left; reflexivity].
  right. exists (base +:+ "/memories/search").
  unfold getattr, bind, post, ret. simpl.
  destruct (mem0_search w _) as [|code [results|]]; simpl; try reflexivity;
    destruct (code =? 200)%Z; reflexivity.
Qed.

Lemma fetch_queries_returns e w key user_id queries :
  forall memories st,
    exists found new,
      fetch_queries e w key user_id queries memories st
      = (Return found, {| pending := pending st; calls := calls st ++ new |})
      /\ length new <= length queries
      /\ Forall (is_memory_search key user_id) new.
Proof.
  induction queries as [|query rest IH]; intros memories st.
  - exists memories, []. simpl. rewrite app_nil_r. destruct st. auto.
  - simpl.
    destruct (fetch_query_state e w key user_id query memories st) as [Hst|[base Hst]];
      destruct (fetch_query e w key user_id query memories st) as [[ms|ex] st'];
      simpl in Hst; subst st'.
    + destruct (IH ms st) as (found & new & -> & Hlen & Hall).
      exists found, new. split; [reflexivity|]. split; [lia|exact Hall].
    + exists memories, []. rewrite app_nil_r. destruct st. simpl. split; [reflexivity|].
      split; [lia|constructor].
    + destruct (IH ms {| pending := pending st;
                         calls := calls st
                                  ++ [Mem0SearchCall base key query user_id 3] |})
        as (found & new & -> & Hlen & Hall).
      exists found, (Mem0SearchCall base key query user_id 3 :: new). simpl.
      rewrite <- app_assoc. split; [reflexivity|]. split; [lia|].
      constructor; [exists base, query; reflexivity|exact Hall].
    + exists memories, [Mem0SearchCall base key query user_id 3]. simpl.
      split; [reflexivity|]. split; [lia|].
      constructor; [exists base, query; reflexivity|constructor].
Qed.

Lemma seen_spec (t : string) seen : existsb (String.eqb t) seen = true <-> t ∈ seen.
Proof.
  rewrite existsb_exists. split.
  - intros (x & Hin & Heq). apply String.eqb_eq in Heq as ->.
    apply list_elem_of_In, Hin.
  - intros Hin. exists t. split; [apply list_elem_of_In, Hin|apply String.eqb_refl].
Qed.

Lemma dedup_memories_sublist l : forall seen, dedup_memories seen l `sublist_of` l.
Proof.
  induction l as [|m rest IH]; intros seen; simpl; [constructor|].
  destruct (existsb _ seen).
  - apply sublist_cons, IH.
  - apply sublist_skip, IH.
Qed.

Lemma dedup_memories_fresh l :
  forall seen m,
    m ∈ dedup_memories seen l -> Mem0CoachingMemory.memory_text m ∉ seen.
Proof.
  induction l as [|x rest IH]; intros seen m; simpl; [intros H; inversion H|].
  destruct (existsb _ seen) eqn:E.
  - apply IH.
  - intros [->|Hin]%elem_of_cons.
    + intros Hin. apply seen_spec in Hin. congruence.
    + intros Hseen. apply (IH _ _ Hin). apply elem_of_cons. right. exact Hseen.
Qed.

Lemma dedup_memories_nodup l :
  forall seen, NoDup (map Mem0CoachingMemory.memory_text (dedup_memories seen l)).
Proof.
  induction l as [|x rest IH]; intros seen; simpl; [constructor|].
  destruct (existsb _ seen); [apply IH|].
  simpl. constructor; [|apply IH].
  intros Hin. apply list_elem_of_fmap in Hin as (m & Heq & Hm).
  apply dedup_memories_fresh in Hm. apply Hm. rewrite <- Heq.
  apply elem_of_cons. left. reflexivity.
Qed.

Lemma sublist_strongly_sorted {A} (R : A -> A -> Prop) (l1 l2 : list A) :
  l1 `sublist_of` l2 -> StronglySorted R l2 -> StronglySorted R l1.
Proof.
  intros Hsub. induction Hsub as [|x l1 l2 Hsub IH|x l1 l2 Hsub IH]; intros Hs.
  - constructor.
  - apply StronglySorted_inv in Hs as [Hs Hall]. constructor; [apply IH, Hs|].
    apply List.Forall_forall. intros y Hy.
    rewrite List.Forall_forall in Hall. apply Hall.
    apply list_elem_of_In. eapply elem_of_sublist; [|exact Hsub].
    apply list_elem_of_In, Hy.
  - apply StronglySorted_inv in Hs as [Hs _]. apply IH, Hs.
Qed.

Lemma sorted_weaken {A} (R R' : A -> A -> Prop) (l : list A) :
  (forall a b, R a b -> R' a b) -> Sorted R l -> Sorted R' l.
Proof.
  intros HR Hs. induction Hs as [|x l Hs IH Hhd]; constructor; [exact IH|].
  destruct Hhd; constructor. apply HR. assumption.
Qed.

Lemma sorted_by_relevance l :
  StronglySorted by_relevance
    (sorted_desc (fun x y => Qltb (Mem0CoachingMemory.relevance_score x)
                                  (Mem0CoachingMemory.relevance_score y)) l).
Proof.
  apply Sorted_StronglySorted.
  - intros a b c Hab Hbc. unfold by_relevance in *. lra.
  - eapply sorted_weaken; [|apply sorted_desc_sorted].
    + intros a b H. unfold not_below in H. apply Qltb_ge in H. exact H.
    + intros a b H. apply Qltb_lt in H. apply Qltb_ge. lra.
Qed.

(** For an engine that has a memory key, [_fetch_mem0_coaching_memories]
    never raises, whatever the memory service does: it returns at most
    five memories with pairwise different texts, in order of decreasing
    relevance.  It sends at most three requests, each a search for this
    user with limit 3, and leaves the pending store alone. *)
Theorem memory_fetch_bounds :
  forall e w user_id context st key,
    mem0_api_key e = Some key ->
    let r := _fetch_mem0_coaching_memories e w user_id context st in
    exists memories new,
      r.1 = Return memories
      /\ length memories <= 5
      /\ NoDup (map Mem0CoachingMemory.memory_text memories)
      /\ StronglySorted by_relevance memories
      /\ pending r.2 = pending st
      /\ calls r.2 = calls st ++ new
      /\ length new <= 3
      /\ Forall (is_memory_search key user_id) new.
Proof.
  intros e w user_id context st key Hkey r.
  assert (exists found new,
             r = (Return
                    (take 5 (dedup_memories []
                       (sorted_desc
                          (fun x y => Qltb (Mem0CoachingMemory.relevance_score x)
                                           (Mem0CoachingMemory.relevance_score y))
                          found))),
                  {| pending := pending st; calls := calls st ++ new |})
             /\ length new <= 3
             /\ Forall (is_memory_search key user_id) new)
    as (found & new & -> & Hlen & Hall).
  { subst r. unfold _fetch_mem0_coaching_memories. rewrite Hkey.
    unfold getattr. unfold bind at 1, ret at 1.
    destruct (str_truthy key) eqn:Htruthy; cbn [negb].
    - unfold bind at 1.
      match goal with
      | |- context [fetch_queries e w key user_id ?qs [] st] =>
          destruct (fetch_queries_returns e w key user_id qs [] st)
            as (found & new & -> & Hlen & Hall)
      end.
      exists found, new. simpl in Hlen. auto.
    - exists [], []. rewrite app_nil_r. destruct st. simpl.
      split; [reflexivity|]. split; [lia|constructor]. }
  simpl. eexists _, new. split; [reflexivity|].
  split; [rewrite length_take; lia|].
  split.
  { eapply sublist_NoDup; [apply dedup_memories_nodup|].
    apply (fmap_sublist Mem0CoachingMemory.memory_text), sublist_take. }
  split.
  { eapply sublist_strongly_sorted; [|apply sorted_by_relevance].
    etransitivity; [apply sublist_take|apply dedup_memories_sublist]. }
  auto.
Qed.

Lemma memory_fetch_bounds_witness :
  exists memories,
    (_fetch_mem0_coaching_memories keyed_engine fading_memory_world "user-1"
       tired_behind_context initial_state).1 = Return memories
    /\ length memories <= 5.
Proof.
  destruct (memory_fetch_bounds keyed_engine fading_memory_world "user-1"
              tired_behind_context initial_state "m0-key" eq_refl)
    as (memories & new & Hr & Hlen & _).
  exists memories. split; [exact Hr|exact Hlen].
Defined.

(** ** What the fetcher reads into a memory *)

Lemma str_contains_cons needle c t :
  str_contains needle (String c t)
  = String.prefix needle (String c t) || str_contains needle t.
Proof.
  unfold str_contains.
  change (String.index 0 needle (String c t))
    with (if String.prefix needle (String c t) then Some 0
          else match String.index 0 needle t with
               | Some n0 => Some (S n0)
               | None => None
               end).
  destruct (String.prefix needle (String c t)); [reflexivity|].
  destruct (String.index 0 needle t); reflexivity.
Qed.

Lemma prefix_contains needle t :
  String.prefix needle t = true -> str_contains needle t = true.
Proof.
  destruct t as [|c t].
  - destruct needle; [reflexivity|discriminate].
  - intros H. rewrite str_contains_cons, H. reflexivity.
Qed.

Lemma prefix_tail a needle t :
  String.prefix (String a needle) t = true ->
  exists t', t = String a t' /\ String.prefix needle t' = true.
Proof.
  destruct t as [|b t']; simpl; [discriminate|].
  destruct (Ascii.ascii_dec a b) as [->|]; [|discriminate]. eauto.
Qed.

Lemma ineffective_contains_effective t :
  str_contains "ineffective" t = true -> str_contains "effective" t = true.
Proof.
  induction t as [|c t IH]; [discriminate|].
  rewrite !str_contains_cons. intros [Hp|Hc]%orb_true_iff.
  - apply prefix_tail in Hp as (t1 & [= -> ->] & Hp).
    apply prefix_tail in Hp as (t2 & -> & Hp).
    apply orb_true_iff. right.
    rewrite str_contains_cons. apply orb_true_iff. right.
    apply prefix_contains, Hp.
  - apply orb_true_iff. right. apply IH, Hc.
Qed.

(** A memory whose text says that something was "ineffective" is filed
    under what did not work and, because "effective" is part of that
    word, under what worked as well. *)
Theorem ineffective_memory_counts_as_worked :
  forall (r : Mem0Result) (text : string),
    r_memory r = Some text ->
    str_contains "ineffective" (py_lower text) = true ->
    Mem0CoachingMemory.what_didnt_work (memory_of_result r) = Some text
    /\ Mem0CoachingMemory.what_worked (memory_of_result r) = Some text.
Proof.
  intros r text Hr Hin. unfold memory_of_result. rewrite Hr. simpl.
  rewrite Hin, (ineffective_contains_effective _ Hin).
  rewrite !orb_true_r. simpl. split; reflexivity.
Qed.

Lemma ineffective_memory_counts_as_worked_witness :
  Mem0CoachingMemory.what_didnt_work (memory_of_result ineffective_result)
  = Some "Long intervals were INEFFECTIVE on hot days"
  /\ Mem0CoachingMemory.what_worked (memory_of_result ineffective_result)
     = Some "Long intervals were INEFFECTIVE on hot days".
Proof.
  apply (ineffective_memory_counts_as_worked ineffective_result
           "Long intervals were INEFFECTIVE on hot days"); reflexivity.
Defined.

(** ** Strategy selection *)

Lemma py_max_by_first_best {A} (key : A -> Q) (l : list A) :
  forall best,
    exists before after,
      best :: l = before ++ py_max_by key best l :: after
      /\ Forall (fun x => (key x < key (py_max_by key best l))%Q) before
      /\ Forall (fun x => (key x <= key (py_max_by key best l))%Q) after.
Proof.
  induction l as [|x l IH]; intros best.
  - exists [], []. simpl. repeat split; constructor.
  - simpl. destruct (Qltb (key best) (key x)) eqn:E.
    + apply Qltb_lt in E.
      destruct (IH x) as (before & after & Heq & Hb & Ha).
      exists (best :: before), after. rewrite Heq. split; [reflexivity|].
      split; [|exact Ha]. constructor; [|exact Hb].
      destruct before as [|y before'].
      * injection Heq as Hx _. rewrite <- Hx. exact E.
      * injection Heq as Hy _. subst y. apply Forall_cons in Hb as [Hb _]. lra.
    + apply Qltb_ge in E.
      destruct (IH best) as (before & after & Heq & Hb & Ha).
      destruct before as [|y before'].
      * injection Heq as Hbest Hl. exists [], (x :: after).
        split; [simpl; rewrite <- Hbest, Hl; reflexivity|].
        split; [constructor|]. constructor; [rewrite <- Hbest; exact E|exact Ha].
      * injection Heq as Hy Hl. subst y. exists (best :: x :: before'), after.
        split; [simpl; do 2 f_equal; exact Hl|]. split; [|exact Ha].
        apply Forall_cons in Hb as [Hy Hb].
        constructor; [exact Hy|]. constructor; [lra|exact Hb].
Qed.

Lemma insight_texts_facts n mems :
  length (insight_texts n mems) <= n
  /\ Forall (fun t => t ∈ map Mem0CoachingMemory.memory_text mems)
       (insight_texts n mems).
Proof.
  unfold insight_texts. split.
  - rewrite length_map, length_take. lia.
  - apply Forall_forall. intros t Ht.
    apply list_elem_of_fmap in Ht as (m & -> & Hm).
    apply list_elem_of_fmap. exists m. split; [reflexivity|].
    apply elem_of_take_elem in Hm. exact Hm.
Qed.

Lemma simple_selection_sources format_percent context strategies mems :
  let out := _select_best_strategy_simple format_percent context strategies mems in
  length (AdaptiveStrategyOutput.source_strategies out) <= 3
  /\ Forall (fun s => s ∈ strategies) (AdaptiveStrategyOutput.source_strategies out)
  /\ length (AdaptiveStrategyOutput.mem0_insights_used out) <= 3
  /\ Forall (fun t => t ∈ map Mem0CoachingMemory.memory_text mems)
       (AdaptiveStrategyOutput.mem0_insights_used out)
  /\ AdaptiveStrategyOutput.execution_id out = None
  /\ AdaptiveStrategyOutput.priority_tags out
     = take 3 (SituationContext.situation_tags context).
Proof.
  cbv zeta. destruct strategies as [|first others]; simpl.
  - repeat split; try constructor; lia.
  - destruct (py_max_by_first_best (selection_score context) others first)
      as (before & after & Heq & _).
    destruct (insight_texts_facts 2 mems) as [Hlen Hall].
    split; [lia|]. split.
    { constructor; [|constructor]. rewrite Heq.
      apply elem_of_app. right. apply elem_of_cons. left. reflexivity. }
    split; [lia|]. split; [exact Hall|]. split; reflexivity.
Qed.

Section SelectionFacts.
Variable format_percent : Q -> string.
Variable UserTopStrategy : Type.
Variable build_prompt :
  SituationContext.t -> list CoachingStrategy.t -> list Mem0CoachingMemory.t ->
  list UserTopStrategy -> PerformanceAnalysis.t -> string.
Variable selection_completions : call -> reply selection_content.

Lemma select_closed e context strategies mems tops perf st key :
  openai_key e = Some key ->
  str_truthy key = true ->
  _select_and_adapt_strategy format_percent UserTopStrategy build_prompt
    selection_completions e context strategies mems tops perf st
  = (Return
       match selection_completions
               (selection_call key (build_prompt context strategies mems tops perf)) with
       | Response code (Some (SelectionObject parsed)) =>
           if (code =? 200)%Z
           then adapted_output context strategies mems parsed
           else _select_best_strategy_simple format_percent context strategies mems
       | Response code (Some (SelectionText text)) =>
           if (code =? 200)%Z
           then raw_text_output context strategies mems text
           else _select_best_strategy_simple format_percent context strategies mems
       | _ => _select_best_strategy_simple format_percent context strategies mems
       end,
     {| pending := pending st;
        calls := calls st
                 ++ [selection_call key
                       (build_prompt context strategies mems tops perf)] |}).
Proof.
  intros Hkey Htruthy. unfold _select_and_adapt_strategy, selection_call.
  rewrite Hkey. unfold getattr. unfold bind at 1, ret at 1.
  rewrite Htruthy. cbn [negb].
  unfold try_except, bind, post.
  destruct (selection_completions _) as [|code [[text|parsed|]|]]; simpl;
    try reflexivity; destruct (code =? 200)%Z; reflexivity.
Qed.

Lemma select_without_request e context strategies mems tops perf st :
  openai_key e = None \/ (exists key, openai_key e = Some key /\ str_truthy key = false) ->
  _select_and_adapt_strategy format_percent UserTopStrategy build_prompt
    selection_completions e context strategies mems tops perf st
  = (match openai_key e with
     | None => Raise (AttributeError "openai_key")
     | Some _ => Return (_select_best_strategy_simple format_percent context
                           strategies mems)
     end, st).
Proof.
  unfold _select_and_adapt_strategy.
  intros [Hkey|(key & Hkey & Htruthy)]; rewrite Hkey; [reflexivity|].
  unfold getattr. unfold bind at 1, ret at 1. rewrite Htruthy. reflexivity.
Qed.

(** [_select_and_adapt_strategy] raises only when the engine has no
    [openai_key] attribute.  Otherwise it sends at most one request and
    returns an output that names at most three source strategies, all
    among the candidates, and quotes at most three memories, all among
    those given; the output has no execution id and carries the first
    three situation tags.  The output is the simple selection unless the
    model answered 200 with text or with a JSON object (a JSON value of
    another kind counts as a failure). *)
Theorem llm_selection_outcomes :
  forall e context strategies mems tops perf st,
    let r := _select_and_adapt_strategy format_percent UserTopStrategy build_prompt
               selection_completions e context strategies mems tops perf st in
    let request key :=
      selection_call key (build_prompt context strategies mems tops perf) in
    pending r.2 = pending st
    /\ (calls r.2 = calls st
        \/ exists key,
            openai_key e = Some key /\ str_truthy key = true
            /\ calls r.2 = calls st ++ [request key])
    /\ match r.1 with
       | Raise ex => ex = AttributeError "openai_key" /\ openai_key e = None
       | Return out =>
           length (AdaptiveStrategyOutput.source_strategies out) <= 3
           /\ Forall (fun s => s ∈ strategies)
                (AdaptiveStrategyOutput.source_strategies out)
           /\ length (AdaptiveStrategyOutput.mem0_insights_used out) <= 3
           /\ Forall (fun t => t ∈ map Mem0CoachingMemory.memory_text mems)
                (AdaptiveStrategyOutput.mem0_insights_used out)
           /\ AdaptiveStrategyOutput.execution_id out = None
           /\ AdaptiveStrategyOutput.priority_tags out
              = take 3 (SituationContext.situation_tags context)
           /\ (out = _select_best_strategy_simple format_percent context
                       strategies mems
               \/ exists key content,
                   openai_key e = Some key
                   /\ selection_completions (request key)
                      = Response 200 (Some content)
                   /\ content <> SelectionOther)
       end.
Proof.
  intros e context strategies mems tops perf st r request.
  pose proof (simple_selection_sources format_percent context strategies mems)
    as Hsimple. cbv zeta in Hsimple.
  assert (forall out,
             AdaptiveStrategyOutput.source_strategies out = take 3 strategies ->
             AdaptiveStrategyOutput.mem0_insights_used out = insight_texts 3 mems ->
             length (AdaptiveStrategyOutput.source_strategies out) <= 3
             /\ Forall (fun s => s ∈ strategies)
                  (AdaptiveStrategyOutput.source_strategies out)
             /\ length (AdaptiveStrategyOutput.mem0_insights_used out) <= 3
             /\ Forall (fun t => t ∈ map Mem0CoachingMemory.memory_text mems)
                  (AdaptiveStrategyOutput.mem0_insights_used out)) as Htaken.
  { intros out -> ->. destruct (insight_texts_facts 3 mems) as [Hlen Hall].
    split; [rewrite length_take; lia|]. split; [|split; assumption].
    apply Forall_forall. intros s Hs. apply elem_of_take_elem in Hs. exact Hs. }
  destruct (openai_key e) as [key|] eqn:Hkey.
  2:{ subst r. rewrite select_without_request by (left; exact Hkey).
      rewrite Hkey. simpl. auto. }
  destruct (str_truthy key) eqn:Htruthy.
  2:{ subst r. rewrite select_without_request by (right; eauto).
      rewrite Hkey. simpl. split; [reflexivity|]. split; [left; reflexivity|].
      destruct Hsimple as (H1 & H2 & H3 & H4 & H5 & H6).
      repeat split; try assumption. left. reflexivity. }
  subst r. rewrite (select_closed _ _ _ _ _ _ _ key) by assumption.
  simpl. split; [reflexivity|]. split; [right; exists key; auto|].
  fold (request key).
  destruct Hsimple as (H1 & H2 & H3 & H4 & H5 & H6).
  destruct (selection_completions (request key)) as [|code [[text|parsed|]|]] eqn:Hreply;
    try (repeat split; try assumption; left; reflexivity);
    (destruct (code =? 200)%Z eqn:Hcode;
     [apply Z.eqb_eq in Hcode as ->
     |repeat split; try assumption; left; reflexivity]).
  - destruct (Htaken (raw_text_output context strategies mems text) eq_refl eq_refl)
      as (T1 & T2 & T3 & T4).
    repeat split; try assumption. right. exists key, (SelectionText text).
    repeat split; [exact Hreply|discriminate].
  - destruct (Htaken (adapted_output context strategies mems parsed) eq_refl eq_refl)
      as (T1 & T2 & T3 & T4).
    repeat split; try assumption. right. exists key, (SelectionObject parsed).
    repeat split; [exact Hreply|discriminate].
Qed.
End SelectionFacts.

(** ** Embeddings for the knowledge base *)

Lemma stored_app w l1 l2 : stored w (l1 ++ l2) = (stored w l1 + stored w l2)%Z.
Proof. unfold stored. rewrite filter_app, length_app. lia. Qed.

Lemma stored_nonneg w l : (0 <= stored w l)%Z.
Proof. unfold stored. lia. Qed.

Lemma stored_cons w c l :
  stored w (c :: l) = ((if update_accepted w c then 1 else 0) + stored w l)%Z.
Proof.
  unfold stored. rewrite filter_cons.
  destruct (decide (update_accepted w c = true)) as [H|H].
  - rewrite H. simpl length. lia.
  - apply not_true_is_false in H. rewrite H. lia.
Qed.

Lemma no_update_stored w l :
  Forall (fun c => is_update c = false) l ->
  stored w l = 0%Z /\ existsb (update_lost w) l = false.
Proof.
  induction 1 as [|c l Hc _ [IH1 IH2]]; [split; reflexivity|].
  rewrite stored_cons. simpl. rewrite IH1, IH2.
  destruct c; try discriminate Hc; split; reflexivity.
Qed.

Section KBEmbeddingFacts.
Variable embedding_text_of : KBRow.t -> string.

Lemma embedding_step w text key log :
  exists embedding new,
    _generate_embedding_with_key w text key log = (Return embedding, log ++ new)
    /\ Forall (fun c => is_update c = false) new.
Proof.
  unfold _generate_embedding_with_key.
  destruct (str_truthy key); simpl.
  2:{ exists None, []. rewrite app_nil_r. split; [reflexivity|constructor]. }
  unfold ltry, lbind, lrequest.
  destruct (openai_embeddings w _) as [|code [result|]]; simpl.
  - eexists None, [_]. split; [reflexivity|repeat constructor].
  - destruct (code =? 200)%Z; simpl;
      eexists _, [_]; (split; [reflexivity|repeat constructor]).
  - destruct (code =? 200)%Z; simpl;
      eexists _, [_]; (split; [reflexivity|repeat constructor]).
Qed.

Lemma store_embeddings_counts e w key rows :
  forall count log,
    exists new,
      store_embeddings embedding_text_of e w key rows count log
      = (if existsb (update_lost w) new then Raise TransportError
         else Return (count + stored w new)%Z,
         log ++ new)
      /\ (stored w new <= Z.of_nat (length rows))%Z.
Proof.
  induction rows as [|row rest IH]; intros count log.
  - exists []. simpl. rewrite app_nil_r, Z.add_0_r. split; [reflexivity|].
    unfold stored. simpl. lia.
  - cbn [store_embeddings]. unfold lbind at 1.
    destruct (embedding_step w (embedding_text_of row) key log)
      as (embedding & enew & -> & Hen).
    destruct (no_update_stored w enew Hen) as [Hs0 Hl0].
    destruct (embedding_available embedding).
    + unfold lbind at 1, lrequest.
      set (u := UpdateEmbeddingCall _ _ _ _).
      destruct (update_strategy_embedding_kb w u) as [|code body] eqn:Hu.
      * assert (update_lost w u = true) as Hlost
          by (unfold update_lost; subst u; rewrite Hu; reflexivity).
        assert (update_accepted w u = false) as Hacc
          by (unfold update_accepted; subst u; rewrite Hu; reflexivity).
        exists (enew ++ [u]). rewrite existsb_app, Hl0.
        cbn [existsb orb]. rewrite Hlost. cbn [orb].
        rewrite app_assoc. split; [reflexivity|].
        rewrite stored_app, Hs0, stored_cons, Hacc.
        unfold stored. simpl length. lia.
      * assert (update_lost w u = false) as Hlost
          by (unfold update_lost; subst u; rewrite Hu; reflexivity).
        assert (update_accepted w u = (code =? 200)%Z) as Hacc
          by (unfold update_accepted; subst u; rewrite Hu; reflexivity).
        cbn [fst snd].
        destruct (code =? 200)%Z.
        -- destruct (IH (count + 1)%Z ((log ++ enew) ++ [u])) as (new & -> & Hle).
           exists (enew ++ u :: new).
           rewrite existsb_app, Hl0. cbn [existsb orb]. rewrite Hlost. cbn [orb].
           rewrite stored_app, Hs0, stored_cons, Hacc.
           replace (((log ++ enew) ++ [u]) ++ new) with (log ++ enew ++ u :: new)
             by (rewrite <- !app_assoc; reflexivity).
           split; [|simpl length; lia].
           destruct (existsb (update_lost w) new); [reflexivity|].
           do 2 f_equal. lia.
        -- destruct (IH count ((log ++ enew) ++ [u])) as (new & -> & Hle).
           exists (enew ++ u :: new).
           rewrite existsb_app, Hl0. cbn [existsb orb]. rewrite Hlost. cbn [orb].
           rewrite stored_app, Hs0, stored_cons, Hacc.
           replace (((log ++ enew) ++ [u]) ++ new) with (log ++ enew ++ u :: new)
             by (rewrite <- !app_assoc; reflexivity).
           split; [|simpl length; lia].
           destruct (existsb (update_lost w) new); [reflexivity|].
           do 2 f_equal.
    + destruct (IH count (log ++ enew)) as (new & -> & Hle).
      exists (enew ++ new). rewrite existsb_app, Hl0. simpl.
      rewrite stored_app, Hs0, app_assoc. split; [reflexivity|simpl length; lia].
Qed.

(** [generate_and_store_kb_embeddings] never raises.  Without the three
    keys it returns 0 and sends nothing.  Otherwise the number it
    returns is the number of embeddings the service accepted, unless an
    update request failed in transport: then it returns 0, whatever was
    stored before the failure.  The last part names one such run: one
    embedding stored, 0 returned. *)
Theorem kb_embeddings_count :
  (forall env e w strategy_id log,
      exists n new,
        generate_and_store_kb_embeddings embedding_text_of env e w strategy_id log
        = (Return n, log ++ new)
        /\ (new = [] \/ embedding_keys_present env e = true)
        /\ n = (if existsb (update_lost w) new then 0 else stored w new)%Z
        /\ (0 <= n <= stored w new)%Z)
  /\ (exists new,
         generate_and_store_kb_embeddings embedding_text_of openai_environment
           configured_engine dropping_kb_world None []
         = (Return 0%Z, new)
         /\ stored dropping_kb_world new = 1%Z).
Proof.
  split.
  - intros env e w strategy_id log.
    unfold generate_and_store_kb_embeddings.
    destruct (embedding_keys_present env e) eqn:Hkeys.
    2:{ unfold embedding_keys_present in Hkeys.
        assert (negb (str_truthy (default EmptyString (env "OPENAI_API_KEY")))
                || negb (str_truthy (supabase_url e))
                || negb (str_truthy (supabase_anon_key e)) = true) as ->.
        { destruct (str_truthy (default _ _)), (str_truthy (supabase_url e)),
            (str_truthy (supabase_anon_key e)); try discriminate Hkeys; reflexivity. }
        exists 0%Z, []. rewrite app_nil_r. simpl. unfold stored. simpl.
        split; [reflexivity|]. split; [left; reflexivity|]. split; [reflexivity|lia]. }
    unfold embedding_keys_present in Hkeys.
    apply andb_true_iff in Hkeys as [Hkeys H3].
    apply andb_true_iff in Hkeys as [H1 H2].
    rewrite H1, H2, H3. cbn [negb orb].
    unfold ltry, lbind at 1, lrequest.
    set (f := FetchStrategiesCall _ _ _).
    assert (forall l, stored w (f :: l) = stored w l
                      /\ existsb (update_lost w) (f :: l) = existsb (update_lost w) l)
      as Hf by (intros l; rewrite stored_cons; split; reflexivity).
    assert (stored w [f] = 0%Z /\ existsb (update_lost w) [f] = false) as [Hf1 Hf2]
      by (split; reflexivity).
    destruct (coaching_strategies_kb w f) as [|code [rows|]]; simpl.
    + exists 0%Z, [f]. rewrite Hf1, Hf2. auto with zarith.
    + destruct (code =? 200)%Z; simpl.
      2:{ exists 0%Z, [f]. rewrite Hf1, Hf2. auto with zarith. }
      unfold lbind, lret. simpl.
      destruct (is_nil rows).
      { exists 0%Z, [f]. rewrite Hf1, Hf2. auto with zarith. }
      destruct (store_embeddings_counts e w
                  (default EmptyString (env "OPENAI_API_KEY")) rows 0%Z (log ++ [f]))
        as (new & -> & Hle).
      destruct (Hf new) as [Hs Hl].
      pose proof (stored_nonneg w new) as Hnn.
      destruct (existsb (update_lost w) new) eqn:Hlost; simpl.
      * exists 0%Z, (f :: new). rewrite Hs, Hl.
        replace ((log ++ [f]) ++ new) with (log ++ f :: new)
          by (rewrite <- app_assoc; reflexivity).
        split; [reflexivity|]. split; [right; reflexivity|]. split; [reflexivity|lia].
      * exists (stored w new), (f :: new). rewrite Hs, Hl.
        replace ((log ++ [f]) ++ new) with (log ++ f :: new)
          by (rewrite <- app_assoc; reflexivity).
        split; [reflexivity|]. split; [right; reflexivity|]. split; [reflexivity|lia].
    + destruct (code =? 200)%Z; simpl;
        exists 0%Z, [f]; rewrite Hf1, Hf2; auto with zarith.
  - eexists. split; reflexivity.
Qed.
End KBEmbeddingFacts.

(** ** Provenance of the retrieved strategies *)

Lemma retrieved_sources describe e w context user_id perf st strategies :
  (_retrieve_strategies describe e w context user_id perf st).1 = Return strategies ->
  Forall (fun s => CoachingStrategy.source s = "fallback"
                   \/ CoachingStrategy.source s = "kb") strategies.
Proof.
  assert (Forall (fun s => CoachingStrategy.source s = "fallback"
                           \/ CoachingStrategy.source s = "kb")
                 (_get_fallback_strategies context)) as Hfallback.
  { eapply Forall_impl; [apply fallback_strategies_facts|]. simpl. auto. }
  destruct (service_ready_dec e) as [[key Hready]|Hno].
  - rewrite (retrieve_closed _ _ _ key) by exact Hready.
    destruct (is_nil _); [intros [= <-]; exact Hfallback|].
    destruct (_llm_match_conditions _ _ _ _ _ _) as [[ranked|ex] st2];
      intros [= <-]; [|exact Hfallback].
    apply Forall_forall. intros s Hs.
    apply list_elem_of_fmap in Hs as (row & -> & _). right. reflexivity.
  - unfold _retrieve_strategies.
    destruct (str_truthy (supabase_url e)) eqn:Hurl; simpl;
      [|intros [= <-]; exact Hfallback].
    destruct (supabase_key e) as [key|] eqn:Hkey; simpl; [|discriminate].
    unfold bind. simpl.
    destruct (str_truthy key) eqn:Htruthy; simpl; [|intros [= <-]; exact Hfallback].
    exfalso. apply (Hno key). repeat split; assumption.
Qed.

(** The selection score gives a strategy from the database a provenance
    bonus of 0.2 and any other 0.1.  No strategy that
    [_retrieve_strategies] returns is marked as coming from the
    database, so on retrieved strategies the bonus is always 0.1 and the
    ranking is by success rate, similarity and common tags alone. *)
Theorem retrieved_strategies_never_get_database_bonus :
  forall describe e w context user_id perf st strategies,
    (_retrieve_strategies describe e w context user_id perf st).1 = Return strategies ->
    Forall (fun s =>
              CoachingStrategy.source s <> "database"
              /\ forall situation,
                  (selection_score situation s
                   == score_before_provenance situation s + 0.1)%Q)
           strategies.
Proof.
  intros describe e w context user_id perf st strategies H.
  eapply Forall_impl; [exact (retrieved_sources _ _ _ _ _ _ _ _ H)|].
  intros s Hs. simpl in Hs.
  assert (String.eqb (CoachingStrategy.source s) "database" = false) as Hne
    by (destruct Hs as [-> | ->]; reflexivity).
  split.
  - intros Heq. rewrite Heq in Hne. discriminate Hne.
  - intros situation. unfold selection_score, score_before_provenance.
    rewrite Hne. reflexivity.
Qed.

Lemma retrieved_strategies_never_get_database_bonus_witness :
  Forall (fun s =>
            CoachingStrategy.source s <> "database"
            /\ forall situation,
                (selection_score situation s
                 == score_before_provenance situation s + 0.1)%Q)
         [kb_to_strategy false candidate_a].
Proof.
  apply (retrieved_strategies_never_get_database_bonus plain_description
           keyed_engine kb_world tired_behind_context "user-1" sample_analysis
           initial_state).
  reflexivity.
Defined.
